(** * AI_PPT_Generator_with_Template: template replication and assembly

    A shallow embedding of the planning, replication, sanitising and
    content-injection code of the repository

      - app/services/template_analyzer.py   (module [TemplateAnalyzer])
      - app/services/slide_renderer.py      (module [SlideRenderer])
      - app/services/watermark_remover.py   (module [WatermarkRemover])
      - app/services/slide_populator.py     (module [SlidePopulator])
      - app/utils/slide_duplicator.py       (modules [SlideDuplicator],
                                             [Duplicator])
      - app/main.py                         (modules [Main], [MainDay])
      - app/services/content_generator.py   (modules [ContentGenerator],
                                             [ResponseText])
      - app/services/validator.py           (module [PresentationValidator])
      - app/services/template_parser.py     (module [TemplateParser])
      - app/services/image_service.py       (module [ImageService])
      - app/services/pdf_extractor.py       (module [PDFExtractor])

    Python [int] is [Z]; [str] is [string] (texts are taken to be ASCII);
    Python lists are Rocq lists, indexed with stdpp's lookup; an exception
    is a value of [PyError] carried by the [result] monad. *)

From Stdlib Require Import ZArith Lia Bool Ascii String DecimalString Sorted.
From stdpp Require Import base option list list_numbers.

Local Open Scope Z_scope.

(** ** Exceptions and the error monad *)

Inductive PyError : Type :=
| ValueError (msg : string)
| IndexError
| HTTPException (status_code : Z) (detail : string).

Inductive result (A : Type) : Type :=
| Ok (a : A)
| Raise (e : PyError).
Arguments Ok {A} a.
Arguments Raise {A} e.

Global Instance result_ret : MRet result := fun A a => Ok a.
Global Instance result_bind : MBind result := fun A B k m =>
  match m with
  | Ok a => k a
  | Raise e => Raise e
  end.
Global Instance result_fmap : FMap result := fun A B f m =>
  match m with
  | Ok a => Ok (f a)
  | Raise e => Raise e
  end.

(** ** Python primitives used by the code *)

Module Py.

(** [len(l)] *)
Definition len {A} (l : list A) : Z := Z.of_nat (length l).

(** [list(range(a, b))] *)
Definition range (a b : Z) : list Z := seqZ a (b - a).

(** [seq[i]]: a negative index counts from the end, and an index outside
    [-len, len) raises [IndexError]. The lists of a plan and the slide
    collection of the cloning library are both read this way. *)
Definition index {A} (l : list A) (i : Z) : result A :=
  let j := if i <? 0 then len l + i else i in
  if (0 <=? j) && (j <? len l)
  then match l !! Z.to_nat j with
       | Some a => Ok a
       | None => Raise IndexError
       end
  else Raise IndexError.

(** Truth value of a list: [if l:] *)
Definition truthy {A} (l : list A) : bool :=
  match l with [] => false | _ => true end.

(** [c.lower()] on an ASCII character *)
Definition lower_char (c : ascii) : ascii :=
  let n := nat_of_ascii c in
  if (65 <=? n)%nat && (n <=? 90)%nat then ascii_of_nat (n + 32) else c.

(** [s.lower()] *)
Fixpoint lower (s : string) : string :=
  match s with
  | EmptyString => EmptyString
  | String c rest => String (lower_char c) (lower rest)
  end.

(** [sub in s] on strings *)
Fixpoint contains (sub s : string) : bool :=
  String.prefix sub s ||
  match s with
  | EmptyString => false
  | String _ rest => contains sub rest
  end.

(** [sep.join(parts)] *)
Fixpoint join (sep : string) (parts : list string) : string :=
  match parts with
  | [] => EmptyString
  | [p] => p
  | p :: rest => String.append p (String.append sep (join sep rest))
  end.

(** [s[:n]] on a string, for [n >= 0] *)
Definition str_take (n : nat) (s : string) : string := String.substring 0 n s.

(** [s.split("\n")] *)
Fixpoint split_lines (s : string) : list string :=
  match s with
  | EmptyString => [EmptyString]
  | String c rest =>
      if Ascii.eqb c (ascii_of_nat 10)
      then EmptyString :: split_lines rest
      else match split_lines rest with
           | first :: others => String c first :: others
           | [] => [String c EmptyString]
           end
  end.

(** [l.sort(key=...)]: the stable sort, by insertion; [le a b] says
    that the key of [a] is at most the key of [b] *)
Fixpoint insert_by {A} (le : A -> A -> bool) (x : A) (l : list A) : list A :=
  match l with
  | [] => [x]
  | y :: rest => if le y x then y :: insert_by le x rest else x :: l
  end.

Definition sort_by {A} (le : A -> A -> bool) (l : list A) : list A :=
  fold_left (fun sorted x => insert_by le x sorted) l [].

(** [any(f(x) for x in l)] *)
Definition any {A} (f : A -> bool) (l : list A) : bool := existsb f l.

(** [str(n)] and [str(l)] for a list of integers *)
Definition str_int (n : Z) : string := NilZero.string_of_int (Z.to_int n).

Definition str_list (l : list Z) : string :=
  String.append "[" (String.append (join ", " (str_int <$> l)) "]").

(** [sorted(list(set(l)))]: insertion into an ascending list without
    repetitions *)
Fixpoint insert_sorted (x : Z) (l : list Z) : list Z :=
  match l with
  | [] => [x]
  | y :: rest =>
      if x <? y then x :: l
      else if x =? y then l
      else y :: insert_sorted x rest
  end.

Definition sorted_set (l : list Z) : list Z := foldr insert_sorted [] l.

End Py.


(** ** The python-pptx document model

    What the code reads and writes of a presentation opened with
    python-pptx. Every shape carries explicit geometry, in EMU. *)

Inductive Alignment : Type := PP_ALIGN_LEFT | PP_ALIGN_CENTER.
Inductive Anchor : Type := MSO_ANCHOR_TOP | MSO_ANCHOR_MIDDLE.

Record Paragraph : Type := mkParagraph {
  p_text : string;
  p_level : option Z;
  p_bullet : option (string * string);      (* a:buFont typeface, a:buChar char *)
  font_size : option Z;                     (* in points *)
  font_bold : option bool;
  font_name : option string;
  font_color : option (Z * Z * Z);
  p_alignment : option Alignment;
  space_before : option Z;                  (* in points *)
  space_after : option Z;
  line_spacing_tenths : option Z            (* 11 stands for 1.1 *)
}.

Definition empty_paragraph : Paragraph :=
  mkParagraph EmptyString None None None None None None None None None None.

Record TextFrame : Type := mkTextFrame {
  paragraphs : list Paragraph;
  word_wrap : option bool;
  vertical_anchor : option Anchor;
  margin_left : option Z;
  margin_right : option Z;
  margin_top : option Z;
  margin_bottom : option Z
}.

(** [text_frame.text]: the paragraphs' texts joined by a line feed *)
Definition frame_text (tf : TextFrame) : string :=
  Py.join (String (ascii_of_nat 10) EmptyString) (p_text <$> paragraphs tf).

(** The shapes of a slide. Only [AutoShape] (auto shapes, text boxes and
    placeholders) has the attribute [text_frame]. *)
#[warnings="-register-all"]
Inductive Shape : Type :=
| AutoShape (left top width height : Z) (text_frame : TextFrame)
| Picture (left top width height : Z) (image : string)
| GroupShape (left top width height : Z) (shapes : list Shape)
| GraphicFrame (left top width height : Z).

Definition shape_top (s : Shape) : Z :=
  match s with
  | AutoShape _ t _ _ _ | Picture _ t _ _ _ | GroupShape _ t _ _ _
  | GraphicFrame _ t _ _ => t
  end.

Definition shape_width (s : Shape) : Z :=
  match s with
  | AutoShape _ _ w _ _ | Picture _ _ w _ _ | GroupShape _ _ w _ _
  | GraphicFrame _ _ w _ => w
  end.

Definition shape_height (s : Shape) : Z :=
  match s with
  | AutoShape _ _ _ h _ | Picture _ _ _ h _ | GroupShape _ _ _ h _
  | GraphicFrame _ _ _ h => h
  end.

(** [shape.text_frame] where [hasattr(shape, 'text_frame')] *)
Definition shape_text_frame (s : Shape) : option TextFrame :=
  match s with
  | AutoShape _ _ _ _ tf => Some tf
  | _ => None
  end.

(** The notes of a slide, as [slide.notes_slide.notes_text_frame] finds
    them. A slide has a notes slide or not; [slide.notes_slide] makes
    one when there is none, from the notes master of the presentation
    the slide is part of, and [master_has_body] tells whether that
    master gives it a notes placeholder. The text frame of a notes
    slide is that of its notes placeholder, and [None] without one. *)
Inductive Notes : Type :=
| NoNotesSlide (master_has_body : bool)
| NotesSlide (notes_text_frame : option string).

Record Slide : Type := mkSlide {
  shapes : list Shape;
  notes : Notes
}.

Record Presentation : Type := mkPresentation {
  slide_width : Z;
  slide_height : Z;
  slides : list Slide
}.

(** models.py: [SlideContent] *)
Record SlideContent : Type := mkSlideContent {
  slide_number : Z;
  title : string;
  bullet_points : list string;
  speaker_notes : string;
  image_concept : option string
}.

(** ** Watermark removal, shared by the two removers

    A slide's shape tree holds elements; an element is removed by
    identity. The identity of a shape's element is its position in the
    tree before the removal starts. *)

Module Sanitize.

Definition Element : Type := (nat * Shape)%type.

Definition shape_tree (l : list Shape) : list Element :=
  imap (fun i s => (i, s)) l.

(** [any(kw in text for kw in watermark_keywords)] on
    [shape.text_frame.text.lower()], for a shape that has a text frame *)
Definition is_watermark (watermark_keywords : list string) (s : Shape) : bool :=
  match shape_text_frame s with
  | Some tf =>
      let text := Py.lower (frame_text tf) in
      Py.any (fun kw => Py.contains kw text) watermark_keywords
  | None => false
  end.

(** [for shape in slide.shapes: ... shapes_to_remove.append(shape)] *)
Fixpoint collect (watermark_keywords : list string) (tree : list Element)
    (shapes_to_remove : list Element) : list Element :=
  match tree with
  | [] => shapes_to_remove
  | shape :: rest =>
      if is_watermark watermark_keywords (snd shape)
      then collect watermark_keywords rest (shapes_to_remove ++ [shape])
      else collect watermark_keywords rest shapes_to_remove
  end.

(** [sp.getparent().remove(sp)] *)
Fixpoint remove (sp : Element) (tree : list Element) : list Element :=
  match tree with
  | [] => []
  | el :: rest =>
      if (fst el =? fst sp)%nat then rest else el :: remove sp rest
  end.

(** [for shape in shapes_to_remove: ...remove(sp); total_removed += 1] *)
Fixpoint remove_all (shapes_to_remove : list Element) (tree : list Element)
    (total_removed : Z) : list Element * Z :=
  match shapes_to_remove with
  | [] => (tree, total_removed)
  | shape :: rest => remove_all rest (remove shape tree) (total_removed + 1)
  end.

(** The body of the loop over the slides, for one slide *)
Definition clean_slide (watermark_keywords : list string) (slide : Slide)
    (total_removed : Z) : Slide * Z :=
  let tree := shape_tree (shapes slide) in
  let shapes_to_remove := collect watermark_keywords tree [] in
  let '(tree, total_removed) := remove_all shapes_to_remove tree total_removed in
  (mkSlide (snd <$> tree) (notes slide), total_removed).

(** [for slide in presentation.slides:] *)
Fixpoint clean_slides (watermark_keywords : list string) (l : list Slide)
    (total_removed : Z) : list Slide * Z :=
  match l with
  | [] => ([], total_removed)
  | slide :: rest =>
      let '(slide, total_removed) :=
        clean_slide watermark_keywords slide total_removed in
      let '(rest, total_removed) :=
        clean_slides watermark_keywords rest total_removed in
      (slide :: rest, total_removed)
  end.

End Sanitize.

(** ** watermark_remover.py *)

Module WatermarkRemover.

Definition watermark_keywords : list string :=
  [ "evaluation only"; "created with aspose"; "aspose.slides";
    "aspose pty ltd"; "copyright 2004-2025aspose"; "evaluation";
    "aspose" ]%string.

(** The number of shapes removed, which the code only logs *)
Definition total_removed (presentation : Presentation) : Z :=
  snd (Sanitize.clean_slides watermark_keywords (slides presentation) 0).

Definition remove_watermarks (presentation : Presentation) : Presentation :=
  mkPresentation (slide_width presentation) (slide_height presentation)
    (fst (Sanitize.clean_slides watermark_keywords (slides presentation) 0)).

End WatermarkRemover.

(** ** slide_renderer.py: the replicator *)

(** The [template_config] dictionary. It is only ever read with the keys
    below; a key that is absent is [None]. The empty dictionary is the
    record whose fields are all [None]. *)
Record TemplateConfig : Type := mkConfig {
  strategy : option string;
  unique_slides : option (list Z);
  duplicate_slides : option (list Z);
  num_template_slides : option Z
}.

(** [if template_config:] on an [Optional[Dict]] *)
Definition config_truthy (template_config : option TemplateConfig) : bool :=
  match template_config with
  | None => false
  | Some c =>
      match strategy c, unique_slides c, duplicate_slides c, num_template_slides c with
      | None, None, None, None => false
      | _, _, _, _ => true
      end
  end.

(** [d.get(key, default)] *)
Definition get {A} (field : option A) (default : A) : A :=
  match field with Some a => a | None => default end.


(** ** The regular expressions of template_analyzer.py

    Matching as the [re] module does it on ASCII text: a matcher is tried
    at a position, given the character before it (for the word boundary
    [\b]), and returns the value of its group and the text left after the
    match. *)

Module Re.

Definition is_digit (c : ascii) : bool :=
  let n := nat_of_ascii c in (48 <=? n)%nat && (n <=? 57)%nat.

Definition is_alpha (c : ascii) : bool :=
  let n := nat_of_ascii (Py.lower_char c) in (97 <=? n)%nat && (n <=? 122)%nat.

(** [\w] *)
Definition is_word (c : ascii) : bool :=
  is_digit c || is_alpha c || (nat_of_ascii c =? 95)%nat.

(** [\s]: tab, line feed, vertical tab, form feed, carriage return, the
    four separators 28 to 31, and the space *)
Definition is_space (c : ascii) : bool :=
  let n := nat_of_ascii c in
  ((9 <=? n)%nat && (n <=? 13)%nat) || ((28 <=? n)%nat && (n <=? 32)%nat).

Definition Matcher : Type := option ascii -> string -> option (string * string).

(** A literal, ignoring case; the literals of the code are lower case *)
Fixpoint literal (lit s : string) : option string :=
  match lit, s with
  | EmptyString, _ => Some s
  | String a lit', String c s' =>
      if Ascii.eqb a (Py.lower_char c) then literal lit' s' else None
  | String _ _, EmptyString => None
  end.

(** The longest prefix whose characters satisfy [f], and the rest *)
Fixpoint span (f : ascii -> bool) (s : string) : string * string :=
  match s with
  | EmptyString => (EmptyString, EmptyString)
  | String c rest =>
      if f c
      then let '(taken, after) := span f rest in (String c taken, after)
      else (EmptyString, s)
  end.

(** [\s+] and [(\d+)]: greedy, and never given back, since what follows
    them in every pattern of the code starts with a character outside
    the class *)
Definition spaces1 (s : string) : option string :=
  match span is_space s with
  | (EmptyString, _) => None
  | (_, rest) => Some rest
  end.

Definition digits1 (s : string) : option (string * string) :=
  match span is_digit s with
  | (EmptyString, _) => None
  | r => Some r
  end.

(** [\b] between the character before the position and the text at it *)
Definition at_boundary (prev : option ascii) (s : string) : bool :=
  let before := match prev with Some c => is_word c | None => false end in
  let after := match s with String c _ => is_word c | EmptyString => false end in
  xorb before after.

(** [int(m)] of a string of digits, of at most 4300 of them: CPython
    raises [ValueError] on a longer one. *)
Fixpoint int_acc (acc : Z) (digits : string) : Z :=
  match digits with
  | EmptyString => acc
  | String c rest => int_acc (10 * acc + (Z.of_nat (nat_of_ascii c) - 48)) rest
  end.

Definition int (digits : string) : Z := int_acc 0 digits.

(** [re.findall]: the groups of the matches found from left to right,
    none overlapping another; [skip] counts the characters of the last
    match still to pass *)
Fixpoint findall (m : Matcher) (prev : option ascii) (s : string) (skip : nat)
    : list string :=
  match s with
  | EmptyString => []
  | String c rest =>
      match skip with
      | S k => findall m (Some c) rest k
      | O =>
          match m prev s with
          | Some (group, after) =>
              group :: findall m (Some c) rest
                         (String.length s - String.length after - 1)%nat
          | None => findall m (Some c) rest 0%nat
          end
      end
  end.

(** [re.search(...)] as a truth value *)
Fixpoint search (m : Matcher) (prev : option ascii) (s : string) : bool :=
  match m prev s with
  | Some _ => true
  | None =>
      match s with
      | EmptyString => false
      | String c rest => search m (Some c) rest
      end
  end.

(** [re.split(r'[.!?;]', text)] *)
Definition is_sentence_end (c : ascii) : bool :=
  let n := nat_of_ascii c in
  (n =? 46)%nat || (n =? 33)%nat || (n =? 63)%nat || (n =? 59)%nat.

Fixpoint split_sentences (s : string) : list string :=
  match s with
  | EmptyString => [EmptyString]
  | String c rest =>
      if is_sentence_end c
      then EmptyString :: split_sentences rest
      else match split_sentences rest with
           | first :: others => String c first :: others
           | [] => [String c EmptyString]
           end
  end.

(** [slide\s+(\d+)] *)
Definition pattern1 : Matcher := fun _ s =>
  s ← literal "slide" s; s ← spaces1 s; digits1 s.

(** [(\d+)(?:st|nd|rd|th)\s+slide] *)
Definition pattern2 : Matcher := fun _ s =>
  '(group, s) ← digits1 s;
  s ← match literal "st" s, literal "nd" s, literal "rd" s, literal "th" s with
      | Some r, _, _, _ | None, Some r, _, _ | None, None, Some r, _
      | None, None, None, Some r => Some r
      | None, None, None, None => None
      end;
  s ← spaces1 s;
  s ← literal "slide" s;
  Some (group, s).

(** [\b{word}\s+slide\b] *)
Definition pattern3 (word : string) : Matcher := fun prev s =>
  if at_boundary prev s
  then
    s ← literal word s; s ← spaces1 s; s ← literal "slide" s;
    if at_boundary (Some "e"%char) s then Some (word, s) else None
  else None.

(** [(not\s+repeat|unique|once|don\'t\s+repeat|do not repeat|single|special)] *)
Definition unique_keywords : Matcher := fun _ s =>
  let alternatives : list (option string) :=
    [ s ← literal "not" s; s ← spaces1 s; literal "repeat" s;
      literal "unique" s;
      literal "once" s;
      s ← literal "don't" s; s ← spaces1 s; literal "repeat" s;
      literal "do not repeat" s;
      literal "single" s;
      literal "special" s ] in
  match omap id alternatives with
  | rest :: _ => Some (EmptyString, rest)
  | [] => None
  end.

(** [\b(\d+)\b] *)
Definition number : Matcher := fun prev s =>
  if at_boundary prev s
  then
    '(group, rest) ← digits1 s;
    if at_boundary (Some "0"%char) rest then Some (group, rest) else None
  else None.

End Re.

(** ** template_analyzer.py: the allocation planner *)

Module TemplateAnalyzer.

(** What the language model answers to the prompt built from the three
    arguments: [None] when the call or the parsing of the answer raises,
    otherwise the keys of the parsed JSON object, for an answer whose
    two lists, when present, are lists of integers. The code does not
    check the answer: a value of another type (a null list, say) stays
    in the plan and makes a later step raise; such answers are outside
    this model. *)
Definition GenerativeModel : Type :=
  Z -> string -> Z ->
  option (option (list Z) * option (list Z) * option string).

Definition _get_default_strategy (num_template_slides num_required_slides : Z)
    : TemplateConfig :=
  let unique_slides := if 2 <=? num_template_slides then [2] else [] in
  let all_middle := Py.range 2 num_template_slides in
  let duplicate_slides :=
    filter (fun s => s ∉ unique_slides) all_middle in
  let duplicate_slides :=
    if Py.truthy duplicate_slides then duplicate_slides else all_middle in
  let strategy :=
    String.append "Default: Slide 2 is unique (TOC). Slides "
      (String.append (Py.str_list duplicate_slides) " can be duplicated.") in
  mkConfig (Some strategy) (Some unique_slides) (Some duplicate_slides)
    (Some num_template_slides).

Definition word_to_num : list (string * Z) :=
  [ ("first", 1); ("second", 2); ("third", 3); ("fourth", 4); ("fifth", 5);
    ("sixth", 6); ("seventh", 7); ("eighth", 8); ("ninth", 9);
    ("tenth", 10) ]%string.

Definition _extract_slide_numbers (text : string) : list Z :=
  let slide_numbers : list Z := [] in
  let matches := Re.findall Re.pattern1 None text 0 in
  let slide_numbers := slide_numbers ++ (Re.int <$> matches) in
  let matches := Re.findall Re.pattern2 None text 0 in
  let slide_numbers := slide_numbers ++ (Re.int <$> matches) in
  let slide_numbers :=
    slide_numbers ++
    omap (fun '(word, num) =>
            if Re.search (Re.pattern3 word) None text then Some num else None)
         word_to_num in
  let sentences := Re.split_sentences text in
  let slide_numbers :=
    slide_numbers ++
    mjoin ((fun sentence =>
              if Re.search Re.unique_keywords None sentence
              then
                let nums := Re.findall Re.number None sentence 0 in
                filter (fun n => 1 ≤ n ≤ 20) (Re.int <$> nums)
              else []) <$> sentences) in
  Py.sorted_set slide_numbers.

Definition _analyze_with_llm (model : GenerativeModel)
    (num_template_slides : Z) (user_instructions : string)
    (num_required_slides : Z) : TemplateConfig :=
  match model num_template_slides user_instructions num_required_slides with
  | Some (unique_slides, duplicate_slides, strategy) =>
      mkConfig (Some (get strategy "Custom template strategy"%string))
        (Some (get unique_slides [])) (Some (get duplicate_slides []))
        (Some num_template_slides)
  | None => _get_default_strategy num_template_slides num_required_slides
  end.

Definition analyze_template_instructions (model : option GenerativeModel)
    (num_template_slides : Z) (user_instructions : option string)
    (num_required_slides : Z) : TemplateConfig :=
  match model, user_instructions with
  | Some model, Some (String c rest as user_instructions) =>
      let unique_slides := _extract_slide_numbers user_instructions in
      if Py.truthy unique_slides
      then
        let all_middle_slides := Py.range 2 num_template_slides in
        let duplicate_slides :=
          filter (fun s => s ∉ unique_slides) all_middle_slides in
        let duplicate_slides :=
          if Py.truthy duplicate_slides then duplicate_slides
          else all_middle_slides in
        let strategy :=
          String.append "Slides "
            (String.append (Py.str_list unique_slides)
               (String.append " are unique (appear once). Slides "
                  (String.append (Py.str_list duplicate_slides)
                     " can be duplicated."))) in
        mkConfig (Some strategy) (Some unique_slides) (Some duplicate_slides)
          (Some num_template_slides)
      else
        _analyze_with_llm model num_template_slides user_instructions
          num_required_slides
  | _, _ => _get_default_strategy num_template_slides num_required_slides
  end.

End TemplateAnalyzer.

Module SlideRenderer.

Section Assemble.
(** The slides of the cloning library; [add_clone] appends a copy of a
    slide, so a presentation is the list of the slides cloned so far. *)
Context {ISlide : Type}.
Variable template : list ISlide.

(** [while len(output.slides) > 1: output.slides.remove_at(1)] *)
Fixpoint remove_all_but_cover (fuel : nat) (output : list ISlide) : list ISlide :=
  match fuel with
  | O => output
  | S fuel' =>
      if 1 <? Py.len output
      then remove_all_but_cover fuel' (delete 1%nat output)
      else output
  end.

(** [for slide_num in unique_slides:] with the running [output] and
    [unique_added] *)
Fixpoint add_unique_slides (num_content_needed : Z) (unique : list Z)
    (output : list ISlide) (unique_added : Z) : result (list ISlide * Z) :=
  match unique with
  | [] => Ok (output, unique_added)
  | slide_num :: rest =>
      if unique_added <? num_content_needed
      then
        source_slide ← Py.index template (slide_num - 1);
        add_unique_slides num_content_needed rest
          (output ++ [source_slide]) (unique_added + 1)
      else add_unique_slides num_content_needed rest output unique_added
  end.

(** [for i in range(remaining_needed):] over the indices still to run *)
Fixpoint add_duplicate_slides (duplicate : list Z) (indices : list Z)
    (output : list ISlide) : result (list ISlide) :=
  match indices with
  | [] => Ok output
  | i :: rest =>
      slide_num ← Py.index duplicate (i mod Py.len duplicate);
      source_slide ← Py.index template (slide_num - 1);
      add_duplicate_slides duplicate rest (output ++ [source_slide])
  end.

(** [# Use config or default] *)
Definition use_config (num_template_slides : Z)
    (template_config : option TemplateConfig) : list Z * list Z :=
  match template_config with
  | Some c =>
      if config_truthy template_config
      then (get (unique_slides c) [],
            get (duplicate_slides c) (Py.range 2 num_template_slides))
      else ([], Py.range 2 num_template_slides)
  | None => ([], Py.range 2 num_template_slides)
  end.

(** The body of [render_presentation] up to [output.save]. *)
Definition assemble (num_required_slides : Z)
    (template_config : option TemplateConfig) : result (list ISlide) :=
  let num_template_slides := Py.len template in
  if num_template_slides <? 3
  then Raise (ValueError "Template must have at least 3 slides")
  else
    let '(unique, duplicate) := use_config num_template_slides template_config in
    let output := remove_all_but_cover (length template) template in
    let num_content_needed := num_required_slides - 2 in
    '(output, unique_added) ←
      add_unique_slides num_content_needed unique output 0;
    let remaining_needed := num_content_needed - unique_added in
    output ←
      (if (0 <? remaining_needed) && Py.truthy duplicate
       then add_duplicate_slides duplicate (Py.range 0 remaining_needed) output
       else Ok output);
    closing_slide ← Py.index template (num_template_slides - 1);
    Ok (output ++ [closing_slide]).

End Assemble.

Definition watermark_keywords : list string :=
  [ "evaluation only"; "created with aspose"; "aspose.slides";
    "aspose pty ltd"; "copyright"; "evaluation"; "aspose";
    "trial version" ]%string.

Definition _remove_watermarks (presentation : Presentation) : Presentation :=
  mkPresentation (slide_width presentation) (slide_height presentation)
    (fst (Sanitize.clean_slides watermark_keywords (slides presentation) 0)).

Section Render.
(** What [output.save] followed by reopening the file with python-pptx
    makes of a slide of the assembly: the cloning library, when
    unlicensed, stamps its evaluation marker on the slides it saves. *)
Variable save_and_reopen : Slide -> Slide.

(** [self.template_path] is the file of [template]. *)
Definition render_presentation (template : Presentation)
    (slides_content : list SlideContent)
    (template_config : option TemplateConfig) : result Presentation :=
  let num_required_slides := Py.len slides_content in
  output ← assemble (slides template) num_required_slides template_config;
  let final_prs :=
    mkPresentation (slide_width template) (slide_height template)
      (save_and_reopen <$> output) in
  Ok (_remove_watermarks final_prs).
End Render.

(** The source slide numbers an assembly is made of: the assembly of the
    template whose k-th slide is the number k. *)
Definition source_sequence (num_template_slides num_required_slides : Z)
    (template_config : option TemplateConfig) : result (list Z) :=
  assemble (Py.range 1 (num_template_slides + 1)) num_required_slides
    template_config.

End SlideRenderer.


(** ** slide_duplicator.py: part names of new slides *)

Module SlideDuplicator.

(** [string.ascii_letters] *)
Definition ascii_letters : list ascii :=
  list_ascii_of_string
    "abcdefghijklmnopqrstuvwxyzABCDEFGHIJKLMNOPQRSTUVWXYZ".

(** The random source: the k-th call of [random.choice] picks the
    letter at position [draws k] modulo 52. The state of the generator
    is the number of calls made. *)
Definition Random : Type := nat -> nat.

Definition choice (draws : Random) (calls : nat) : ascii * nat :=
  (nth (draws calls mod length ascii_letters) ascii_letters "a"%char,
   S calls).

(** ["".join(random.choice(string.ascii_letters) for _ in range(2))] *)
Definition random_part (draws : Random) (calls : nat) : string * nat :=
  let '(c1, calls) := choice draws calls in
  let '(c2, calls) := choice draws calls in
  (String c1 (String c2 EmptyString), calls).

(** [f"/ppt/slides/slide{infix}{n}.xml"] *)
Definition partname (infix : string) (n : Z) : string :=
  String.append "/ppt/slides/slide"
    (String.append infix (String.append (Py.str_int n) ".xml")).

(** [partname_str in existing_rels] *)
Definition name_in (partname_str : string) (existing_rels : list string) : bool :=
  existsb (String.eqb partname_str) existing_rels.

(** [while partname_str in existing_rels:], run for at most [fuel]
    tests of the condition; [None] when the loop is still running
    after them. The result carries the number of random calls made. *)
Fixpoint retry_loop (fuel : nat) (draws : Random) (existing_rels : list string)
    (sldIdLst_len : Z) (partname_str : string) (calls : nat)
    : option (string * nat) :=
  match fuel with
  | O => None
  | S fuel' =>
      if name_in partname_str existing_rels
      then
        let '(part, calls) := random_part draws calls in
        retry_loop fuel' draws existing_rels sldIdLst_len
          (partname part (sldIdLst_len + 1)) calls
      else Some (partname_str, calls)
  end.

(** [generate_slide_partname(self)], where [sldIdLst_len] is
    [len(sldIdLst)] and [existing_rels] the target part names of the
    relationships of the presentation part *)
Definition generate_slide_partname (fuel : nat) (draws : Random)
    (existing_rels : list string) (sldIdLst_len : Z) : option (string * nat) :=
  let partname_str := partname EmptyString (sldIdLst_len + 1) in
  retry_loop fuel draws existing_rels sldIdLst_len partname_str 0%nat.

(** The number of passes through the body of the loop *)
Definition retries (calls : nat) : nat := (calls / 2)%nat.

End SlideDuplicator.


(** ** slide_populator.py: the content injector *)

Module SlidePopulator.

(** [Inches(x)] in EMU, for the literals of the code *)
Definition Inches_0_1 : Z := 91440.
Definition Inches_0_15 : Z := 137160.
Definition Inches_0_2 : Z := 182880.
Definition Inches_0_5 : Z := 457200.
Definition Inches_0_7 : Z := 640080.
Definition Inches_0_75 : Z := 685800.
Definition Inches_0_8 : Z := 731520.
Definition Inches_0_9 : Z := 822960.
Definition Inches_1_2 : Z := 1097280.

(** [slide.shapes.add_textbox(left, top, width, height)]: the new text
    box has one empty paragraph. *)
Definition new_text_frame : TextFrame :=
  mkTextFrame [empty_paragraph] None None None None None None.

(** [text_frame.text = text]: one new paragraph for each line *)
Definition set_frame_text (text : string) (tf : TextFrame) : TextFrame :=
  mkTextFrame
    ((fun line => mkParagraph line None None None None None None None None None None)
       <$> Py.split_lines text)
    (word_wrap tf) (vertical_anchor tf) (margin_left tf) (margin_right tf)
    (margin_top tf) (margin_bottom tf).

Definition set_paragraphs (ps : list Paragraph) (tf : TextFrame) : TextFrame :=
  mkTextFrame ps (word_wrap tf) (vertical_anchor tf) (margin_left tf)
    (margin_right tf) (margin_top tf) (margin_bottom tf).

(** [text_frame.clear()]: all paragraphs but the first are removed and
    the first loses its text, keeping its properties. *)
Definition clear (tf : TextFrame) : TextFrame :=
  let first := default empty_paragraph (head (paragraphs tf)) in
  set_paragraphs
    [mkParagraph EmptyString (p_level first) (p_bullet first) (font_size first)
       (font_bold first) (font_name first) (font_color first)
       (p_alignment first) (space_before first) (space_after first)
       (line_spacing_tenths first)] tf.

(** [paragraphs[0]] of a frame rewritten by [f] *)
Definition update_first_paragraph (f : Paragraph -> Paragraph) (tf : TextFrame)
    : TextFrame :=
  match paragraphs tf with
  | [] => tf
  | p :: rest => set_paragraphs (f p :: rest) tf
  end.

(** [self._add_bullet_formatting(p)] *)
Definition _add_bullet_formatting (p : Paragraph) : Paragraph :=
  mkParagraph (p_text p) (p_level p) (Some ("Arial", "•")%string)
    (font_size p) (font_bold p) (font_name p) (font_color p) (p_alignment p)
    (space_before p) (space_after p) (line_spacing_tenths p).

(** An entry of [text_shapes]; the shape is held by its position in
    [slide.shapes]. *)
Record TextShape : Type := mkTextShape {
  ts_shape : nat;
  ts_area : Z;
  ts_top : Z;
  ts_width : Z
}.

(** The order of the keys [(s['top'], -s['area'])] *)
Definition key_le (a b : TextShape) : bool :=
  (ts_top a <? ts_top b) ||
  ((ts_top a =? ts_top b) && (- ts_area a <=? - ts_area b)).

(** [for shape in slide.shapes: if hasattr(shape, 'text_frame'): ...] *)
Definition find_text_shapes (l : list Shape) : list TextShape :=
  omap (fun '(i, shape) =>
          match shape_text_frame shape with
          | Some _ =>
              Some (mkTextShape i (shape_width shape * shape_height shape)
                      (shape_top shape) (shape_width shape))
          | None => None
          end)
       (imap (fun i shape => (i, shape)) l).

(** The text frame of the shape at position [i] rewritten by [f] *)
Definition update_text_frame (i : nat) (f : TextFrame -> TextFrame)
    (l : list Shape) : list Shape :=
  match l !! i with
  | Some (AutoShape x y w h tf) => <[i := AutoShape x y w h (f tf)]> l
  | _ => l
  end.

Section Inject.
(** [int(x * c)] for the float literal [c], given in hundredths: the
    product is a binary64 operation, not interpreted here. *)
Variable int_times : Z -> Z -> Z.

(** [self._add_image_strict(prs, slide, image_prompt, image_source,
    left, top, max_width, max_height)]: the picture it adds to the
    slide, if the image service delivers one and it fits. *)
Variable _add_image_strict :
  Presentation -> Slide -> string -> string -> Z -> Z -> Z -> Z -> option Shape.

Definition _add_title_slide_content_smart (prs : Presentation) (slide : Slide)
    (content : SlideContent) : Slide :=
  let title := title content in
  let subtitle := default EmptyString (head (bullet_points content)) in
  let text_shapes := find_text_shapes (shapes slide) in
  let text_shapes := Py.sort_by key_le text_shapes in
  match text_shapes with
  | title_shape :: subtitle_shape :: _ =>
      let write_title tf :=
        set_paragraphs
          (paragraphs (clear tf) ++
           [mkParagraph title None None (Some 40) (Some true)
              (Some "Arial"%string) None (Some PP_ALIGN_CENTER) None None None])
          tf in
      let shapes1 := update_text_frame (ts_shape title_shape) write_title (shapes slide) in
      let write_subtitle tf :=
        set_paragraphs
          (paragraphs (clear tf) ++
           [mkParagraph subtitle None None (Some 20) None
              (Some "Arial"%string) (Some (80, 80, 80)) (Some PP_ALIGN_CENTER)
              None None None])
          tf in
      let shapes2 :=
        match subtitle with
        | EmptyString => shapes1
        | _ => update_text_frame (ts_shape subtitle_shape) write_subtitle shapes1
        end in
      mkSlide shapes2 (notes slide)
  | _ =>
      let slide_width := slide_width prs in
      let slide_height := slide_height prs in
      let margin := Inches_0_75 in
      let title_left := margin in
      let title_width := slide_width - 2 * margin in
      let title_top := int_times slide_height 35 in
      let title_height := Inches_1_2 in
      let title_frame := set_frame_text title new_text_frame in
      let title_frame :=
        mkTextFrame (paragraphs title_frame) (Some true) (Some MSO_ANCHOR_MIDDLE)
          None None None None in
      let title_frame :=
        update_first_paragraph
          (fun p => mkParagraph (p_text p) (p_level p) (p_bullet p) (Some 40)
                      (Some true) (Some "Arial"%string) (font_color p)
                      (Some PP_ALIGN_CENTER) (space_before p) (space_after p)
                      (line_spacing_tenths p))
          title_frame in
      let shapes1 :=
        shapes slide ++
        [AutoShape title_left title_top title_width title_height title_frame] in
      let shapes2 :=
        match subtitle with
        | EmptyString => shapes1
        | _ =>
            let subtitle_top := int_times slide_height 52 in
            let subtitle_height := Inches_0_8 in
            let subtitle_frame := set_frame_text subtitle new_text_frame in
            let subtitle_frame :=
              mkTextFrame (paragraphs subtitle_frame) (Some true) None
                None None None None in
            let subtitle_frame :=
              update_first_paragraph
                (fun p => mkParagraph (p_text p) (p_level p) (p_bullet p)
                            (Some 20) (font_bold p) (Some "Arial"%string)
                            (Some (80, 80, 80)) (Some PP_ALIGN_CENTER)
                            (space_before p) (space_after p)
                            (line_spacing_tenths p))
                subtitle_frame in
            shapes1 ++
            [AutoShape title_left subtitle_top title_width subtitle_height
               subtitle_frame]
        end in
      mkSlide shapes2 (notes slide)
  end.

(** [if len(bullets) > max_bullets: bullets = bullets[:max_bullets]] *)
Definition limit_bullets (bullets : list string) : list string :=
  let max_bullets := 7%nat in
  if (max_bullets <? length bullets)%nat then take max_bullets bullets
  else bullets.

(** [if len(bullet) > max_bullet_length: bullet = bullet[:max_bullet_length-3] + "..."] *)
Definition truncate_bullet (bullet : string) : string :=
  let max_bullet_length := 120%nat in
  if (max_bullet_length <? String.length bullet)%nat
  then String.append (Py.str_take (max_bullet_length - 3) bullet) "..."
  else bullet.

(** The body of [for i, bullet in enumerate(bullets):] on the
    paragraph [p] *)
Definition write_bullet (size before after : Z)
    (bullet : string) (p : Paragraph) : Paragraph :=
  let bullet := truncate_bullet bullet in
  let p :=
    mkParagraph (String.append " " bullet) (Some 0) (p_bullet p) (font_size p)
      (font_bold p) (font_name p) (font_color p) (p_alignment p)
      (space_before p) (space_after p) (line_spacing_tenths p) in
  let p := _add_bullet_formatting p in
  mkParagraph (p_text p) (p_level p) (p_bullet p) (Some size)
    (font_bold p) (Some "Arial"%string) (Some (0, 0, 0)) (Some PP_ALIGN_LEFT)
    (Some before) (Some after) (Some 11).

(** [for i, bullet in enumerate(bullets):] on the paragraphs of the
    text box: the first bullet takes [paragraphs[0]], each later one
    a paragraph added at the end. *)
Fixpoint add_bullets (font_size space_before space_after : Z)
    (bullets : list (nat * string)) (ps : list Paragraph) : list Paragraph :=
  match bullets with
  | [] => ps
  | (i, bullet) :: rest =>
      let ps :=
        if (i =? 0)%nat
        then match ps with
             | p :: others =>
                 write_bullet font_size space_before space_after bullet p :: others
             | [] => []
             end
        else ps ++ [write_bullet font_size space_before space_after bullet
                      empty_paragraph] in
      add_bullets font_size space_before space_after rest ps
  end.

(** [try: slide.notes_slide.notes_text_frame.text = text] with
    [except: pass]: the notes slide is made if the slide has none, and
    the assignment raises, and is given up, when the notes slide has no
    text frame. *)
Definition write_notes (text : string) (notes : Notes) : Notes :=
  let notes_text_frame :=
    match notes with
    | NoNotesSlide master_has_body =>
        if master_has_body then Some EmptyString else None
    | NotesSlide notes_text_frame => notes_text_frame
    end in
  match notes_text_frame with
  | Some _ => NotesSlide (Some text)
  | None => NotesSlide None
  end.

Definition _add_content_slide (prs : Presentation) (slide : Slide)
    (content : SlideContent) (image_source : string) : Slide :=
  let title := title content in
  let bullets := bullet_points content in
  let slide_width := slide_width prs in
  let slide_height := slide_height prs in
  let margin_h := Inches_0_7 in
  let margin_top := Inches_0_9 in
  let margin_bottom := Inches_0_5 in
  let usable_width := slide_width - 2 * margin_h in
  let usable_height := slide_height - margin_top - margin_bottom in
  let title_left := margin_h in
  let title_top := margin_top in
  let title_width := usable_width in
  let title_height := Inches_0_7 in
  let title_frame := set_frame_text title new_text_frame in
  let title_frame :=
    mkTextFrame (paragraphs title_frame) (Some true) None None None None (Some 0) in
  let title_frame :=
    update_first_paragraph
      (fun p => mkParagraph (p_text p) (p_level p) (p_bullet p) (Some 28)
                  (Some true) (Some "Arial"%string) (Some (31, 73, 125))
                  (Some PP_ALIGN_LEFT) (space_before p) (Some 0)
                  (line_spacing_tenths p))
      title_frame in
  let title_box :=
    AutoShape title_left title_top title_width title_height title_frame in
  let has_image :=
    match image_concept content with
    | Some (String _ _) => negb (String.eqb image_source "none")
    | _ => false
    end in
  let gap_after_title := Inches_0_2 in
  let content_top := title_top + title_height + gap_after_title in
  let available_height := slide_height - content_top - margin_bottom in
  let '(text_left, text_width, image_left, image_width) :=
    if has_image
    then
      let text_width := int_times usable_width 50 in
      let gap := int_times usable_width 5 in
      let image_width := int_times usable_width 45 in
      let text_left := margin_h in
      let image_left := text_left + text_width + gap in
      let image_width :=
        if slide_width - margin_h <? image_left + image_width
        then (slide_width - margin_h) - image_left
        else image_width in
      (text_left, text_width, image_left, image_width)
    else (margin_h, usable_width, 0, 0) in
  let bullets := limit_bullets bullets in
  let text_frame :=
    mkTextFrame (paragraphs new_text_frame) (Some true) (Some MSO_ANCHOR_TOP)
      (Some Inches_0_15) (Some Inches_0_15) (Some Inches_0_1) (Some Inches_0_1) in
  let '(font_size, space_before, space_after) :=
    if (length bullets <=? 4)%nat then (17, 9, 10)
    else if (length bullets <=? 6)%nat then (15, 7, 8)
    else (12, 4, 6) in
  let text_frame :=
    set_paragraphs
      (add_bullets font_size space_before space_after
         (imap (fun i bullet => (i, bullet)) bullets) (paragraphs text_frame))
      text_frame in
  let text_box :=
    AutoShape text_left content_top text_width available_height text_frame in
  let slide := mkSlide (shapes slide ++ [title_box; text_box]) (notes slide) in
  let slide :=
    if has_image
    then
      match _add_image_strict prs slide (default EmptyString (image_concept content))
              image_source image_left content_top image_width available_height
      with
      | Some picture => mkSlide (shapes slide ++ [picture]) (notes slide)
      | None => slide
      end
    else slide in
  match speaker_notes content with
  | EmptyString => slide
  | speaker_notes => mkSlide (shapes slide) (write_notes speaker_notes (notes slide))
  end.

(** [for idx, content in enumerate(slides_content):] on the slides of
    the presentation; [template_slide_count] was read before the
    loop. *)
Fixpoint populate_slides (prs : Presentation) (template_slide_count : Z)
    (image_source : string) (slides_content : list SlideContent)
    (idx : nat) (l : list Slide) : list Slide :=
  match slides_content with
  | [] => l
  | content :: rest =>
      if Py.len l <=? Z.of_nat idx then l     (* break *)
      else
        match l !! idx with
        | None => l
        | Some slide =>
            if (idx =? 0)%nat
            then
              populate_slides prs template_slide_count image_source rest (S idx)
                (<[idx := _add_title_slide_content_smart prs slide content]> l)
            else if Z.of_nat idx =? template_slide_count - 1
            then
              populate_slides prs template_slide_count image_source rest (S idx) l
            else
              populate_slides prs template_slide_count image_source rest (S idx)
                (<[idx := _add_content_slide prs slide content image_source]> l)
        end
  end.

(** The arguments [organization_type], [logo_path] and
    [logo_position] are not read by the code. *)
Definition populate_presentation (presentation : Presentation)
    (slides_content : list SlideContent) (image_source : string)
    : Presentation :=
  let template_slide_count := Py.len (slides presentation) in
  mkPresentation (slide_width presentation) (slide_height presentation)
    (populate_slides presentation template_slide_count image_source
       slides_content 0 (slides presentation)).

End Inject.

End SlidePopulator.


(** ** main.py: the request handler *)

Module Main.

(** [str(e)] of an exception caught by [except Exception as e]; the
    text of the message of an index error is the library's. *)
Definition str (e : PyError) : string :=
  match e with
  | ValueError msg => msg
  | IndexError => "index out of range"
  | HTTPException _ detail => detail
  end.

(** [except HTTPException: raise] and
    [except Exception as e: raise HTTPException(status_code=500, detail=str(e))] *)
Definition handle {A} (r : result A) : result A :=
  match r with
  | Ok a => Ok a
  | Raise (HTTPException code detail) => Raise (HTTPException code detail)
  | Raise e => Raise (HTTPException 500 (str e))
  end.

Section Handler.
(** The language model of the analyzer, present when an API key is
    configured. *)
Variable model : option TemplateAnalyzer.GenerativeModel.

(** [ContentGenerator().generate_presentation_content(...)] for the
    day, the number of slides and the plan. On a plan of this model,
    whose lists are lists of integers, it returns: it builds its texts
    from the plan and falls back on the fallback content when the
    model fails. *)
Variable generate_presentation_content :
  Z -> Z -> option TemplateConfig -> list SlideContent.

Variable save_and_reopen : Slide -> Slide.
Variable int_times : Z -> Z -> Z.
Variable _add_image_strict :
  Presentation -> Slide -> string -> string -> Z -> Z -> Z -> Z -> option Shape.

(** [# Analyze template] *)
Definition analyze_template (template : Presentation)
    (template_instructions : option string) (num_slides : Z)
    : option TemplateConfig :=
  match template_instructions with
  | Some (String _ _ as instructions) =>
      let num_template_slides := Py.len (slides template) in
      Some (TemplateAnalyzer.analyze_template_instructions model
              num_template_slides (Some instructions) num_slides)
  | _ => None
  end.

(** One pass of [for day_num in range(1, num_days + 1):], up to the
    saving of the file *)
Definition generate_day (template : Presentation)
    (template_config : option TemplateConfig) (num_slides : Z)
    (image_source : string) (day_num : Z) : result Presentation :=
  let slides_content :=
    generate_presentation_content day_num num_slides template_config in
  duplicated_presentation ←
    SlideRenderer.render_presentation save_and_reopen template
      slides_content template_config;
  Ok (SlidePopulator.populate_presentation int_times _add_image_strict
        duplicated_presentation slides_content image_source).

(** [generate_presentation], from the validation to the list of the
    presentations generated, one for each day *)
Definition generate_presentation (template : Presentation)
    (template_instructions : option string) (num_slides num_days : Z)
    (use_ai_images : bool) : result (list Presentation) :=
  handle
    (if num_slides <? 3
     then Raise (HTTPException 400 "Minimum 3 slides required")
     else if num_days <? 1
     then Raise (HTTPException 400 "Minimum 1 day required")
     else
       let image_source :=
         (if use_ai_images then "ai_generated" else "pexels")%string in
       let template_config :=
         analyze_template template template_instructions num_slides in
       mapM (generate_day template template_config num_slides image_source)
         (Py.range 1 (num_days + 1))).

End Handler.

End Main.


(** ** content_generator.py: the content records *)

Module ContentGenerator.

Local Infix "+:+" := String.append (at level 60, right associativity).

(** [l[:n]] on a list: a negative [n] counts from the end. *)
Definition slice_to {A} (n : Z) (l : list A) : list A :=
  if 0 <=? n then take (Z.to_nat n) l
  else take (Z.to_nat (Py.len l + n)) l.

(** A slide of the answer of the language model, as parsed from JSON: a
    key that is absent is [None]. *)
Record SlideData : Type := mkSlideData {
  sd_slide_number : option Z;
  sd_title : option string;
  sd_bullets : option (list string);
  sd_speaker_notes : option string;
  sd_image_prompt : option string
}.

(** The arguments of [generate_presentation_content], from which the
    prompt is built *)
Record Request : Type := mkRequest {
  topic : string;
  num_slides : Z;
  audience : string;
  program_type : string;
  website_url : option string;
  pdf_content : option string;
  additional_instructions : string;
  template_config : option TemplateConfig
}.

(** What the language model, the extraction of its text and the parsing
    of the JSON give for a request: the list of slides ([slides_data],
    after the key ['slides'] of an object is taken), or [None] when one
    of them, or the making of a record from a slide, raises. *)
Definition GenerativeModel : Type := Request -> option (list SlideData).

Definition topic_based_images (topic : string) : list string :=
  [ topic +:+ " overview presentation";
    topic +:+ " technology implementation";
    topic +:+ " business application";
    topic +:+ " data analysis visualization";
    topic +:+ " team collaboration";
    topic +:+ " strategy planning";
    topic +:+ " innovation development";
    topic +:+ " professional workspace";
    topic +:+ " digital transformation";
    topic +:+ " future trends" ].

Definition title_variations : list string :=
  [ "Introduction and Overview";
    "Key Benefits and Advantages";
    "Implementation Strategy";
    "Best Practices and Standards";
    "Technical Considerations";
    "Business Impact and Value";
    "Future Opportunities";
    "Case Studies and Examples";
    "Common Challenges and Solutions";
    "Success Factors and Metrics" ]%string.

(** [l[i % len(l)]] for a list of strings that is not empty *)
Definition cycle (l : list string) (i : Z) : string :=
  default EmptyString (l !! Z.to_nat (i mod Py.len l)).

(** The table of contents: [toc_items[:8]] *)
Definition toc_items (num_slides : Z) : list string :=
  take 8
    ((fun i => Py.str_int (i - 1) +:+ ". " +:+ cycle title_variations (i - 2))
       <$> Py.range 3 (Z.min num_slides 12)).

(** The body of [for i in range(start_idx, num_slides):] *)
Definition content_slide (topic : string) (start_idx i : Z) : SlideContent :=
  let title_idx := i - start_idx in
  let title := cycle title_variations title_idx in
  let image_prompt := cycle (topic_based_images topic) (i - start_idx) in
  mkSlideContent i title
    [ "Primary consideration and foundational concept";
      "Secondary factor with detailed explanation";
      "Third element with practical applications";
      "Fourth insight from industry research";
      "Fifth key point with supporting evidence";
      "Sixth takeaway and recommendations" ]%string
    ("Comprehensive explanation of " +:+ Py.lower title +:+ " related to "
       +:+ topic)
    (Some image_prompt).

Definition _generate_fallback_content (topic : string) (num_slides : Z)
    (template_config : option TemplateConfig) : list SlideContent :=
  let slides :=
    [ mkSlideContent 1 topic ["Professional Presentation"%string]
        ("Introduction to " +:+ topic) None ] in
  let unique_slides :=
    match template_config with
    | Some c => if config_truthy template_config then get (unique_slides c) [] else []
    | None => []
    end in
  let '(slides, start_idx) :=
    if bool_decide (2 ∈ unique_slides)
    then (slides ++
          [ mkSlideContent 2 "Table of Contents" (toc_items num_slides)
              "Overview of presentation structure and main topics" None ],
          3)
    else (slides, 2) in
  let slides :=
    slides ++ (content_slide topic start_idx <$> Py.range start_idx num_slides) in
  slides ++
  [ mkSlideContent num_slides "Thank You"
      ["Questions?"; "Discussion"; "Contact Information"]%string
      "Thank you for your attention. Open for questions and discussion."
      None ].

(** [SlideContent(slide_number=slide_data.get("slide_number", len(slides) + 1), ...)] *)
Definition record_of (slide_data : SlideData) (slides : list SlideContent)
    : SlideContent :=
  mkSlideContent
    (get (sd_slide_number slide_data) (Py.len slides + 1))
    (get (sd_title slide_data) EmptyString)
    (get (sd_bullets slide_data) [])
    (get (sd_speaker_notes slide_data) EmptyString)
    (sd_image_prompt slide_data).

(** [for slide_data in slides_data[:num_slides]: ... slides.append(slide)] *)
Fixpoint read_slides (slides_data : list SlideData) (slides : list SlideContent)
    : list SlideContent :=
  match slides_data with
  | [] => slides
  | slide_data :: rest => read_slides rest (slides ++ [record_of slide_data slides])
  end.

(** The record appended by [# Fill missing slides if needed] *)
Definition additional_insights (topic : string) (slide_num : Z) : SlideContent :=
  mkSlideContent slide_num "Additional Insights"
    [ "Primary consideration for this aspect";
      "Secondary factor with supporting details";
      "Third element and its implications";
      "Fourth insight from analysis";
      "Fifth application or example";
      "Sixth key takeaway" ]%string
    "Detailed explanation of this section"
    (Some (topic +:+ " insights analysis")).

(** [while len(slides) < num_slides:], run for at most [fuel] tests of
    the condition *)
Fixpoint fill_missing (fuel : nat) (topic : string) (num_slides : Z)
    (slides : list SlideContent) : list SlideContent :=
  match fuel with
  | O => slides
  | S fuel' =>
      if Py.len slides <? num_slides
      then
        let slide_num := Py.len slides + 1 in
        fill_missing fuel' topic num_slides
          (slides ++ [additional_insights topic slide_num])
      else slides
  end.

(** [generate_presentation_content]; [model] is [self.model]. The loop
    that fills the missing slides runs at most [num_slides] times. *)
Definition generate_presentation_content (model : option GenerativeModel)
    (request : Request) : list SlideContent :=
  let topic := topic request in
  let num_slides := num_slides request in
  match model with
  | None => _generate_fallback_content topic num_slides (template_config request)
  | Some model =>
      match model request with
      | Some slides_data =>
          let slides := read_slides (slice_to num_slides slides_data) [] in
          let slides := fill_missing (S (Z.to_nat num_slides)) topic num_slides slides in
          slice_to num_slides slides
      | None =>
          _generate_fallback_content topic num_slides (template_config request)
      end
  end.

(** [_build_program_context] *)
Definition _build_program_context (program_type audience : string) : string :=
  if String.eqb (Py.lower program_type) "workshop"
  then "hands-on activities, interactive exercises, practical learning, collaborative work"
  else "structured learning path, progressive concepts, comprehensive coverage, skill development".

(** ["="*50] *)
Definition rule : string :=
  "==================================================".

Definition line_feed : string := String (ascii_of_nat 10) EmptyString.

(** [_build_reference_context] *)
Definition _build_reference_context (website_url pdf_content : option string)
    : string :=
  let context := EmptyString in
  let context :=
    match website_url with
    | Some (String _ _ as url) =>
        context +:+ line_feed +:+ "**Reference Website:** " +:+ url +:+ line_feed
          +:+ "Include this website URL in appropriate slides (e.g., last slide for further reading)"
          +:+ line_feed
    | _ => context
    end in
  let context :=
    match pdf_content with
    | Some (String _ _ as pdf) =>
        let truncated_pdf :=
          if (3000 <? String.length pdf)%nat then Py.str_take 3000 pdf else pdf in
        let context :=
          context +:+ line_feed +:+ "**Supporting Material (from PDF):**" +:+ line_feed in
        let context :=
          context +:+ "Use this content as reference for generating slides:"
            +:+ line_feed +:+ truncated_pdf +:+ line_feed in
        if (3000 <? String.length pdf)%nat
        then context +:+ "(... truncated, full PDF has "
               +:+ Py.str_int (Z.of_nat (String.length pdf)) +:+ " characters)"
               +:+ line_feed
        else context
    | _ => context
    end in
  match context with
  | EmptyString => context
  | _ =>
      line_feed +:+ rule +:+ line_feed +:+ "REFERENCE MATERIALS:" +:+ line_feed
        +:+ rule +:+ context
  end.

End ContentGenerator.

(** ** validator.py and template_parser.py: the checks on the slide count *)

Module PresentationValidator.

Local Infix "+:+" := String.append (at level 60, right associativity).

(** models.py: [ValidationIssue] and [ValidationReport] *)
Record ValidationIssue : Type := mkIssue {
  issue_slide_number : Z;
  issue_type : string;
  severity : string;
  description : string;
  fixed : bool
}.

Record ValidationReport : Type := mkReport {
  total_slides : Z;
  issues : list ValidationIssue;
  overlap_checks_passed : bool;
  logo_validation_passed : bool;
  text_fit_validation_passed : bool;
  summary : string
}.

(** [_check_slide_count], on the issues the validator holds *)
Definition _check_slide_count (presentation : Presentation)
    (issues : list ValidationIssue) : list ValidationIssue :=
  let num_slides := Py.len (slides presentation) in
  let issues :=
    if num_slides <? 3
    then issues ++
         [mkIssue 0 "structure" "error"
            "Presentation should have at least 3 slides" false]
    else issues in
  if 50 <? num_slides
  then issues ++
       [mkIssue 0 "structure" "warning" "Presentation has many slides (>50)" false]
  else issues.

(** [validate]: the report, and the issues the validator holds after
    the call. A new validator holds no issue. *)
Definition validate (presentation : Presentation)
    (issues : list ValidationIssue) : ValidationReport * list ValidationIssue :=
  let issues := _check_slide_count presentation issues in
  let summary :=
    "Validation complete: " +:+ Py.str_int (Py.len (slides presentation))
      +:+ " slides generated" in
  (mkReport (Py.len (slides presentation)) issues true true true summary, issues).

End PresentationValidator.

Module TemplateParser.

(** [validate_template], for a template of [num_slides] slides and
    [num_layouts] slide layouts *)
Definition validate_template (num_slides num_layouts : Z) : bool * list string :=
  let errors := [] in
  let errors :=
    if num_slides <? 3
    then errors ++
         ["Template must have at least 3 slides (cover, content, closing)"%string]
    else errors in
  let errors :=
    if num_layouts <? 1
    then errors ++ ["Template must have at least 1 slide layout"%string]
    else errors in
  (Py.len errors =? 0, errors).

End TemplateParser.

(** ** main.py: the instructions and the content of a day *)

Module MainDay.

Local Infix "+:+" := String.append (at level 60, right associativity).

Definition line_feed : string := String (ascii_of_nat 10) EmptyString.

(** [_get_day_specific_instructions] *)
Definition _get_day_specific_instructions (base_instructions : option string)
    (day_num total_days : Z) : string :=
  let day_context := EmptyString in
  let day_context :=
    if 1 <? total_days
    then
      if day_num =? 1
      then "This is DAY 1 of " +:+ Py.str_int total_days +:+ ". "
             +:+ "Focus on: Introduction, fundamentals, and basic concepts. "
             +:+ "Set the foundation for the following days."
      else if day_num =? total_days
      then "This is DAY " +:+ Py.str_int day_num +:+ " (FINAL DAY) of "
             +:+ Py.str_int total_days +:+ ". "
             +:+ "Focus on: Advanced topics, real-world applications, summary, and conclusion."
      else "This is DAY " +:+ Py.str_int day_num +:+ " of "
             +:+ Py.str_int total_days +:+ ". "
             +:+ "Focus on: Building on Day " +:+ Py.str_int (day_num - 1)
             +:+ ", intermediate concepts, "
             +:+ "and practical examples."
    else day_context in
  match base_instructions with
  | Some (String _ _ as base) =>
      day_context +:+ line_feed +:+ line_feed +:+ "Additional instructions: " +:+ base
  | _ => day_context
  end.

Definition quiz_instruction : string :=
  line_feed +:+ line_feed +:+ "Add 3-5 quiz slides at the end. "
    +:+ "Each: question + 4 options (A,B,C,D) + answer in notes.".

Section Day.
(** The form fields of the request that the content of a day depends
    on, and the text extracted from the supporting PDF *)
Variables (topic : string) (content_instructions : option string)
          (website_url : option string) (pdf_content : option string)
          (include_quiz : bool) (program_type target_audience : string).

(** [self.model] of the content generator *)
Variable model : option ContentGenerator.GenerativeModel.

(** [if program_type.lower() not in ['training', 'workshop']: program_type = 'training'] *)
Definition normal_program_type : string :=
  if String.eqb (Py.lower program_type) "training"
     || String.eqb (Py.lower program_type) "workshop"
  then program_type else "training".

(** The content records of a day: from [day_topic = ...] to
    [content_generator.generate_presentation_content(...)] *)
Definition day_content (num_days : Z) (day_num num_slides : Z)
    (template_config : option TemplateConfig) : list SlideContent :=
  let day_topic :=
    if 1 <? num_days then topic +:+ " - Day " +:+ Py.str_int day_num else topic in
  let day_instructions :=
    _get_day_specific_instructions content_instructions day_num num_days in
  let day_instructions :=
    if include_quiz then day_instructions +:+ quiz_instruction
    else day_instructions in
  ContentGenerator.generate_presentation_content model
    (ContentGenerator.mkRequest day_topic num_slides target_audience
       normal_program_type website_url pdf_content day_instructions
       template_config).

End Day.

End MainDay.

(** ** slide_duplicator.py: copying a slide inside a presentation *)

Module Duplicator.

Section Copy.
(** What the code does not look into: the rotation of a shape, a crop
    ratio of a picture, the bytes of an image, and an XML element that
    is copied whole. *)
Variables (Angle Ratio Blob Element : Type).

(** The [p:grpSpPr] of a group: its position, size and rotation, and the
    rest of the transform (the offset and the extents of the children). *)
Record GroupProps : Type := mkGroupProps {
  g_left : Z;
  g_top : Z;
  g_width : Z;
  g_height : Z;
  g_rotation : Angle;
  g_children_frame : Element
}.

(** The shapes of a slide as [copy_shapes] tells them apart: a group, a
    shape with the attribute [image], and the others. The [formatting]
    of a picture is what it holds besides its name, position, size,
    crop and image. The [extra] of a group is what its element holds
    besides its name, its [p:grpSpPr] and its shapes (a description,
    locks, a hyperlink, an extension list), and [None] for a group
    that holds no more than [add_group_shape()] gives one. What the
    library derives for a shape it makes is left out: its id, the
    description it makes of the type of an image, and the relationship
    to the image part. *)
#[warnings="-register-all"]
Inductive Node : Type :=
| Group (name : string) (grpSpPr : GroupProps) (extra : option Element)
    (shapes : list Node)
| Picture (name : string) (left top width height : Z)
    (crop_left crop_right crop_top crop_bottom : Ratio) (blob : Blob)
    (formatting : Element)
| Other (element : Element).

(** What a new shape starts with: the name [add_group_shape()] and
    [add_picture] give it, the [p:grpSpPr] of a new group, the crop of
    a new picture and its formatting *)
Variables (new_name : string) (new_grpSpPr : GroupProps) (no_crop : Ratio)
          (plain : Element).

(** The body of [for shape in source:], which adds the copy of [shape]
    at the end of the shapes of [dest] *)
Fixpoint copy_shape (shape : Node) : Node :=
  match shape with
  | Group name ref_el _ shapes =>
      (* group = dest.shapes.add_group_shape() *)
      let group_name := new_name in
      let cur_el := new_grpSpPr in
      let group_extra : option Element := None in
      (* group.name = shape.name; group.left = shape.left; ...;
         group.rotation = shape.rotation *)
      let group_name := name in
      let cur_el :=
        mkGroupProps (g_left ref_el) (g_top ref_el) (g_width ref_el)
          (g_height ref_el) (g_rotation ref_el) (g_children_frame cur_el) in
      (* copy_shapes(shape.shapes, group) *)
      let group_shapes :=
        (fix copy_shapes (source dest : list Node) : list Node :=
           match source with
           | [] => dest
           | shape :: rest => copy_shapes rest (dest ++ [copy_shape shape])
           end) shapes [] in
      (* # Fix offset: the copy of ref_el takes the place of cur_el *)
      let cur_el := ref_el in
      Group group_name cur_el group_extra group_shapes
  | Picture name x y cx cy crop_left crop_right crop_top crop_bottom blob _ =>
      (* result = dest.shapes.add_picture(content, shape.left, shape.top,
                                          shape.width, shape.height) *)
      let result_name := new_name in
      let result_crop := (no_crop, no_crop, no_crop, no_crop) in
      (* result.name = shape.name; result.crop_left = shape.crop_left; ... *)
      let result_name := name in
      let result_crop := (crop_left, crop_right, crop_top, crop_bottom) in
      let '(l, r, t, b) := result_crop in
      Picture result_name x y cx cy l r t b blob plain
  | Other element =>
      (* newel = copy.deepcopy(shape.element) *)
      Other element
  end.

(** [copy_shapes(source, dest)], on the shapes of [dest] *)
Fixpoint copy_shapes (source dest : list Node) : list Node :=
  match source with
  | [] => dest
  | shape :: rest => copy_shapes rest (dest ++ [copy_shape shape])
  end.

(** A slide: its shapes, the placeholders a new slide on its layout
    starts with, and its notes: [None] without a notes slide,
    [Some None] with a notes slide that has no text frame. *)
Record Slide : Type := mkSlide {
  shapes : list Node;
  layout_placeholders : list Node;
  notes : option (option string)
}.

(** The presentation: the slide parts in the order of [sldIdLst], each
    under its part name; the targets of the other relationships of the
    presentation part; and whether a new notes slide has a text frame. *)
Record Package : Type := mkPackage {
  slide_parts : list (string * Slide);
  other_rels : list string;
  notes_have_text_frame : bool
}.

(** [[rel.target_partname for rel in _object_rels(self)]] *)
Definition existing_rels (ppt : Package) : list string :=
  (fst <$> slide_parts ppt) ++ other_rels ppt.

(** [ppt.slides[slide_index]]: a negative index counts from the end. *)
Definition getitem {A} (l : list A) (i : Z) : result A :=
  let j := if i <? 0 then Py.len l + i else i in
  if (0 <=? j) && (j <? Py.len l)
  then match l !! Z.to_nat j with
       | Some a => Ok a
       | None => Raise IndexError
       end
  else Raise IndexError.

(** [remove_shape(shape)], the shape being told by its place in the
    tree before the removals *)
Fixpoint remove_shape (shape : nat * Node) (tree : list (nat * Node))
    : list (nat * Node) :=
  match tree with
  | [] => []
  | el :: rest =>
      if (fst el =? fst shape)%nat then rest else el :: remove_shape shape rest
  end.

(** [for shape in list(dest.shapes): remove_shape(shape)] *)
Definition remove_placeholders (l : list Node) : list Node :=
  let tree := imap (fun i s => (i, s)) l in
  snd <$> foldl (fun tree shape => remove_shape shape tree) tree tree.

(** [# Copy notes (if any)]: the notes of [dest] after it *)
Definition copy_notes (ppt : Package) (source : Slide) : option (option string) :=
  match notes source with
  | None => None                                   (* no notes slide *)
  | Some None => None                              (* reading the text raises *)
  | Some (Some txt) =>
      if notes_have_text_frame ppt then Some (Some txt)
      else Some None                               (* writing the text raises *)
  end.

(** [duplicate_slide(ppt, slide_index)], with [fuel] tests of the loop
    that makes the part name: the presentation after the call, or
    [None] when that loop is still running. *)
Definition duplicate_slide (fuel : nat) (draws : SlideDuplicator.Random)
    (ppt : Package) (slide_index : Z) : result (option Package) :=
  source ← getitem (snd <$> slide_parts ppt) slide_index;
  (* dest = _exp_add_slide(ppt, source.slide_layout) *)
  match SlideDuplicator.generate_slide_partname fuel draws (existing_rels ppt)
          (Py.len (slide_parts ppt)) with
  | None => Ok None
  | Some (partname, _) =>
      let dest_shapes := layout_placeholders source in
      let dest_shapes := remove_placeholders dest_shapes in
      let dest_shapes := copy_shapes (shapes source) dest_shapes in
      let dest :=
        mkSlide dest_shapes (layout_placeholders source) (copy_notes ppt source) in
      Ok (Some (mkPackage (slide_parts ppt ++ [(partname, dest)]) (other_rels ppt)
                  (notes_have_text_frame ppt)))
  end.

End Copy.

End Duplicator.

(** ** image_service.py, and the picture of a content slide *)

Module ImageService.

(** The service: its API keys, [None] when not configured (or empty) *)
Record Service : Type := mkService {
  pexels_api_key : option string;
  openai_api_key : option string
}.

Section Fetch.
(** The photo search: the ["large"] addresses of the photos found for a
    query and a page, or [None] when the request or the reading of its
    answer raises. The image generation: the address of the image made
    for a prompt, or [None] when it raises. *)
Variable pexels_search : string -> Z -> option (list string).
Variable image_create : string -> option string.

(** The random source, as for the part names: the k-th call takes
    [draws k]. *)
Variable draws : nat -> nat.

(** [random.randint(1, 3)] and [random.choice(photos)] *)
Definition randint_1_3 (calls : nat) : Z := 1 + Z.of_nat (draws calls mod 3).

Definition choice (photos : list string) (calls : nat) : option string :=
  photos !! (draws calls mod length photos)%nat.

Definition _get_pexels_image (self : Service) (prompt : string) : option string :=
  match pexels_api_key self with
  | Some (String _ _) =>
      let page := randint_1_3 0 in
      match pexels_search prompt page with
      | Some photos =>
          if Py.truthy photos then choice photos 1 else None
      | None => None
      end
  | _ => None
  end.

Definition _generate_ai_image (self : Service) (prompt : string) : option string :=
  match openai_api_key self with
  | Some (String _ _) =>
      match image_create prompt with
      | Some image_url => Some image_url
      | None => _get_pexels_image self prompt
      end
  | _ => _get_pexels_image self prompt
  end.

Definition get_stock_image (self : Service) (prompt : string) (source : string)
    : option string :=
  if String.eqb source "ai_generated" then _generate_ai_image self prompt
  else if String.eqb source "pexels" then _get_pexels_image self prompt
  else _get_pexels_image self prompt.

(** [download_image]: whether the image at an address could be saved *)
Variable download_image : string -> bool.

(** The size [_add_image_strict] computes for the picture, by binary64
    arithmetic on the aspect ratio of the image, from the address of the
    image, the slide and the box given; [None] when the image cannot be
    opened or the computation raises. *)
Variable fitted_size : string -> Presentation -> Z -> Z -> Z -> Z -> option (Z * Z).

(** slide_populator.py: [_add_image_strict], as the picture it adds to
    the slide, if any. The image is asked for without a source, so for
    ["pexels"]. *)
Definition _add_image_strict (self : Service) (prs : Presentation) (slide : Slide)
    (image_prompt image_source : string) (left top max_width max_height : Z)
    : option Shape :=
  match get_stock_image self image_prompt "pexels" with
  | Some (String _ _ as image_url) =>
      if download_image image_url
      then
        match fitted_size image_url prs left top max_width max_height with
        | Some (width, height) =>
            if (left <? 0) || (top <? 0) || (slide_width prs <? left + width)
               || (slide_height prs <? top + height)
            then None
            else Some (Picture left top width height image_url)
        | None => None
        end
      else None
  | _ => None                                      (* if not image_url: return *)
  end.

End Fetch.

End ImageService.

(** ** pdf_extractor.py *)

Module PDFExtractor.

(** Whitespace for [str.strip()], on ASCII text *)
Definition is_space (c : ascii) : bool := Re.is_space c.

Fixpoint lstrip (s : string) : string :=
  match s with
  | EmptyString => EmptyString
  | String c rest => if is_space c then lstrip rest else s
  end.

Fixpoint rev (s acc : string) : string :=
  match s with
  | EmptyString => acc
  | String c rest => rev rest (String c acc)
  end.

(** [s.strip()] *)
Definition strip (s : string) : string :=
  rev (lstrip (rev (lstrip s) EmptyString)) EmptyString.

(** [extract_text]: [pages] holds what [page.extract_text()] gives for
    each page of the file, or is [None] when the reading raises. *)
Definition extract_text (pages : option (list string)) : option string :=
  match pages with
  | None => None
  | Some pages =>
      let text_content :=
        filter (fun text => String.eqb text EmptyString = false) pages in
      let full_text :=
        Py.join (String (ascii_of_nat 10) (String (ascii_of_nat 10) EmptyString))
          text_content in
      let full_text :=
        if 10000 <? Z.of_nat (String.length full_text)
        then Py.str_take (Z.to_nat 10000) full_text else full_text in
      Some (strip full_text)
  end.

End PDFExtractor.

(** ** content_generator.py: the text of the answer of the model *)

Module ResponseText.

(** What the code reads of a response of the language model:
    [str(response.text)], when the response has this attribute and
    reading it does not raise; and [parts['text']], when every lookup
    of the dictionary path succeeds. *)
Record Response : Type := mkResponse {
  response_text : option string;
  parts_text : option string
}.

(** [s[n:]] *)
Fixpoint drop (n : nat) (s : string) : string :=
  match n, s with
  | O, _ => s
  | S n', String _ rest => drop n' rest
  | S _, EmptyString => EmptyString
  end.

(** [s[:-n]], for [n > 0] *)
Definition drop_last (n : nat) (s : string) : string :=
  Py.str_take (String.length s - n) s.

(** [s.startswith(prefix)] and [s.endswith(suffix)] *)
Definition startswith (prefix s : string) : bool := String.prefix prefix s.

Definition endswith (suffix s : string) : bool :=
  (String.length suffix <=? String.length s)%nat &&
  String.eqb (drop (String.length s - String.length suffix) s) suffix.

(** [# Remove markdown code blocks] of the first [try] *)
Definition clean_text (text : string) : string :=
  let text := PDFExtractor.strip text in
  let text :=
    if startswith "```" text then drop 7 text
    else if startswith "```" text then drop 3 text
    else text in
  let text := if endswith "```" text then drop_last 3 text else text in
  PDFExtractor.strip text.

(** The same of the second [try] *)
Definition clean_parts_text (text : string) : string :=
  let text := PDFExtractor.strip text in
  let text :=
    if startswith "```json" text then drop 7 text
    else if startswith "```" text then drop 3 text
    else text in
  let text := if endswith "```" text then drop_last 3 text else text in
  PDFExtractor.strip text.

(** [_extract_and_clean_text] *)
Definition _extract_and_clean_text (response : Response) : result string :=
  match response_text response with
  | Some (String _ _ as text) => Ok (clean_text text)
  | _ =>
      match parts_text response with
      | Some text => Ok (clean_parts_text text)
      | None => Raise (ValueError "Could not extract text from response")
      end
  end.

End ResponseText.

(** * Sample inputs *)

Module Sample.

Definition text_box (text : string) : Shape :=
  AutoShape 0 0 914400 914400
    (mkTextFrame
       [mkParagraph text None None None None None None None None None None]
       None None None None None None).

(** The [k]-th slide of a sample template: a text box naming it *)
Definition slide (k : Z) : Slide :=
  mkSlide [text_box (String.append "Slide " (Py.str_int k))] (NoNotesSlide true).

Definition template (n : Z) : Presentation :=
  mkPresentation 12192000 6858000 (slide <$> Py.range 1 (n + 1)).

Definition record (k : Z) : SlideContent :=
  mkSlideContent k (String.append "Title " (Py.str_int k))
    ["First point"; "Second point"]%string "Notes" None.

Definition records (n : Z) : list SlideContent := record <$> Py.range 1 (n + 1).

(** A text of [n] dashes *)
Fixpoint dashes (n : nat) : string :=
  match n with
  | O => EmptyString
  | S n' => String "-" (dashes n')
  end.

(** A record of 10 bullets, the seventh 130 characters long *)
Definition ten_bullets : SlideContent :=
  mkSlideContent 2 "Ten points"
    ["Point 1"; "Point 2"; "Point 3"; "Point 4"; "Point 5"; "Point 6";
     dashes 130; "Point 8"; "Point 9"; "Point 10"]%string
    "Notes" None.

(** The marker an unlicensed cloning library stamps on a slide it saves *)
Definition marker : Shape :=
  text_box "Evaluation only. Created with Aspose.Slides for Python via .NET.".

Definition evaluation_stamp (s : Slide) : Slide :=
  mkSlide (shapes s ++ [marker]) (notes s).

(** A presentation of one slide, which holds a group around a text box
    with the text of a marker *)
Definition stamp : Shape := text_box "Evaluation Only - Created with ...".

Definition grouped_stamp : Presentation :=
  mkPresentation 12192000 6858000
    [mkSlide [GroupShape 0 0 914400 914400 [stamp]] (NoNotesSlide true)].

(** A plan that names no slide to repeat *)
Definition no_duplicates : TemplateConfig :=
  mkConfig (Some "Custom template strategy"%string) (Some []) (Some []) (Some 3).

(** The plan of the round-robin example *)
Definition three_four : TemplateConfig :=
  mkConfig (Some "Custom"%string) (Some []) (Some [3; 4]) None.

(** A language model that answers with the empty JSON object *)
Definition empty_answer : TemplateAnalyzer.GenerativeModel :=
  fun _ _ _ => Some (None, None, None).

(** A language model that always fails *)
Definition no_model : TemplateAnalyzer.GenerativeModel := fun _ _ _ => None.

(** An image service that delivers nothing *)
Definition no_image
    : Presentation -> Slide -> string -> string -> Z -> Z -> Z -> Z -> option Shape :=
  fun _ _ _ _ _ _ _ _ => None.

(** Relationship targets that hold the predictable name of the fourth
    slide and the name made with the letters [aa] *)
Definition two_names : list string :=
  ["/ppt/slides/slide4.xml"; "/ppt/slides/slideaa4.xml"]%string.

(** A random source that draws the letter [a] for the first [n]
    names, and the letter [B] from then on *)
Definition stubborn (n : nat) : SlideDuplicator.Random :=
  fun k => if (k <? 2 * n)%nat then 0%nat else 27%nat.

(** Relationship targets that hold every name the generator can make
    for the slide after the [sldIdLst_len]-th *)
Definition all_names (sldIdLst_len : Z) : list string :=
  SlideDuplicator.partname EmptyString (sldIdLst_len + 1) ::
  ((fun p : ascii * ascii =>
      SlideDuplicator.partname (String (fst p) (String (snd p) EmptyString))
        (sldIdLst_len + 1))
     <$> list_prod SlideDuplicator.ascii_letters SlideDuplicator.ascii_letters).

(** The truncated exact product, in place of the binary64 one *)
Definition int_times (x hundredths : Z) : Z := Z.quot (x * hundredths) 100.

End Sample.

(** * Vocabulary of the specification *)

Section Vocabulary.
Context {ISlide : Type}.
Implicit Types (template : list ISlide) (k : Z).

(** Slide number [k] of the template is the slide [s]. *)
Definition clone_of template k (s : ISlide) : Prop :=
  1 ≤ k ∧ template !! Z.to_nat (k - 1) = Some s.

Definition in_template template k : Prop := 1 ≤ k ≤ Py.len template.

(** The slide number the [i]-th pass of the loop over [duplicate_slides]
    takes. *)
Definition round_robin_pick (duplicate : list Z) (i : Z) : option Z :=
  duplicate !! Z.to_nat (i mod Py.len duplicate).

End Vocabulary.

(** The slide numbers the cloning library finds a slide for: those
    whose index [k - 1] lies in [-N, N). *)
Definition cloneable {ISlide} (template : list ISlide) (k : Z) : Prop :=
  1 - Py.len template ≤ k ≤ Py.len template.

Global Instance cloneable_dec {ISlide} (template : list ISlide) k :
  Decision (cloneable template k).
Proof. unfold cloneable. apply _. Defined.

(** The slide numbers taken by [count] passes of the loop over
    [duplicate_slides] *)
Definition round_robin (duplicate : list Z) (count : Z) : list Z :=
  omap (round_robin_pick duplicate) (Py.range 0 count).

(** The source slide numbers of an assembly, in the words of the
    specification: the cover, the unique slides in the order given, as
    far as content is needed, the duplicate slides in round-robin
    order for the rest, and the closing slide *)
Definition chosen_sources (num_template_slides num_required_slides : Z)
    (unique duplicate : list Z) : list Z :=
  let content_needed := num_required_slides - 2 in
  let once := take (Z.to_nat content_needed) unique in
  [1] ++ once ++ round_robin duplicate (content_needed - Py.len once)
      ++ [num_template_slides].


(** A slide without the shapes that carry a marker, the others in their
    order *)
Definition without_markers (watermark_keywords : list string) (slide : Slide) : Slide :=
  mkSlide
    (filter (fun s => Sanitize.is_watermark watermark_keywords s = false)
       (shapes slide))
    (notes slide).

(** A shape and, when it is a group, the shapes it holds, at any depth *)
Fixpoint descendants (s : Shape) : list Shape :=
  s :: match s with
       | GroupShape _ _ _ _ children =>
           (fix all (l : list Shape) : list Shape :=
              match l with
              | [] => []
              | child :: rest => descendants child ++ all rest
              end) children
       | _ => []
       end.

(** Every shape of a slide: the shapes of its shape tree and those
    inside its groups *)
Definition all_shapes (slide : Slide) : list Shape :=
  mjoin (descendants <$> shapes slide).

(** A presentation none of whose shapes, at any depth, has a text that
    contains an entry of the denylist *)
Definition marker_free (watermark_keywords : list string)
    (presentation : Presentation) : Prop :=
  ∀ slide s,
    slide ∈ slides presentation → s ∈ all_shapes slide →
    Sanitize.is_watermark watermark_keywords s = false.

(** What [render_presentation] makes of a slide of the assembly: saved,
    reopened and cleaned of markers *)
Definition finished (save_and_reopen : Slide -> Slide) (s : Slide) : Slide :=
  without_markers SlideRenderer.watermark_keywords (save_and_reopen s).

(** A plan the replicator can carry out for the number of slides
    required: its slide numbers lie in the template, and it names a
    slide to repeat or enough unique slides. *)
Definition valid_plan {ISlide} (template : list ISlide) (num_required_slides : Z)
    (template_config : option TemplateConfig) : Prop :=
  let '(unique, duplicate) :=
    SlideRenderer.use_config (Py.len template) template_config in
  Forall (in_template template) unique ∧
  Forall (in_template template) duplicate ∧
  (duplicate ≠ [] ∨ num_required_slides - 2 ≤ Py.len unique).

Global Instance in_template_dec {ISlide} (template : list ISlide) k :
  Decision (in_template template k).
Proof. unfold in_template. apply _. Defined.

Global Instance valid_plan_dec {ISlide} (template : list ISlide) n config :
  Decision (valid_plan template n config).
Proof.
  unfold valid_plan. destruct (SlideRenderer.use_config _ _). apply _.
Defined.


(** The invariant of an allocation plan for an N-slide template: unique
    and duplicate are disjoint, and both lie in the interior range
    [2, N-1]. *)
Definition plan_invariant (n : Z) (plan : TemplateConfig) : Prop :=
  let unique := get (unique_slides plan) [] in
  let duplicate := get (duplicate_slides plan) [] in
  (∀ s, s ∈ unique → s ∉ duplicate) ∧
  (∀ s, s ∈ unique → 2 ≤ s ≤ n - 1) ∧
  (∀ s, s ∈ duplicate → 2 ≤ s ≤ n - 1).

(** What the planner ensures of the duplicate list of a plan *)
Definition duplicates_interior (n : Z) (plan : TemplateConfig) : Prop :=
  ∃ unique duplicate,
    unique_slides plan = Some unique ∧
    duplicate_slides plan = Some duplicate ∧
    (∀ s, s ∈ duplicate → 2 ≤ s ≤ n - 1) ∧
    (3 ≤ n → duplicate ≠ []) ∧
    ((∃ s, 2 ≤ s ≤ n - 1 ∧ s ∉ unique) → ∀ s, s ∈ unique → s ∉ duplicate) ∧
    ((∀ s, 2 ≤ s ≤ n - 1 → s ∈ unique) → duplicate = Py.range 2 n).

(** The [j]-th name the generator of part names tests: the predictable
    one first, then the names made of the letters drawn. *)
Definition candidate (draws : SlideDuplicator.Random) (sldIdLst_len : Z) (j : nat)
    : string :=
  match j with
  | O => SlideDuplicator.partname EmptyString (sldIdLst_len + 1)
  | S j' =>
      SlideDuplicator.partname (fst (SlideDuplicator.random_part draws (2 * j')))
        (sldIdLst_len + 1)
  end.

(** What the loop of the injector makes of the slide at position [j],
    given the record [content] that meets it; [count] is the number of
    slides of the presentation. *)
Definition injected (int_times : Z -> Z -> Z)
    (_add_image_strict :
       Presentation -> Slide -> string -> string -> Z -> Z -> Z -> Z -> option Shape)
    (prs : Presentation) (count : Z) (image_source : string)
    (j : nat) (slide : Slide) (content : SlideContent) : Slide :=
  if (j =? 0)%nat
  then SlidePopulator._add_title_slide_content_smart int_times prs slide content
  else if Z.of_nat j =? count - 1 then slide
  else SlidePopulator._add_content_slide int_times _add_image_strict prs slide
         content image_source.

(** The number of shapes of the slides of a presentation *)
Definition shape_count (l : list Slide) : Z :=
  foldr Z.add 0 ((fun slide => Py.len (shapes slide)) <$> l).

(** Sample inputs of the content generator and of the handler *)
Module SampleContent.

Definition request : ContentGenerator.Request :=
  ContentGenerator.mkRequest "Rocq" 4 "general" "training" None None
    EmptyString None.

(** A model that answers with a single slide, whatever the request *)
Definition short_answer : ContentGenerator.GenerativeModel := fun _ =>
  Some [ContentGenerator.mkSlideData None (Some "One"%string) None None None].

(** A record with an image prompt *)
Definition illustrated : SlideContent :=
  mkSlideContent 2 "Proof assistants" ["Terms"; "Types"]%string
    "Say what a proof term is." (Some "a rooster"%string).

(** A cover with three text shapes and a picture *)
Definition cover : Slide :=
  let frame text :=
    mkTextFrame
      [mkParagraph text None None None None None None None None None None]
      None None None None None None in
  mkSlide [AutoShape 0 500 100 10 (frame "low"%string);
           Picture 0 0 50 50 "bg.png";
           AutoShape 0 200 100 10 (frame "small"%string);
           AutoShape 0 200 100 30 (frame "large"%string)] (NoNotesSlide true).

End SampleContent.

(** A shape of the duplicator that holds, at any depth, only what the
    library gives a new shape besides what [copy_shapes] sets: no group
    has an extra, and every picture has the formatting of a new
    picture *)
Fixpoint fresh {Angle Ratio Blob Element : Type} (plain : Element)
    (s : Duplicator.Node Angle Ratio Blob Element) : Prop :=
  match s with
  | Duplicator.Group _ _ _ _ _ _ extra shapes =>
      extra = None ∧
      (fix all (l : list (Duplicator.Node Angle Ratio Blob Element)) : Prop :=
         match l with
         | [] => True
         | shape :: rest => fresh plain shape ∧ all rest
         end) shapes
  | Duplicator.Picture _ _ _ _ _ _ _ _ _ _ _ _ _ _ formatting =>
      formatting = plain
  | Duplicator.Other _ _ _ _ _ => True
  end.

(** Two shapes that agree in what [copy_shapes] carries over: of a
    group its name, its [p:grpSpPr] and, one by one and in their order,
    its shapes; of a picture its name, position, size, crop and image;
    of any other shape the whole element *)
Fixpoint carried_over {Angle Ratio Blob Element : Type}
    (s c : Duplicator.Node Angle Ratio Blob Element) : Prop :=
  match s, c with
  | Duplicator.Group _ _ _ _ name grpSpPr _ shapes,
    Duplicator.Group _ _ _ _ name' grpSpPr' _ shapes' =>
      name = name' ∧ grpSpPr = grpSpPr' ∧
      (fix all (l l' : list (Duplicator.Node Angle Ratio Blob Element)) : Prop :=
         match l, l' with
         | [], [] => True
         | shape :: rest, shape' :: rest' =>
             carried_over shape shape' ∧ all rest rest'
         | _, _ => False
         end) shapes shapes'
  | Duplicator.Picture _ _ _ _ name x y cx cy cl cr ct cb blob _,
    Duplicator.Picture _ _ _ _ name' x' y' cx' cy' cl' cr' ct' cb' blob' _ =>
      name = name' ∧ x = x' ∧ y = y' ∧ cx = cx' ∧ cy = cy' ∧
      cl = cl' ∧ cr = cr' ∧ ct = ct' ∧ cb = cb' ∧ blob = blob'
  | Duplicator.Other _ _ _ _ element, Duplicator.Other _ _ _ _ element' =>
      element = element'
  | _, _ => False
  end.

(** Sample inputs of the duplicator: angles and crop ratios are
    integers, images and elements are texts. *)
Module SampleDuplicator.

Definition Node : Type := Duplicator.Node Z Z string string.

Definition new_grpSpPr : Duplicator.GroupProps Z string :=
  Duplicator.mkGroupProps Z string 0 0 0 0 0 "chOff=0,0 chExt=0,0"%string.

Definition logo : Node :=
  Duplicator.Picture Z Z string string "Logo"%string 10 20 300 200 0 0 5 5
    "png"%string "shadow"%string.

Definition banner : Node :=
  Duplicator.Group Z Z string string "Banner"%string
    (Duplicator.mkGroupProps Z string 0 0 900 100 0
       "chOff=0,0 chExt=900,100"%string)
    (Some "descr=The banner of the company"%string)
    [logo; Duplicator.Other Z Z string string "<p:sp>Title</p:sp>"%string].

Definition slide : Duplicator.Slide Z Z string string :=
  Duplicator.mkSlide Z Z string string [banner; logo]
    [Duplicator.Other Z Z string string "<p:sp>placeholder</p:sp>"%string]
    (Some (Some "Say hello"%string)).

Definition package : Duplicator.Package Z Z string string :=
  Duplicator.mkPackage Z Z string string
    [("/ppt/slides/slide1.xml"%string, slide);
     ("/ppt/slides/slide3.xml"%string, slide)]
    ["/ppt/slideMasters/slideMaster1.xml"%string] true.

Definition duplicate_slide :=
  Duplicator.duplicate_slide Z Z string string "Group 1"%string new_grpSpPr 0
    EmptyString.

End SampleDuplicator.

(** Whether a content slide is to carry a picture: the record names an
    image and the image source is not "none". *)
Definition wants_image (content : SlideContent) (image_source : string) : bool :=
  match image_concept content with
  | Some (String _ _) => negb (String.eqb image_source "none")
  | _ => false
  end.

(** Whether the notes of a slide can take a text: its notes slide has a
    text frame, or it has no notes slide and the notes master gives
    the new one a notes placeholder. *)
Definition takes_notes (notes : Notes) : bool :=
  match notes with
  | NoNotesSlide master_has_body => master_has_body
  | NotesSlide (Some _) => true
  | NotesSlide None => false
  end.

(** The font size, in points, of the bullets of a content slide that
    shows [count] bullets *)
Definition bullet_font_size (count : nat) : Z :=
  if (count <=? 4)%nat then 17 else if (count <=? 6)%nat then 15 else 12.

(** Sample oracles of the image service: a search that finds one photo,
    downloads that succeed, and a picture that takes the whole box *)
Module SampleImages.

Definition service : ImageService.Service :=
  ImageService.mkService (Some "key"%string) None.

Definition pexels_search (query : string) (page : Z) : option (list string) :=
  Some ["https://images.example/large.jpg"%string].

Definition image_create (prompt : string) : option string := None.

Definition draws (k : nat) : nat := 0%nat.

Definition download_image (url : string) : bool := true.

Definition fitted_size (url : string) (prs : Presentation)
    (left top max_width max_height : Z) : option (Z * Z) :=
  Some (max_width, max_height).

Definition _add_image_strict :=
  ImageService._add_image_strict pexels_search image_create draws download_image
    fitted_size service.

End SampleImages.

(** Instructions on which the patterns of the analyzer and [int] are
    modelled as Python runs them: ASCII characters only, and at most
    4300 of them, which is as many digits as [int] accepts. *)
Definition plain_instructions (text : string) : Prop :=
  Z.of_nat (String.length text) ≤ 4300 ∧
  Forall (fun c => (nat_of_ascii c < 128)%nat) (list_ascii_of_string text).

Global Instance plain_instructions_dec text : Decision (plain_instructions text).
Proof. unfold plain_instructions. apply _. Defined.

(** A request whose plan does not rest on an answer of the language
    model of the analyzer: it carries no template instructions (or
    empty ones), or the analyzer has no model, or the instructions are
    plain and the patterns find a slide number in them. *)
Definition plan_without_answer (model : option TemplateAnalyzer.GenerativeModel)
    (template_instructions : option string) : Prop :=
  match template_instructions with
  | None | Some EmptyString => True
  | Some instructions =>
      model = None ∨
      (plain_instructions instructions ∧
       TemplateAnalyzer._extract_slide_numbers instructions ≠ [])
  end.

(** A matcher that does not tell the case of the letters of the text:
    on the text in lower case it matches at the same places, with the
    same group. *)
Definition case_blind (m : Re.Matcher) : Prop :=
  ∀ prev s,
    m (Py.lower_char <$> prev) (Py.lower s)
    = (fun '(group, rest) => (group, Py.lower rest)) <$> m prev s.

(** * Properties *)

(** [holds b] and [fails b] settle the comparison [b] of the goal by the
    arithmetic of the context. *)
Ltac settle :=
  symmetry;
  first [ apply Z.ltb_lt | apply Z.leb_le | apply Z.eqb_eq
        | apply Nat.ltb_lt | apply Nat.leb_le | apply Nat.eqb_eq
        | apply Z.ltb_ge | apply Z.leb_gt | apply Z.eqb_neq
        | apply Nat.ltb_ge | apply Nat.leb_gt | apply Nat.eqb_neq ];
  unfold Py.len in *; cbn [length] in *; lia.

Tactic Notation "holds" constr(b) := replace b with true by settle.
Tactic Notation "fails" constr(b) := replace b with false by settle.


(** ** The replicator *)

Section Replicator.
Context {ISlide : Type}.
Implicit Types (template output : list ISlide) (k : Z).

(** Within its bounds, [seq[i]] is the lookup. *)
Lemma index_lookup {A} (l : list A) (i : Z) (a : A) :
  0 ≤ i → l !! Z.to_nat i = Some a → Py.index l i = Ok a.
Proof.
  intros Hi Ha. pose proof (lookup_lt_Some _ _ _ Ha) as Hlt.
  unfold Py.index. fails (i <? 0). cbv zeta. rewrite Ha.
  holds (0 <=? i). holds (i <? Py.len l). reflexivity.
Qed.

Lemma index_in_template template k :
  in_template template k →
  ∃ s, Py.index template (k - 1) = Ok s ∧ clone_of template k s.
Proof.
  unfold in_template, clone_of, Py.len. intros [H1 H2].
  destruct (lookup_lt_is_Some_2 template (Z.to_nat (k - 1))) as [s Hs]; [lia|].
  exists s. rewrite (index_lookup template (k - 1) s) by (lia || assumption).
  auto.
Qed.

Lemma remove_all_but_cover_take output fuel :
  (length output ≤ S fuel)%nat →
  SlideRenderer.remove_all_but_cover fuel output = take 1 output.
Proof.
  revert output. induction fuel as [|fuel IH]; intros output Hlen.
  - destruct output as [|a [|b r]]; simpl in *; try reflexivity; lia.
  - destruct output as [|a [|b r]]; try reflexivity.
    cbn [SlideRenderer.remove_all_but_cover].
    holds (1 <? Py.len (a :: b :: r)).
    change (delete 1%nat (a :: b :: r)) with (a :: r).
    rewrite IH by (simpl in *; lia). reflexivity.
Qed.

Lemma add_unique_slides_spec template needed unique output added :
  Forall (in_template template) unique →
  ∃ clones,
    SlideRenderer.add_unique_slides template needed unique output added
      = Ok (output ++ clones, added + Py.len clones) ∧
    Forall2 (clone_of template) (take (Z.to_nat (needed - added)) unique) clones.
Proof.
  intros Hin. revert output added.
  induction Hin as [|k unique Hk Hin IH]; intros output added.
  - exists []. rewrite app_nil_r, take_nil. unfold Py.len. simpl.
    rewrite Z.add_0_r. split; [reflexivity | constructor].
  - cbn [SlideRenderer.add_unique_slides].
    destruct (Z.ltb_spec added needed) as [Hlt | Hge].
    + destruct (index_in_template _ _ Hk) as (s & -> & Hs).
      cbn [mbind result_bind].
      destruct (IH (output ++ [s]) (added + 1)) as (clones & -> & Hclones).
      exists (s :: clones). split.
      * rewrite <- app_assoc. unfold Py.len. simpl length.
        do 2 f_equal. lia.
      * replace (Z.to_nat (needed - added)) with (S (Z.to_nat (needed - (added + 1))))
          by lia.
        simpl. constructor; assumption.
    + destruct (IH output added) as (clones & -> & Hclones).
      exists clones. split; [reflexivity|].
      replace (Z.to_nat (needed - added)) with 0%nat in * by lia.
      rewrite take_0 in *. assumption.
Qed.

Lemma add_duplicate_slides_spec template duplicate indices output :
  duplicate ≠ [] →
  Forall (in_template template) duplicate →
  Forall (fun i => 0 ≤ i) indices →
  ∃ clones,
    SlideRenderer.add_duplicate_slides template duplicate indices output
      = Ok (output ++ clones) ∧
    Forall2 (fun i s => ∃ k, round_robin_pick duplicate i = Some k ∧
                             clone_of template k s) indices clones.
Proof.
  intros Hne Hin Hidx. revert output.
  induction Hidx as [|i indices Hi Hidx IH]; intros output.
  - exists []. rewrite app_nil_r. split; [reflexivity | constructor].
  - cbn [SlideRenderer.add_duplicate_slides].
    assert (Hlen : 0 < Py.len duplicate).
    { unfold Py.len. destruct duplicate; [congruence | simpl; lia]. }
    pose proof (Z.mod_pos_bound i _ Hlen) as Hmod.
    destruct (lookup_lt_is_Some_2 duplicate (Z.to_nat (i mod Py.len duplicate)))
      as [k Hk]; [unfold Py.len in *; lia|].
    assert (Hidx_k : Py.index duplicate (i mod Py.len duplicate) = Ok k).
    { apply index_lookup; [lia | exact Hk]. }
    rewrite Hidx_k. cbn [mbind result_bind].
    assert (Hink : in_template template k).
    { rewrite Forall_forall in Hin. apply Hin.
      apply list_elem_of_lookup. eauto. }
    destruct (index_in_template _ _ Hink) as (s & -> & Hs).
    cbn [mbind result_bind].
    destruct (IH (output ++ [s])) as (clones & -> & Hclones).
    exists (s :: clones). split.
    + rewrite <- app_assoc. reflexivity.
    + constructor; [|assumption]. exists k. split; assumption.
Qed.

End Replicator.

Section ReplicatorSpec.
Context {ISlide : Type}.
Implicit Types (template output : list ISlide) (k : Z).

Lemma round_robin_nil count : round_robin [] count = [].
Proof.
  unfold round_robin. induction (Py.range 0 count) as [|i l IH]; [reflexivity|].
  cbn [omap list_omap]. unfold round_robin_pick at 1.
  rewrite lookup_nil. exact IH.
Qed.

Lemma round_robin_nonpos duplicate count : count ≤ 0 → round_robin duplicate count = [].
Proof.
  intros H. unfold round_robin, Py.range. rewrite seqZ_nil by lia. reflexivity.
Qed.

Lemma round_robin_pick_Some duplicate i :
  duplicate ≠ [] → 0 ≤ i → is_Some (round_robin_pick duplicate i).
Proof.
  intros Hne Hi. unfold round_robin_pick. apply lookup_lt_is_Some_2.
  assert (0 < Py.len duplicate)
    by (unfold Py.len; destruct duplicate; [congruence | simpl; lia]).
  pose proof (Z.mod_pos_bound i _ H). unfold Py.len in *. lia.
Qed.

Lemma range_nonneg a b : 0 ≤ a → Forall (fun i => 0 ≤ i) (Py.range a b).
Proof.
  intros Ha. apply Forall_forall. intros i Hi.
  unfold Py.range in Hi. apply elem_of_seqZ in Hi. lia.
Qed.

Lemma length_omap_picks duplicate (indices : list Z) :
  duplicate ≠ [] → Forall (fun i => 0 ≤ i) indices →
  length (omap (round_robin_pick duplicate) indices) = length indices.
Proof.
  intros Hne H. induction H as [|i l Hi H IH]; [reflexivity|].
  cbn [omap list_omap].
  destruct (round_robin_pick_Some duplicate i Hne Hi) as [k ->].
  simpl. rewrite IH. reflexivity.
Qed.

Lemma length_round_robin duplicate count :
  duplicate ≠ [] → length (round_robin duplicate count) = Z.to_nat count.
Proof.
  intros Hne. unfold round_robin.
  rewrite length_omap_picks by (try assumption; apply range_nonneg; lia).
  unfold Py.range. rewrite length_seqZ. lia.
Qed.

Lemma picks_round_robin template duplicate indices clones :
  Forall2 (fun i s => ∃ k, round_robin_pick duplicate i = Some k ∧
                           clone_of template k s) indices clones →
  Forall2 (clone_of template) (omap (round_robin_pick duplicate) indices) clones.
Proof.
  induction 1 as [|i s indices clones (k & Hk & Hs) _ IH]; [constructor|].
  simpl. rewrite Hk. constructor; assumption.
Qed.

Lemma assemble_spec template required config unique duplicate :
  3 ≤ Py.len template →
  SlideRenderer.use_config (Py.len template) config = (unique, duplicate) →
  Forall (in_template template) unique →
  Forall (in_template template) duplicate →
  ∃ output,
    SlideRenderer.assemble template required config = Ok output ∧
    Forall2 (clone_of template)
      (chosen_sources (Py.len template) required unique duplicate) output.
Proof.
  intros Hlen Hcfg Hu Hd. unfold SlideRenderer.assemble.
  fails (Py.len template <? 3).
  rewrite Hcfg.
  rewrite remove_all_but_cover_take by lia.
  destruct template as [|cover rest] eqn:Ht; [unfold Py.len in Hlen; simpl in Hlen; lia|].
  rewrite <- Ht in *. replace (take 1 template) with [cover] by (subst; reflexivity).
  destruct (add_unique_slides_spec template (required - 2) unique [cover] 0 Hu)
    as (once & -> & Honce).
  cbn [mbind result_bind].
  rewrite Z.sub_0_r in Honce.
  assert (Hlen_once : Py.len once = Py.len (take (Z.to_nat (required - 2)) unique)).
  { unfold Py.len. f_equal. symmetry. eapply Forall2_length. exact Honce. }
  rewrite Z.add_0_l.
  assert (Hclosing : in_template template (Py.len template))
    by (unfold in_template; lia).
  destruct (index_in_template _ _ Hclosing) as (closing & Hidx & Hcl).
  assert (Hcover : clone_of template 1 cover)
    by (unfold clone_of; subst; split; [lia | reflexivity]).
  unfold chosen_sources. rewrite <- Hlen_once.
  set (remaining := required - 2 - Py.len once).
  destruct ((0 <? remaining) && Py.truthy duplicate) eqn:Hcond.
  - apply andb_prop in Hcond as [Hpos Hne].
    assert (duplicate ≠ []) by (destruct duplicate; [discriminate | congruence]).
    destruct (add_duplicate_slides_spec template duplicate (Py.range 0 remaining)
                ([cover] ++ once)) as (more & -> & Hmore);
      [assumption | assumption | apply range_nonneg; lia |].
    cbn [mbind result_bind]. rewrite Hidx. cbn [mbind result_bind].
    eexists. split; [reflexivity|].
    rewrite <- !app_assoc.
    repeat apply Forall2_app; try assumption.
    + constructor; [assumption | constructor].
    + apply picks_round_robin. assumption.
    + constructor; [assumption | constructor].
  - cbn [mbind result_bind]. rewrite Hidx. cbn [mbind result_bind].
    eexists. split; [reflexivity|].
    assert (Hrr : round_robin duplicate remaining = []).
    { apply andb_false_iff in Hcond as [Hpos | Hnil].
      - apply round_robin_nonpos. apply Z.ltb_ge in Hpos. lia.
      - destruct duplicate; [apply round_robin_nil | discriminate]. }
    rewrite Hrr, app_nil_l, <- app_assoc.
    repeat apply Forall2_app; try assumption.
    + constructor; [assumption | constructor].
    + constructor; [assumption | constructor].
Qed.

Lemma length_chosen_sources n required unique duplicate :
  2 ≤ required →
  duplicate ≠ [] ∨ required - 2 ≤ Py.len unique →
  length (chosen_sources n required unique duplicate) = Z.to_nat required.
Proof.
  intros Hreq Hplan. unfold chosen_sources.
  rewrite !length_app. simpl length.
  rewrite length_take.
  destruct (decide (duplicate = [])) as [-> | Hne].
  - destruct Hplan as [? | Hplan]; [congruence|].
    rewrite round_robin_nil. unfold Py.len in *. simpl. lia.
  - rewrite length_round_robin by assumption.
    unfold Py.len. rewrite length_take. lia.
Qed.

End ReplicatorSpec.

(** ** The sanitizer *)

Section Sanitizer.
Variable watermark_keywords : list string.

Local Abbreviation marked := (Sanitize.is_watermark watermark_keywords).
Local Abbreviation without_markers := (without_markers watermark_keywords).

Lemma collect_filter tree acc :
  Sanitize.collect watermark_keywords tree acc
  = acc ++ filter (fun el => marked (snd el) = true) tree.
Proof.
  revert acc. induction tree as [|el tree IH]; intros acc; simpl.
  - rewrite app_nil_r. reflexivity.
  - rewrite filter_cons. destruct (marked (snd el)) eqn:Hm.
    + rewrite IH, <- app_assoc. rewrite decide_True by reflexivity. reflexivity.
    + rewrite IH. rewrite decide_False by discriminate. reflexivity.
Qed.

Lemma remove_fresh (sp : Sanitize.Element) kept pending :
  fst sp ∉ fst <$> kept →
  Sanitize.remove sp (kept ++ sp :: pending) = kept ++ pending.
Proof.
  induction kept as [|el kept IH]; intros Hfresh; simpl.
  - rewrite Nat.eqb_refl. reflexivity.
  - rewrite fmap_cons, not_elem_of_cons in Hfresh. destruct Hfresh as [Hne Hfresh].
    destruct (Nat.eqb_spec (fst el) (fst sp)) as [Heq | _]; [congruence|].
    rewrite IH by assumption. reflexivity.
Qed.

Lemma remove_all_filter pending kept n :
  NoDup (fst <$> (kept ++ pending)) →
  Sanitize.remove_all (filter (fun el => marked (snd el) = true) pending)
    (kept ++ pending) n
  = (kept ++ filter (fun el => marked (snd el) = false) pending,
     n + Py.len (filter (fun el => marked (snd el) = true) pending)).
Proof.
  revert kept n. induction pending as [|el pending IH]; intros kept n Hnd.
  - simpl. unfold Py.len. simpl. rewrite Z.add_0_r. reflexivity.
  - rewrite !filter_cons. destruct (marked (snd el)) eqn:Hm.
    + rewrite decide_True by reflexivity. rewrite decide_False by discriminate.
      cbn [Sanitize.remove_all].
      rewrite fmap_app, fmap_cons in Hnd.
      apply NoDup_app in Hnd as (Hk & Hdisj & Hp).
      apply NoDup_cons in Hp as [Hel Hp].
      rewrite remove_fresh.
      * rewrite IH.
        -- unfold Py.len. cbn [length]. f_equal. unfold Sanitize.Element. lia.
        -- rewrite fmap_app. apply NoDup_app. repeat split; try assumption.
           intros x Hx Hx'. apply (Hdisj x Hx). right. assumption.
      * intros Hin. apply (Hdisj _ Hin). left.
    + rewrite decide_False by discriminate. rewrite decide_True by reflexivity.
      replace (kept ++ el :: pending) with ((kept ++ [el]) ++ pending) in *
        by (rewrite <- app_assoc; reflexivity).
      rewrite IH by assumption. rewrite <- app_assoc. reflexivity.
Qed.

Lemma fst_shape_tree (l : list Shape) :
  fst <$> Sanitize.shape_tree l = seq 0 (length l).
Proof.
  unfold Sanitize.shape_tree. rewrite fmap_imap.
  rewrite (imap_ext _ (fun i _ => id i)) by reflexivity.
  rewrite imap_seq_0. apply list_fmap_id.
Qed.

Lemma snd_shape_tree (l : list Shape) : snd <$> Sanitize.shape_tree l = l.
Proof.
  unfold Sanitize.shape_tree. rewrite fmap_imap.
  rewrite (imap_ext _ (const id)) by reflexivity.
  rewrite imap_const. apply list_fmap_id.
Qed.

Lemma snd_filter (b : bool) (tree : list Sanitize.Element) :
  snd <$> filter (fun el => marked (snd el) = b) tree
  = filter (fun s => marked s = b) (snd <$> tree).
Proof.
  induction tree as [|el tree IH]; [reflexivity|].
  rewrite fmap_cons, !filter_cons.
  destruct (decide (marked (snd el) = b));
    [rewrite fmap_cons; f_equal; exact IH | exact IH].
Qed.

Lemma clean_slide_spec slide n :
  Sanitize.clean_slide watermark_keywords slide n
  = (without_markers slide,
     n + Py.len (filter (fun s => marked s = true) (shapes slide))).
Proof.
  unfold Sanitize.clean_slide, without_markers.
  rewrite collect_filter, app_nil_l.
  pose proof (remove_all_filter (Sanitize.shape_tree (shapes slide)) [] n) as H.
  rewrite !app_nil_l in H. rewrite H by (rewrite fst_shape_tree; apply NoDup_seq).
  rewrite snd_filter, snd_shape_tree.
  f_equal. f_equal. unfold Py.len. f_equal.
  rewrite <- (snd_shape_tree (shapes slide)) at 2.
  rewrite <- snd_filter, length_fmap. reflexivity.
Qed.

Lemma clean_slides_spec (l : list Slide) n :
  fst (Sanitize.clean_slides watermark_keywords l n) = without_markers <$> l.
Proof.
  revert n. induction l as [|slide l IH]; intros n; [reflexivity|].
  cbn [Sanitize.clean_slides]. rewrite clean_slide_spec.
  specialize (IH (n + Py.len (filter (fun s => marked s = true) (shapes slide)))).
  destruct (Sanitize.clean_slides watermark_keywords l _) as [rest total].
  simpl in IH. subst rest. reflexivity.
Qed.

Lemma without_markers_id slide :
  Forall (fun s => marked s = false) (shapes slide) →
  without_markers slide = slide.
Proof.
  intros H. unfold without_markers. destruct slide as [l nt]. simpl in *.
  f_equal. induction H as [|s l Hs H IH]; [reflexivity|].
  rewrite filter_cons, decide_True by assumption. rewrite IH. reflexivity.
Qed.

End Sanitizer.

Section SourceSequence.

Lemma len_range a b : a ≤ b → Py.len (Py.range a b) = b - a.
Proof. intros H. unfold Py.len, Py.range. rewrite length_seqZ. lia. Qed.

Lemma clone_of_numbers n k s :
  clone_of (Py.range 1 (n + 1)) k s → s = k.
Proof.
  unfold clone_of, Py.range. intros [Hk Hs].
  apply lookup_seqZ in Hs. lia.
Qed.

Lemma clones_of_numbers n ks out :
  Forall2 (clone_of (Py.range 1 (n + 1))) ks out → out = ks.
Proof.
  induction 1 as [|k s ks out Hs _ IH]; [reflexivity|].
  apply clone_of_numbers in Hs. subst. reflexivity.
Qed.

(** The source sequence of an assembly is the one the specification
    words: [chosen_sources]. *)
Lemma source_sequence_spec n required config unique duplicate :
  3 ≤ n →
  SlideRenderer.use_config n config = (unique, duplicate) →
  Forall (fun k => 1 ≤ k ≤ n) unique →
  Forall (fun k => 1 ≤ k ≤ n) duplicate →
  SlideRenderer.source_sequence n required config
  = Ok (chosen_sources n required unique duplicate).
Proof.
  intros Hn Hcfg Hu Hd. unfold SlideRenderer.source_sequence.
  assert (Hlen : Py.len (Py.range 1 (n + 1)) = n) by (rewrite len_range; lia).
  destruct (assemble_spec (Py.range 1 (n + 1)) required config unique duplicate)
    as (out & -> & Hout).
  - lia.
  - rewrite Hlen. exact Hcfg.
  - unfold in_template. rewrite Hlen. exact Hu.
  - unfold in_template. rewrite Hlen. exact Hd.
  - rewrite Hlen in Hout. apply clones_of_numbers in Hout. subst. reflexivity.
Qed.

Lemma lookup_round_robin duplicate count i :
  duplicate ≠ [] → 0 ≤ i < count →
  round_robin duplicate count !! Z.to_nat i
  = duplicate !! Z.to_nat (i mod Py.len duplicate).
Proof.
  intros Hne Hi. unfold round_robin.
  assert (Hgen : ∀ (l : list Z) (j : nat),
    Forall (fun i => 0 ≤ i) l →
    omap (round_robin_pick duplicate) l !! j = l !! j ≫= round_robin_pick duplicate).
  { intros l j H. revert j. induction H as [|x l Hx H IH]; intros j; [reflexivity|].
    cbn [omap list_omap].
    destruct (round_robin_pick_Some duplicate x Hne Hx) as [k Hk]. rewrite Hk.
    destruct j as [|j]; simpl; [rewrite Hk; reflexivity | apply IH]. }
  rewrite Hgen by (apply range_nonneg; lia).
  unfold Py.range. rewrite lookup_seqZ_lt by lia. simpl.
  unfold round_robin_pick. do 3 f_equal. lia.
Qed.

Lemma add_unique_slides_none {ISlide} (template : list ISlide) needed unique output added :
  needed ≤ added →
  SlideRenderer.add_unique_slides template needed unique output added
  = Ok (output, added).
Proof.
  intros H. induction unique as [|k unique IH]; [reflexivity|].
  cbn [SlideRenderer.add_unique_slides].
  fails (added <? needed).
  exact IH.
Qed.

(** With fewer than three slides required, the assembly is the cover
    and the closing slide, whatever the plan. *)
Lemma assemble_few {ISlide} (template : list ISlide) required config :
  3 ≤ Py.len template → required ≤ 2 →
  ∃ cover closing,
    SlideRenderer.assemble template required config = Ok [cover; closing] ∧
    head template = Some cover ∧ last template = Some closing.
Proof.
  intros Hlen Hreq. unfold SlideRenderer.assemble.
  fails (Py.len template <? 3).
  destruct (SlideRenderer.use_config _ _) as [unique duplicate].
  rewrite remove_all_but_cover_take by lia.
  rewrite add_unique_slides_none by lia. cbn [mbind result_bind].
  fails (0 <? required - 2 - 0).
  cbn [andb mbind result_bind].
  destruct (index_in_template template (Py.len template)) as (closing & -> & Hcl);
    [unfold in_template; lia|].
  destruct template as [|cover rest] eqn:Ht;
    [unfold Py.len in Hlen; simpl in Hlen; lia|].
  exists cover, closing. cbn [mbind result_bind]. repeat split.
  destruct Hcl as [_ Hcl]. rewrite last_lookup. rewrite <- Hcl.
  f_equal. unfold Py.len. simpl. lia.
Qed.

End SourceSequence.

(** ** The claims on the replicator *)

Section ReplicatorClaims.
Variable save_and_reopen : Slide -> Slide.

Lemma render_presentation_assemble template slides_content config :
  SlideRenderer.render_presentation save_and_reopen template slides_content config
  = output ← SlideRenderer.assemble (slides template) (Py.len slides_content) config;
    Ok (mkPresentation (slide_width template) (slide_height template)
          (finished save_and_reopen <$> output)).
Proof.
  unfold SlideRenderer.render_presentation.
  destruct (SlideRenderer.assemble _ _ _) as [output|e]; [|reflexivity].
  cbn [mbind result_bind]. unfold SlideRenderer._remove_watermarks.
  cbn [slides slide_width slide_height].
  rewrite clean_slides_spec, <- list_fmap_compose. reflexivity.
Qed.

Lemma valid_plan_default {ISlide} (template : list ISlide) required :
  3 ≤ Py.len template → valid_plan template required None.
Proof.
  intros Hlen. unfold valid_plan. cbn [SlideRenderer.use_config].
  split; [constructor|]. split.
  - apply Forall_forall. intros k Hk. unfold Py.range in Hk.
    apply elem_of_seqZ in Hk. unfold in_template. lia.
  - left. unfold Py.range. rewrite seqZ_cons by lia. discriminate.
Qed.

End ReplicatorClaims.

(** C1 (as amended). For every template with at least 3 slides, every list
    of at least 3 content records and every plan whose slide numbers
    lie in the template and that has a slide to repeat or enough unique
    slides (the absent plan is such a plan), [render_presentation]
    returns a presentation with exactly as many slides as records: the
    clone of the cover first, then as many clones of template slides as
    there are records less two, and the clone of the closing slide last,
    each saved and cleaned of markers. *)
Theorem render_presentation_slide_count
    (save_and_reopen : Slide -> Slide) (template : Presentation)
    (slides_content : list SlideContent) (config : option TemplateConfig) :
  3 ≤ Py.len (slides template) →
  3 ≤ Py.len slides_content →
  valid_plan (slides template) (Py.len slides_content) config →
  ∃ cover content closing,
    SlideRenderer.render_presentation save_and_reopen template slides_content config
    = Ok (mkPresentation (slide_width template) (slide_height template)
            (finished save_and_reopen <$> ([cover] ++ content ++ [closing]))) ∧
    head (slides template) = Some cover ∧
    last (slides template) = Some closing ∧
    Forall (fun s => s ∈ slides template) content ∧
    Py.len content = Py.len slides_content - 2 ∧
    Py.len (finished save_and_reopen <$> ([cover] ++ content ++ [closing]))
    = Py.len slides_content.
Proof.
  intros Hlen Hreq Hplan. unfold valid_plan in Hplan.
  destruct (SlideRenderer.use_config _ _) as [unique duplicate] eqn:Hcfg.
  destruct Hplan as (Hu & Hd & Henough).
  destruct (assemble_spec (slides template) (Py.len slides_content) config
              unique duplicate Hlen Hcfg Hu Hd) as (output & Hasm & Hout).
  pose proof (length_chosen_sources (Py.len (slides template))
                (Py.len slides_content) unique duplicate ltac:(lia) Henough) as Hcount.
  unfold chosen_sources in Hout, Hcount.
  apply Forall2_app_inv_l in Hout as (c & out1 & Hc & Hout & ->).
  apply Forall2_app_inv_l in Hout as (o1 & out2 & Ho1 & Hout & ->).
  apply Forall2_app_inv_l in Hout as (o2 & cl & Ho2 & Hcl & ->).
  apply Forall2_cons_inv_l in Hc as (cover & ? & Hcover & Hnil & ->).
  apply Forall2_nil_inv_l in Hnil as ->.
  apply Forall2_cons_inv_l in Hcl as (closing & ? & Hclosing & Hnil & ->).
  apply Forall2_nil_inv_l in Hnil as ->.
  exists cover, (o1 ++ o2), closing.
  rewrite render_presentation_assemble, Hasm. cbn [mbind result_bind].
  rewrite <- !app_assoc.
  assert (Hlen12 : (length o1 + length o2 = Z.to_nat (Py.len slides_content) - 2)%nat).
  { apply Forall2_length in Ho1, Ho2. rewrite !length_app in Hcount.
    simpl in Hcount. lia. }
  split; [reflexivity|]. split.
  { destruct Hcover as [_ Hcover]. simpl in Hcover.
    destruct (slides template); [discriminate | exact Hcover]. }
  split.
  { destruct Hclosing as [_ Hclosing]. rewrite last_lookup, <- Hclosing.
    f_equal. unfold Py.len. lia. }
  split.
  { apply Forall_app. split.
    - clear -Ho1. induction Ho1 as [|k s ks ss [_ Hs] _ IH]; constructor;
        [apply list_elem_of_lookup; eauto | assumption].
    - clear -Ho2. induction Ho2 as [|k s ks ss [_ Hs] _ IH]; constructor;
        [apply list_elem_of_lookup; eauto | assumption]. }
  unfold Py.len in *. rewrite length_fmap, !length_app. simpl. lia.
Qed.

Lemma render_presentation_slide_count_witness :
  3 ≤ Py.len (slides (Sample.template 6)) ∧
  3 ≤ Py.len (Sample.records 9) ∧
  valid_plan (slides (Sample.template 6)) (Py.len (Sample.records 9)) None ∧
  ∃ cover content closing,
    SlideRenderer.render_presentation Sample.evaluation_stamp (Sample.template 6)
      (Sample.records 9) None
    = Ok (mkPresentation 12192000 6858000
            (finished Sample.evaluation_stamp <$> ([cover] ++ content ++ [closing]))) ∧
    head (slides (Sample.template 6)) = Some cover ∧
    last (slides (Sample.template 6)) = Some closing ∧
    Forall (fun s => s ∈ slides (Sample.template 6)) content ∧
    Py.len content = Py.len (Sample.records 9) - 2 ∧
    Py.len (finished Sample.evaluation_stamp <$> ([cover] ++ content ++ [closing]))
    = Py.len (Sample.records 9).
Proof.
  assert (H1 : 3 ≤ Py.len (slides (Sample.template 6))) by (vm_compute; discriminate).
  assert (H2 : 3 ≤ Py.len (Sample.records 9)) by (vm_compute; discriminate).
  assert (H3 : valid_plan (slides (Sample.template 6)) (Py.len (Sample.records 9)) None)
    by (apply (bool_decide_unpack _); vm_compute; exact I).
  split; [exact H1|]. split; [exact H2|]. split; [exact H3|].
  exact (render_presentation_slide_count Sample.evaluation_stamp (Sample.template 6)
           (Sample.records 9) None H1 H2 H3).
Defined.

(** The claim C1 fails for a plan that names no slide to repeat, such as
    the plan the analyzer makes of an answer of the language model that
    names no slide: a 3-slide template and 5 records give 2 slides, the
    cover and the closing slide. *)
Lemma render_presentation_no_duplicates_counterexample :
  3 ≤ Py.len (slides (Sample.template 3)) ∧
  3 ≤ Py.len (Sample.records 5) ∧
  Main.analyze_template (Some Sample.empty_answer) (Sample.template 3)
    (Some "keep the agenda short"%string) 5
  = Some Sample.no_duplicates ∧
  ∃ prs,
    SlideRenderer.render_presentation Sample.evaluation_stamp (Sample.template 3)
      (Sample.records 5) (Some Sample.no_duplicates) = Ok prs ∧
    slides prs = [Sample.slide 1; Sample.slide 3] ∧
    Py.len (slides prs) ≠ Py.len (Sample.records 5).
Proof.
  split; [vm_compute; discriminate|]. split; [vm_compute; discriminate|].
  split; [vm_compute; reflexivity|].
  eexists. split; [vm_compute; reflexivity|].
  split; [reflexivity | vm_compute; discriminate].
Qed.


Lemma filter_Forall_id {A} (P : A → Prop) `{∀ x, Decision (P x)} (l : list A) :
  Forall P l → filter P l = l.
Proof.
  induction 1 as [|x l Hx _ IH]; [reflexivity|].
  rewrite filter_cons, decide_True by assumption. rewrite IH. reflexivity.
Qed.

Lemma filter_not_two n :
  3 ≤ n → filter (fun s => s ∉ [2]) (Py.range 2 n) = Py.range 3 n.
Proof.
  intros Hn. unfold Py.range. rewrite (seqZ_cons 2) by lia.
  rewrite filter_cons, decide_False by (intros H; apply H; left).
  replace (Z.succ 2) with 3 by lia. replace (Z.pred (n - 2)) with (n - 3) by lia.
  apply filter_Forall_id, Forall_forall. intros k Hk.
  apply elem_of_seqZ in Hk. rewrite list_elem_of_singleton. lia.
Qed.

(** C2. When content positions are left after the unique slides, the
    [i]-th of them takes the source slide
    [duplicate[i mod len(duplicate)]]: the source sequence is the cover,
    the unique slides used, the slides so picked and the closing slide.
    For [duplicate = [3, 4]] and 5 positions left the slides picked are
    [3, 4, 3, 4, 3]. *)
Theorem duplicate_round_robin :
  (∀ n required config unique duplicate,
     3 ≤ n →
     SlideRenderer.use_config n config = (unique, duplicate) →
     Forall (fun k => 1 ≤ k ≤ n) unique →
     Forall (fun k => 1 ≤ k ≤ n) duplicate →
     duplicate ≠ [] →
     let once := take (Z.to_nat (required - 2)) unique in
     let remaining := required - 2 - Py.len once in
     ∃ filled,
       SlideRenderer.source_sequence n required config
       = Ok ([1] ++ once ++ filled ++ [n]) ∧
       Py.len filled = Z.max 0 remaining ∧
       ∀ i, 0 ≤ i < remaining →
            filled !! Z.to_nat i = duplicate !! Z.to_nat (i mod Py.len duplicate)) ∧
  SlideRenderer.add_duplicate_slides (Py.range 1 6) [3; 4] (Py.range 0 5) []
  = Ok [3; 4; 3; 4; 3] ∧
  SlideRenderer.source_sequence 5 7 (Some Sample.three_four)
  = Ok [1; 3; 4; 3; 4; 3; 5].
Proof.
  split; [|split; vm_compute; reflexivity].
  intros n required config unique duplicate Hn Hcfg Hu Hd Hne once remaining.
  exists (round_robin duplicate remaining).
  rewrite (source_sequence_spec n required config unique duplicate) by assumption.
  split; [reflexivity|]. split.
  - unfold Py.len at 1. rewrite length_round_robin by assumption. lia.
  - intros i Hi. apply lookup_round_robin; assumption.
Qed.

Lemma duplicate_round_robin_witness :
  3 ≤ 5 ∧
  SlideRenderer.use_config 5 (Some Sample.three_four) = ([], [3; 4]) ∧
  Forall (fun k => 1 ≤ k ≤ 5) [] ∧
  Forall (fun k => 1 ≤ k ≤ 5) [3; 4] ∧
  [3; 4] ≠ [] ∧
  ∃ filled,
    SlideRenderer.source_sequence 5 7 (Some Sample.three_four)
    = Ok ([1] ++ take (Z.to_nat (7 - 2)) [] ++ filled ++ [5]) ∧
    Py.len filled = Z.max 0 (7 - 2 - Py.len (take (Z.to_nat (7 - 2)) (@nil Z))) ∧
    ∀ i, 0 ≤ i < 7 - 2 - Py.len (take (Z.to_nat (7 - 2)) (@nil Z)) →
         filled !! Z.to_nat i = [3; 4] !! Z.to_nat (i mod Py.len [3; 4]).
Proof.
  assert (H1 : 3 ≤ 5) by lia.
  assert (H2 : SlideRenderer.use_config 5 (Some Sample.three_four) = ([], [3; 4]))
    by reflexivity.
  assert (H3 : Forall (fun k => 1 ≤ k ≤ 5) []) by constructor.
  assert (H4 : Forall (fun k => 1 ≤ k ≤ 5) [3; 4])
    by (apply (bool_decide_unpack _); vm_compute; exact I).
  assert (H5 : [3; 4] ≠ @nil Z) by discriminate.
  repeat (split; [assumption|]).
  exact (proj1 duplicate_round_robin 5 7 (Some Sample.three_four) [] [3; 4]
           H1 H2 H3 H4 H5).
Defined.

(** C3 (as amended). When no instruction text is supplied, the handler
    passes no plan and the replicator takes no slide as unique and every
    interior slide 2..N-1 as duplicate-eligible; for a 6-slide template
    and 9 slides required the source sequence is
    [1,2,3,4,5,2,3,4,6]. The heuristic that marks slide 2 unique and the
    slides 3..N-1 duplicate-eligible (for N = 3, slide 2 again) is that
    of the analyzer, taken when no model is configured or the model
    fails; with it, 6 slides and 9 required give unique [2], duplicate
    [3,4,5] and the sequence [1,2,3,4,5,3,4,5,6]. *)
Theorem default_allocation :
  (∀ model template num_slides,
     Main.analyze_template model template None num_slides = None ∧
     Main.analyze_template model template (Some EmptyString) num_slides = None) ∧
  (∀ n required,
     3 ≤ n →
     SlideRenderer.use_config n None = ([], Py.range 2 n) ∧
     SlideRenderer.source_sequence n required None
     = Ok ([1] ++ round_robin (Py.range 2 n) (required - 2) ++ [n])) ∧
  SlideRenderer.source_sequence 6 9 None = Ok [1; 2; 3; 4; 5; 2; 3; 4; 6] ∧
  (∀ n instructions required,
     TemplateAnalyzer.analyze_template_instructions None n instructions required
     = TemplateAnalyzer._get_default_strategy n required) ∧
  (∀ model n instructions required,
     model n instructions required = None →
     TemplateAnalyzer._analyze_with_llm model n instructions required
     = TemplateAnalyzer._get_default_strategy n required) ∧
  (∀ n required,
     4 ≤ n →
     unique_slides (TemplateAnalyzer._get_default_strategy n required) = Some [2] ∧
     duplicate_slides (TemplateAnalyzer._get_default_strategy n required)
     = Some (Py.range 3 n)) ∧
  (∀ required,
     unique_slides (TemplateAnalyzer._get_default_strategy 3 required) = Some [2] ∧
     duplicate_slides (TemplateAnalyzer._get_default_strategy 3 required) = Some [2]) ∧
  unique_slides (TemplateAnalyzer._get_default_strategy 6 9) = Some [2] ∧
  duplicate_slides (TemplateAnalyzer._get_default_strategy 6 9) = Some [3; 4; 5] ∧
  SlideRenderer.source_sequence 6 9 (Some (TemplateAnalyzer._get_default_strategy 6 9))
  = Ok [1; 2; 3; 4; 5; 3; 4; 5; 6].
Proof.
  split; [intros; split; reflexivity|].
  split.
  { intros n required Hn. split; [reflexivity|].
    rewrite (source_sequence_spec n required None [] (Py.range 2 n)); try assumption.
    - unfold chosen_sources. rewrite take_nil. unfold Py.len at 1. simpl.
      rewrite Z.sub_0_r. reflexivity.
    - reflexivity.
    - constructor.
    - apply Forall_forall. intros k Hk. unfold Py.range in Hk.
      apply elem_of_seqZ in Hk. lia. }
  split; [vm_compute; reflexivity|].
  split; [intros n [[|c s]|] required; reflexivity|].
  split.
  { intros model n instructions required Hfail.
    unfold TemplateAnalyzer._analyze_with_llm. rewrite Hfail. reflexivity. }
  split.
  { intros n required Hn. unfold TemplateAnalyzer._get_default_strategy.
    holds (2 <=? n).
    cbn [unique_slides duplicate_slides]. split; [reflexivity|].
    rewrite filter_not_two by lia.
    unfold Py.range. rewrite (seqZ_cons 3) by lia. reflexivity. }
  split; [intros required; split; reflexivity|].
  repeat split; vm_compute; reflexivity.
Qed.

Lemma default_allocation_witness :
  3 ≤ 6 ∧
  SlideRenderer.use_config 6 None = ([], Py.range 2 6) ∧
  SlideRenderer.source_sequence 6 9 None
  = Ok ([1] ++ round_robin (Py.range 2 6) (9 - 2) ++ [6]).
Proof.
  assert (H : 3 ≤ 6) by lia.
  split; [exact H|].
  exact (proj1 (proj2 default_allocation) 6 9 H).
Defined.

(** The claim C3 fails on the handler's own path: without instruction
    text no plan is made, slide 2 is repeated like the other interior
    slides, and the source sequence differs from the one claimed. *)
Lemma default_allocation_counterexample :
  Main.analyze_template (Some Sample.no_model) (Sample.template 6) None 9 = None ∧
  SlideRenderer.use_config 6 None = ([], [2; 3; 4; 5]) ∧
  SlideRenderer.source_sequence 6 9 None = Ok [1; 2; 3; 4; 5; 2; 3; 4; 6] ∧
  SlideRenderer.source_sequence 6 9 None ≠ Ok [1; 2; 3; 4; 5; 3; 4; 5; 6] ∧
  (fmap slides (SlideRenderer.render_presentation id (Sample.template 6)
                  (Sample.records 9) None))
  = Ok (Sample.slide <$> [1; 2; 3; 4; 5; 2; 3; 4; 6]).
Proof.
  repeat split; try (vm_compute; reflexivity). vm_compute. discriminate.
Qed.

(** C5 (as amended). For every number of slides requested below 3, the
    request handler fails with the HTTP error 400 "Minimum 3 slides
    required", before any slide is replicated. The replicator itself
    does not check the number required: given fewer than 3 content
    records and a template of at least 3 slides, it returns the cover
    and the closing slide. *)
Theorem insufficient_slide_count :
  (∀ model generate_presentation_content save_and_reopen int_times
     _add_image_strict template template_instructions num_slides num_days
     use_ai_images,
     num_slides < 3 →
     Main.generate_presentation model generate_presentation_content
       save_and_reopen int_times _add_image_strict template
       template_instructions num_slides num_days use_ai_images
     = Raise (HTTPException 400 "Minimum 3 slides required")) ∧
  (∀ save_and_reopen template slides_content config,
     3 ≤ Py.len (slides template) →
     Py.len slides_content < 3 →
     ∃ cover closing,
       SlideRenderer.render_presentation save_and_reopen template slides_content
         config
       = Ok (mkPresentation (slide_width template) (slide_height template)
               [finished save_and_reopen cover; finished save_and_reopen closing]) ∧
       head (slides template) = Some cover ∧
       last (slides template) = Some closing).
Proof.
  split.
  - intros. unfold Main.generate_presentation.
    holds (num_slides <? 3).
    reflexivity.
  - intros save_and_reopen template slides_content config Hlen Hfew.
    destruct (assemble_few (slides template) (Py.len slides_content) config)
      as (cover & closing & Hasm & Hcover & Hclosing); [lia | lia |].
    exists cover, closing. rewrite render_presentation_assemble, Hasm.
    repeat split; assumption.
Qed.

Lemma insufficient_slide_count_witness :
  2 < 3 ∧
  Main.generate_presentation (Some Sample.no_model)
    (fun _ n _ => Sample.records n) Sample.evaluation_stamp Sample.int_times
    Sample.no_image (Sample.template 3) None 2 1 false
  = Raise (HTTPException 400 "Minimum 3 slides required").
Proof.
  assert (H : 2 < 3) by lia.
  split; [exact H|].
  exact (proj1 insufficient_slide_count (Some Sample.no_model)
           (fun _ n _ => Sample.records n) Sample.evaluation_stamp
           Sample.int_times Sample.no_image (Sample.template 3) None 2 1 false H).
Defined.

(** The claim C5 fails for the replicator: with 2 content records and a
    3-slide template it raises nothing and returns 2 slides. *)
Lemma insufficient_slide_count_counterexample :
  Py.len (Sample.records 2) < 3 ∧
  SlideRenderer.render_presentation Sample.evaluation_stamp (Sample.template 3)
    (Sample.records 2) None
  = Ok (mkPresentation 12192000 6858000 [Sample.slide 1; Sample.slide 3]).
Proof.
  split; [vm_compute; reflexivity | vm_compute; reflexivity].
Qed.

(** ** The claims on the planner *)

Section Planner.

(** What the two deterministic paths of the planner compute from a
    unique list *)
Lemma duplicates_of_unique n (unique : list Z) :
  let candidates := filter (fun s => s ∉ unique) (Py.range 2 n) in
  let duplicate := if Py.truthy candidates then candidates else Py.range 2 n in
  (∀ s, s ∈ duplicate → 2 ≤ s ≤ n - 1) ∧
  (3 ≤ n → duplicate ≠ []) ∧
  ((∃ s, 2 ≤ s ≤ n - 1 ∧ s ∉ unique) → ∀ s, s ∈ unique → s ∉ duplicate) ∧
  ((∀ s, 2 ≤ s ≤ n - 1 → s ∈ unique) → duplicate = Py.range 2 n).
Proof.
  intros candidates duplicate.
  assert (Hrange : ∀ s, s ∈ Py.range 2 n ↔ 2 ≤ s ≤ n - 1).
  { intros s. unfold Py.range. rewrite elem_of_seqZ. lia. }
  assert (Hcand : ∀ s, s ∈ candidates ↔ (s ∉ unique) ∧ (2 ≤ s ≤ n - 1)).
  { intros s. unfold candidates. rewrite list_elem_of_filter, Hrange. tauto. }
  repeat split.
  - subst duplicate. destruct candidates eqn:E; cbn [Py.truthy] in *.
    + apply Hrange. assumption.
    + apply Hcand. assumption.
  - subst duplicate. destruct candidates eqn:E; cbn [Py.truthy] in *.
    + apply Hrange. assumption.
    + apply Hcand. assumption.
  - intros Hn. subst duplicate. destruct candidates eqn:E; cbn [Py.truthy].
    + intros Hnil. assert (H2 : 2 ∈ Py.range 2 n) by (apply Hrange; lia).
      rewrite Hnil in H2. inversion H2.
    + discriminate.
  - intros (s & Hs & Hsu) t Htu Htd. subst duplicate.
    destruct candidates eqn:E; cbn [Py.truthy] in *.
    + assert (Hin : s ∈ @nil Z) by (apply Hcand; tauto). inversion Hin.
    + apply Hcand in Htd. tauto.
  - intros Hall. subst duplicate. destruct candidates as [|s l] eqn:E; [reflexivity|].
    assert (Hin : s ∈ s :: l) by left. apply Hcand in Hin.
    destruct Hin as [Hnot Hs]. exfalso. apply Hnot, Hall, Hs.
Qed.

End Planner.

(** C4 (as amended). Every plan made by the default heuristic or by
    pattern extraction for an N-slide template has its duplicate list
    within the interior range [2, N-1], so that neither the cover nor
    the closing slide is duplicate-eligible, and non-empty when N is at
    least 3. Unique and duplicate are disjoint whenever some interior
    slide is not unique; when every interior slide is unique, duplicate
    is the whole interior range. *)
Theorem plan_duplicates_interior :
  (∀ n required,
     duplicates_interior n (TemplateAnalyzer._get_default_strategy n required)) ∧
  (∀ model n c text required,
     TemplateAnalyzer._extract_slide_numbers (String c text) ≠ [] →
     duplicates_interior n
       (TemplateAnalyzer.analyze_template_instructions (Some model) n
          (Some (String c text)) required) ∧
     unique_slides
       (TemplateAnalyzer.analyze_template_instructions (Some model) n
          (Some (String c text)) required)
     = Some (TemplateAnalyzer._extract_slide_numbers (String c text))).
Proof.
  split.
  - intros n required. unfold duplicates_interior, TemplateAnalyzer._get_default_strategy.
    cbn [unique_slides duplicate_slides].
    eexists _, _. split; [reflexivity|]. split; [reflexivity|].
    apply duplicates_of_unique.
  - intros model n c text required Hfound.
    unfold TemplateAnalyzer.analyze_template_instructions.
    destruct (TemplateAnalyzer._extract_slide_numbers (String c text)) as [|k ks] eqn:E;
      [congruence|].
    cbn [Py.truthy unique_slides duplicate_slides]. split; [|reflexivity].
    unfold duplicates_interior. cbn [unique_slides duplicate_slides].
    eexists _, _. split; [reflexivity|]. split; [reflexivity|].
    apply duplicates_of_unique.
Qed.

Lemma plan_duplicates_interior_witness :
  TemplateAnalyzer._extract_slide_numbers
    "slide 2 and slide 5 are unique, don't repeat them" ≠ [] ∧
  duplicates_interior 10
    (TemplateAnalyzer.analyze_template_instructions (Some Sample.no_model) 10
       (Some "slide 2 and slide 5 are unique, don't repeat them"%string) 12) ∧
  unique_slides
    (TemplateAnalyzer.analyze_template_instructions (Some Sample.no_model) 10
       (Some "slide 2 and slide 5 are unique, don't repeat them"%string) 12)
  = Some (TemplateAnalyzer._extract_slide_numbers
            "slide 2 and slide 5 are unique, don't repeat them").
Proof.
  assert (H : TemplateAnalyzer._extract_slide_numbers
                "slide 2 and slide 5 are unique, don't repeat them" ≠ [])
    by (vm_compute; discriminate).
  split; [exact H|].
  exact (proj2 plan_duplicates_interior Sample.no_model 10 "s"%char
           "lide 2 and slide 5 are unique, don't repeat them"%string 12 H).
Defined.

(** The claim C4 fails on the default heuristic, whose plan for a
    3-slide template has slide 2 both unique and duplicate-eligible,
    and on pattern extraction, whose unique list keeps the cover when
    the instructions name slide 1. *)
Lemma plan_invariant_counterexample :
  ¬ plan_invariant 3 (TemplateAnalyzer._get_default_strategy 3 5) ∧
  unique_slides (TemplateAnalyzer._get_default_strategy 3 5) = Some [2] ∧
  duplicate_slides (TemplateAnalyzer._get_default_strategy 3 5) = Some [2] ∧
  ¬ plan_invariant 5
      (TemplateAnalyzer.analyze_template_instructions (Some Sample.no_model) 5
         (Some "slide 1 is unique"%string) 7) ∧
  unique_slides
    (TemplateAnalyzer.analyze_template_instructions (Some Sample.no_model) 5
       (Some "slide 1 is unique"%string) 7) = Some [1].
Proof.
  split.
  { intros (Hdisj & _). apply (Hdisj 2); vm_compute; left. }
  split; [reflexivity|]. split; [reflexivity|]. split.
  { intros (_ & Hu & _). specialize (Hu 1).
    assert (H : 2 ≤ 1 ≤ 5 - 1) by (apply Hu; vm_compute; left). lia. }
  vm_compute. reflexivity.
Qed.

Example scenario_B :
  let plan :=
    TemplateAnalyzer.analyze_template_instructions (Some Sample.no_model) 10
      (Some "slide 2 and slide 5 are unique, don't repeat them"%string) 12 in
  unique_slides plan = Some [2; 5] ∧
  duplicate_slides plan = Some [3; 4; 6; 7; 8; 9].
Proof. vm_compute. split; reflexivity. Qed.

(** ** The claims on the part names *)

Section PartNames.
Import SlideDuplicator.
Variable draws : Random.
Variable existing_rels : list string.
Variable sldIdLst_len : Z.

Local Abbreviation name := (candidate draws sldIdLst_len).
Local Abbreviation taken := (fun j => name_in (name j) existing_rels).

Lemma random_part_calls calls : snd (random_part draws calls) = (2 + calls)%nat.
Proof. reflexivity. Qed.

(** The loop, entered with the [j]-th candidate, returns the first free
    candidate from [j] on, if the fuel reaches it. *)
Lemma retry_loop_first_free fuel j k :
  (j ≤ k)%nat →
  (∀ i, (j ≤ i < k)%nat → taken i = true) →
  taken k = false →
  (k - j < fuel)%nat →
  retry_loop fuel draws existing_rels sldIdLst_len (name j) (2 * j)
  = Some (name k, (2 * k)%nat).
Proof.
  revert j. induction fuel as [|fuel IH]; intros j Hjk Htaken Hfree Hfuel; [lia|].
  cbn [retry_loop].
  destruct (decide (j = k)) as [-> | Hne].
  - rewrite Hfree. reflexivity.
  - rewrite Htaken by lia.
    destruct (random_part draws (2 * j)) as [part calls] eqn:Hpart.
    assert (Hcalls : calls = (2 * S j)%nat).
    { pose proof (random_part_calls (2 * j)) as H. rewrite Hpart in H.
      simpl in H. lia. }
    assert (Hname : partname part (sldIdLst_len + 1) = name (S j)).
    { unfold candidate. rewrite Hpart. reflexivity. }
    rewrite Hname, Hcalls. apply IH; try assumption; try lia.
    intros i Hi. apply Htaken. lia.
Qed.

(** While every candidate is taken, the loop is still running, whatever
    the fuel. *)
Lemma retry_loop_all_taken fuel j :
  (∀ i, (j ≤ i < j + fuel)%nat → taken i = true) →
  retry_loop fuel draws existing_rels sldIdLst_len (name j) (2 * j) = None.
Proof.
  revert j. induction fuel as [|fuel IH]; intros j Htaken; [reflexivity|].
  cbn [retry_loop]. rewrite Htaken by lia.
  destruct (random_part draws (2 * j)) as [part calls] eqn:Hpart.
  assert (Hcalls : calls = (2 * S j)%nat).
  { pose proof (random_part_calls (2 * j)) as H. rewrite Hpart in H.
    simpl in H. lia. }
  assert (Hname : partname part (sldIdLst_len + 1) = name (S j)).
  { unfold candidate. rewrite Hpart. reflexivity. }
  rewrite Hname, Hcalls. apply IH. intros i Hi. apply Htaken. lia.
Qed.

End PartNames.

(** C6 (as amended). When the predictable part name of a new slide is
    the target of an existing relationship, the generator makes a name
    with two random letters and tries again, until the name is free.
    The number of retries has no bound in the code and no failure is
    raised: the loop returns the first candidate that is free, after as
    many retries as candidates were taken, and it is still running
    after any number of tests while every candidate is taken. *)
Theorem generate_slide_partname_retries :
  (∀ draws existing_rels sldIdLst_len k fuel,
     (∀ j, (j < k)%nat →
           SlideDuplicator.name_in (candidate draws sldIdLst_len j) existing_rels
           = true) →
     SlideDuplicator.name_in (candidate draws sldIdLst_len k) existing_rels = false →
     (k < fuel)%nat →
     SlideDuplicator.generate_slide_partname fuel draws existing_rels sldIdLst_len
     = Some (candidate draws sldIdLst_len k, (2 * k)%nat) ∧
     SlideDuplicator.retries (2 * k) = k) ∧
  (∀ draws existing_rels sldIdLst_len,
     (∀ j, SlideDuplicator.name_in (candidate draws sldIdLst_len j) existing_rels
           = true) →
     ∀ fuel,
       SlideDuplicator.generate_slide_partname fuel draws existing_rels sldIdLst_len
       = None).
Proof.
  split.
  - intros draws existing_rels sldIdLst_len k fuel Htaken Hfree Hfuel. split.
    + unfold SlideDuplicator.generate_slide_partname.
      apply (retry_loop_first_free draws existing_rels sldIdLst_len fuel 0 k);
        try assumption; try lia.
      intros i Hi. apply Htaken. lia.
    + unfold SlideDuplicator.retries.
      rewrite Nat.mul_comm. apply Nat.div_mul. discriminate.
  - intros draws existing_rels sldIdLst_len Htaken fuel.
    unfold SlideDuplicator.generate_slide_partname.
    apply (retry_loop_all_taken draws existing_rels sldIdLst_len fuel 0).
    intros i _. apply Htaken.
Qed.

Lemma candidate_stubborn n j :
  candidate (Sample.stubborn n) 3 (S j)
  = if (j <? n)%nat then "/ppt/slides/slideaa4.xml"%string
    else "/ppt/slides/slideBB4.xml"%string.
Proof.
  unfold candidate, SlideDuplicator.random_part, SlideDuplicator.choice,
    Sample.stubborn.
  destruct (Nat.ltb_spec j n) as [Hlt | Hge].
  - holds (2 * j <? 2 * n)%nat.
    holds (S (2 * j) <? 2 * n)%nat.
    reflexivity.
  - fails (2 * j <? 2 * n)%nat.
    fails (S (2 * j) <? 2 * n)%nat.
    reflexivity.
Qed.

Lemma stubborn_retries n :
  SlideDuplicator.generate_slide_partname (S (S n)) (Sample.stubborn n)
    Sample.two_names 3
  = Some ("/ppt/slides/slideBB4.xml"%string, (2 * S n)%nat).
Proof.
  unfold SlideDuplicator.generate_slide_partname.
  transitivity (Some (candidate (Sample.stubborn n) 3 (S n), (2 * S n)%nat)).
  - apply (retry_loop_first_free (Sample.stubborn n) Sample.two_names 3
             (S (S n)) 0 (S n)).
    + lia.
    + intros [|i] Hi; [reflexivity|]. rewrite candidate_stubborn.
      holds (i <? n)%nat.
      reflexivity.
    + rewrite candidate_stubborn.
      fails (n <? n)%nat.
      reflexivity.
    + lia.
  - rewrite candidate_stubborn.
    fails (n <? n)%nat.
    reflexivity.
Qed.

Lemma choice_letter draws calls :
  fst (SlideDuplicator.choice draws calls) ∈ SlideDuplicator.ascii_letters.
Proof.
  unfold SlideDuplicator.choice. cbn [fst].
  apply list_elem_of_In, nth_In, Nat.mod_upper_bound. discriminate.
Qed.

Lemma name_in_elem name names :
  name ∈ names → SlideDuplicator.name_in name names = true.
Proof.
  intros H. unfold SlideDuplicator.name_in. apply existsb_exists.
  exists name. split; [apply list_elem_of_In, H | apply String.eqb_refl].
Qed.

Lemma candidate_all_names draws n j :
  SlideDuplicator.name_in (candidate draws n j) (Sample.all_names n) = true.
Proof.
  apply name_in_elem. unfold Sample.all_names. destruct j as [|j]; [left|].
  right. unfold candidate, SlideDuplicator.random_part.
  destruct (SlideDuplicator.choice draws (2 * j)) as [c1 calls] eqn:E1.
  destruct (SlideDuplicator.choice draws calls) as [c2 calls'] eqn:E2.
  cbn [fst].
  apply (list_elem_of_fmap_2
           (fun p : ascii * ascii =>
              SlideDuplicator.partname (String (fst p) (String (snd p) EmptyString))
                (n + 1)) _ (c1, c2)).
  apply list_elem_of_In, in_prod; apply list_elem_of_In.
  - pose proof (choice_letter draws (2 * j)) as H. rewrite E1 in H. exact H.
  - pose proof (choice_letter draws calls) as H. rewrite E2 in H. exact H.
Qed.

Lemma generate_slide_partname_retries_witness :
  (∀ j, (j < 3)%nat →
        SlideDuplicator.name_in (candidate (Sample.stubborn 2) 3 j) Sample.two_names
        = true) ∧
  SlideDuplicator.name_in (candidate (Sample.stubborn 2) 3 3) Sample.two_names
  = false ∧
  (3 < 10)%nat ∧
  SlideDuplicator.generate_slide_partname 10 (Sample.stubborn 2) Sample.two_names 3
  = Some (candidate (Sample.stubborn 2) 3 3, (2 * 3)%nat) ∧
  SlideDuplicator.retries (2 * 3) = 3%nat.
Proof.
  assert (H1 : ∀ j, (j < 3)%nat →
             SlideDuplicator.name_in (candidate (Sample.stubborn 2) 3 j)
               Sample.two_names = true).
  { intros [|[|[|j]]] Hj; [reflexivity | reflexivity | reflexivity | lia]. }
  assert (H2 : SlideDuplicator.name_in (candidate (Sample.stubborn 2) 3 3)
                 Sample.two_names = false) by reflexivity.
  assert (H3 : (3 < 10)%nat) by lia.
  split; [exact H1|]. split; [exact H2|]. split; [exact H3|].
  exact (proj1 generate_slide_partname_retries (Sample.stubborn 2) Sample.two_names
           3 3%nat 10%nat H1 H2 H3).
Defined.

(** The claim C6 fails: no cap bounds the retries, since the generator
    returns normally after more retries than any cap given (1001 of
    them in the instance shown); and no failure ends the loop, which is
    still running after any number of tests when all the names it can
    make are taken. *)
Lemma generate_slide_partname_cap_counterexample :
  ¬ (∃ cap : nat,
       ∀ draws existing_rels sldIdLst_len fuel name calls,
         SlideDuplicator.generate_slide_partname fuel draws existing_rels
           sldIdLst_len = Some (name, calls) →
         (SlideDuplicator.retries calls ≤ cap)%nat) ∧
  SlideDuplicator.generate_slide_partname 1002 (Sample.stubborn 1000)
    Sample.two_names 3
  = Some ("/ppt/slides/slideBB4.xml"%string, 2002%nat) ∧
  SlideDuplicator.retries 2002 = 1001%nat ∧
  ¬ (∃ fuel draws,
       SlideDuplicator.generate_slide_partname fuel draws (Sample.all_names 3) 3
       ≠ None).
Proof.
  split.
  { intros [cap Hcap].
    specialize (Hcap (Sample.stubborn cap) Sample.two_names 3 (S (S cap)) _ _
                  (stubborn_retries cap)).
    unfold SlideDuplicator.retries in Hcap.
    rewrite Nat.mul_comm, Nat.div_mul in Hcap by discriminate. lia. }
  split; [exact (stubborn_retries 1000)|].
  split; [reflexivity|].
  intros (fuel & draws & Hsome). apply Hsome.
  unfold SlideDuplicator.generate_slide_partname.
  apply (retry_loop_all_taken draws (Sample.all_names 3) 3 fuel 0).
  intros i _. apply candidate_all_names.
Qed.

(** ** The claims on the sanitizer *)

Lemma prefix_spec sub s :
  String.prefix sub s = true ↔ ∃ post, s = String.append sub post.
Proof.
  revert s. induction sub as [|a sub IH]; intros s.
  - split; [intros _; exists s; reflexivity | intros _; destruct s; reflexivity].
  - destruct s as [|c s]; simpl.
    + split; [discriminate | intros [post H]; discriminate].
    + destruct (Ascii.ascii_dec a c) as [-> | Hne].
      * rewrite IH. split; intros [post H]; exists post; congruence.
      * split; [discriminate | intros [post H]; congruence].
Qed.

(** [sub in s] holds exactly when [s] is some text, [sub], and some text. *)
Lemma contains_spec sub s :
  Py.contains sub s = true ↔
  ∃ pre post, s = String.append pre (String.append sub post).
Proof.
  induction s as [|c s IH].
  - cbn [Py.contains]. rewrite orb_false_r, prefix_spec. split.
    + intros [post H]. exists EmptyString, post. exact H.
    + intros (pre & post & H). destruct pre; [eauto | discriminate].
  - cbn [Py.contains]. rewrite orb_true_iff, prefix_spec, IH. split.
    + intros [[post H] | (pre & post & H)].
      * exists EmptyString, post. exact H.
      * exists (String c pre), post. simpl. congruence.
    + intros (pre & post & H). destruct pre as [|a pre].
      * left. exists post. exact H.
      * right. exists pre, post. simpl in H. congruence.
Qed.

Lemma remove_watermarks_spec keywords presentation :
  fst (Sanitize.clean_slides keywords (slides presentation) 0)
  = without_markers keywords <$> slides presentation.
Proof. apply clean_slides_spec. Qed.

(** C7. Each of the two sanitizers removes from every slide exactly the
    shapes of the shape tree of the slide (its top-level shapes) that
    have a text frame of their own whose lower-cased text contains an
    entry of its denylist, and leaves the other shapes in their order:
    a top-level shape with the text "Evaluation Only - Created with
    ..." is absent afterwards, a shape whose text contains no entry is
    kept, a shape without a text frame (a picture, a graphic frame, a
    group with whatever it holds) is kept as it is, and a presentation
    with no marked top-level shape is returned unchanged. *)
Theorem sanitize_removes_markers :
  (∀ presentation,
     SlideRenderer._remove_watermarks presentation
     = mkPresentation (slide_width presentation) (slide_height presentation)
         (without_markers SlideRenderer.watermark_keywords <$> slides presentation) ∧
     WatermarkRemover.remove_watermarks presentation
     = mkPresentation (slide_width presentation) (slide_height presentation)
         (without_markers WatermarkRemover.watermark_keywords <$> slides presentation)) ∧
  (∀ keywords slide s,
     s ∈ shapes (without_markers keywords slide) ↔
     s ∈ shapes slide ∧ Sanitize.is_watermark keywords s = false) ∧
  (∀ keywords s,
     Sanitize.is_watermark keywords s = true ↔
     ∃ tf kw pre post,
       shape_text_frame s = Some tf ∧ kw ∈ keywords ∧
       Py.lower (frame_text tf) = String.append pre (String.append kw post)) ∧
  Sanitize.is_watermark SlideRenderer.watermark_keywords
    (Sample.text_box "Evaluation Only - Created with ...") = true ∧
  Sanitize.is_watermark WatermarkRemover.watermark_keywords
    (Sample.text_box "Evaluation Only - Created with ...") = true ∧
  (∀ presentation,
     Forall (fun slide =>
               Forall (fun s => Sanitize.is_watermark
                                  SlideRenderer.watermark_keywords s = false)
                 (shapes slide))
       (slides presentation) →
     SlideRenderer._remove_watermarks presentation = presentation) ∧
  (∀ presentation,
     Forall (fun slide =>
               Forall (fun s => Sanitize.is_watermark
                                  WatermarkRemover.watermark_keywords s = false)
                 (shapes slide))
       (slides presentation) →
     WatermarkRemover.remove_watermarks presentation = presentation) ∧
  (∀ keywords slide s,
     s ∈ shapes slide → shape_text_frame s = None →
     s ∈ shapes (without_markers keywords slide)).
Proof.
  assert (Hid : ∀ keywords (l : list Slide),
            Forall (fun slide =>
                      Forall (fun s => Sanitize.is_watermark keywords s = false)
                        (shapes slide)) l →
            without_markers keywords <$> l = l).
  { intros keywords l H. induction H as [|slide l Hs _ IH]; [reflexivity|].
    rewrite fmap_cons, IH. f_equal. apply without_markers_id. exact Hs. }
  split.
  { intros presentation.
    unfold SlideRenderer._remove_watermarks, WatermarkRemover.remove_watermarks.
    rewrite !remove_watermarks_spec. split; reflexivity. }
  split.
  { intros keywords slide s. unfold without_markers. cbn [shapes].
    rewrite list_elem_of_filter. tauto. }
  split.
  { intros keywords s. unfold Sanitize.is_watermark, Py.any. split.
    - destruct (shape_text_frame s) as [tf|]; [|discriminate].
      intros H. apply existsb_exists in H as (kw & Hkw & Hc).
      apply contains_spec in Hc as (pre & post & Hc).
      exists tf, kw, pre, post. rewrite list_elem_of_In. auto.
    - intros (tf & kw & pre & post & -> & Hkw & Hc).
      apply existsb_exists. exists kw. split; [apply list_elem_of_In, Hkw|].
      apply contains_spec. eauto. }
  split; [vm_compute; reflexivity|]. split; [vm_compute; reflexivity|].
  split.
  - intros [w h l] H. unfold SlideRenderer._remove_watermarks.
    rewrite remove_watermarks_spec. cbn [slides slide_width slide_height] in *.
    rewrite Hid by assumption. reflexivity.
  - split.
    + intros [w h l] H. unfold WatermarkRemover.remove_watermarks.
      rewrite remove_watermarks_spec. cbn [slides slide_width slide_height] in *.
      rewrite Hid by assumption. reflexivity.
    + intros keywords slide s Hs Hframe. unfold without_markers. cbn [shapes].
      apply list_elem_of_filter. split; [|exact Hs].
      unfold Sanitize.is_watermark. rewrite Hframe. reflexivity.
Qed.

Lemma sanitize_removes_markers_witness :
  Forall (fun slide =>
            Forall (fun s => Sanitize.is_watermark
                               SlideRenderer.watermark_keywords s = false)
              (shapes slide))
    (slides (Sample.template 3)) ∧
  SlideRenderer._remove_watermarks (Sample.template 3) = Sample.template 3.
Proof.
  assert (H : Forall (fun slide =>
                        Forall (fun s => Sanitize.is_watermark
                                           SlideRenderer.watermark_keywords s = false)
                          (shapes slide))
                (slides (Sample.template 3)))
    by (apply (bool_decide_unpack _); vm_compute; exact I).
  split; [exact H|].
  exact (proj1 (proj2 (proj2 (proj2 (proj2 (proj2 sanitize_removes_markers)))))
           (Sample.template 3) H).
Defined.

(** The claim C7 fails for a marker inside a group. A group has no text
    frame and the sanitizers do not look at the shapes it holds, so a
    text box with the text "Evaluation Only - Created with ...", whose
    lower-cased text contains entries of both denylists, is still in
    the slide after either sanitizer, which returns the presentation
    unchanged. *)
Lemma sanitize_nested_marker_counterexample :
  Sanitize.is_watermark SlideRenderer.watermark_keywords Sample.stamp = true ∧
  Sanitize.is_watermark WatermarkRemover.watermark_keywords Sample.stamp = true ∧
  Forall (fun slide => Sample.stamp ∈ all_shapes slide)
    (slides Sample.grouped_stamp) ∧
  SlideRenderer._remove_watermarks Sample.grouped_stamp = Sample.grouped_stamp ∧
  WatermarkRemover.remove_watermarks Sample.grouped_stamp = Sample.grouped_stamp ∧
  ¬ marker_free SlideRenderer.watermark_keywords
      (SlideRenderer._remove_watermarks Sample.grouped_stamp) ∧
  ¬ marker_free WatermarkRemover.watermark_keywords
      (WatermarkRemover.remove_watermarks Sample.grouped_stamp).
Proof.
  assert (Hin : Sample.stamp
                ∈ all_shapes (mkSlide [GroupShape 0 0 914400 914400 [Sample.stamp]]
                                (NoNotesSlide true))).
  { unfold all_shapes. cbn [shapes fmap list_fmap mjoin list_join descendants app].
    right. left. }
  assert (H1 : Sanitize.is_watermark SlideRenderer.watermark_keywords Sample.stamp
               = true) by (vm_compute; reflexivity).
  assert (H2 : Sanitize.is_watermark WatermarkRemover.watermark_keywords Sample.stamp
               = true) by (vm_compute; reflexivity).
  assert (H3 : SlideRenderer._remove_watermarks Sample.grouped_stamp
               = Sample.grouped_stamp) by (vm_compute; reflexivity).
  assert (H4 : WatermarkRemover.remove_watermarks Sample.grouped_stamp
               = Sample.grouped_stamp) by (vm_compute; reflexivity).
  split; [exact H1|]. split; [exact H2|].
  split; [repeat constructor; exact Hin|].
  split; [exact H3|]. split; [exact H4|]. split.
  - rewrite H3. intros Hfree.
    rewrite (Hfree _ Sample.stamp (list_elem_of_here _ _) Hin) in H1. discriminate.
  - rewrite H4. intros Hfree.
    rewrite (Hfree _ Sample.stamp (list_elem_of_here _ _) Hin) in H2. discriminate.
Qed.

Example sanitize_sample :
  SlideRenderer._remove_watermarks
    (mkPresentation 12192000 6858000
       [mkSlide [Sample.text_box "Quarterly results";
                 Sample.text_box "Evaluation Only - Created with ...";
                 Picture 0 0 100 100 "logo.png";
                 GroupShape 0 0 100 100 [Sample.marker]] (NoNotesSlide true)])
  = mkPresentation 12192000 6858000
      [mkSlide [Sample.text_box "Quarterly results";
                Picture 0 0 100 100 "logo.png";
                GroupShape 0 0 100 100 [Sample.marker]] (NoNotesSlide true)].
Proof. vm_compute. reflexivity. Qed.

(** ** The claims on the content injector *)

Lemma length_append s1 s2 :
  String.length (String.append s1 s2) = (String.length s1 + String.length s2)%nat.
Proof. induction s1 as [|c s1 IH]; simpl; [reflexivity | rewrite IH; reflexivity]. Qed.

Lemma length_str_take n s :
  String.length (Py.str_take n s) = (n `min` String.length s)%nat.
Proof.
  unfold Py.str_take. revert s. induction n as [|n IH]; intros [|c s]; simpl;
    try reflexivity.
  rewrite IH. reflexivity.
Qed.

Section Bullets.
Variables size before after : Z.

Local Abbreviation write :=
  (fun bullet => SlidePopulator.write_bullet size before after bullet empty_paragraph).

Lemma add_bullets_later (bullets : list string) start ps :
  SlidePopulator.add_bullets size before after
    (imap (fun i bullet => (S (start + i), bullet)) bullets) ps
  = ps ++ (write <$> bullets).
Proof.
  revert start ps. induction bullets as [|bullet bullets IH]; intros start ps.
  - rewrite app_nil_r. reflexivity.
  - rewrite imap_cons. cbn [SlidePopulator.add_bullets Nat.eqb].
    rewrite (imap_ext _ (fun i b => (S (S start + i), b)))
      by (intros; simpl; f_equal; lia).
    rewrite IH, <- app_assoc. reflexivity.
Qed.

Lemma add_bullets_new_frame (bullets : list string) :
  SlidePopulator.add_bullets size before after
    (imap (fun i bullet => (i, bullet)) bullets) [empty_paragraph]
  = match bullets with
    | [] => [empty_paragraph]
    | _ => write <$> bullets
    end.
Proof.
  destruct bullets as [|bullet bullets]; [reflexivity|].
  rewrite imap_cons. cbn [SlidePopulator.add_bullets Nat.eqb].
  rewrite (imap_ext _ (fun i b => (S (0 + i), b))) by reflexivity.
  rewrite add_bullets_later. reflexivity.
Qed.

End Bullets.

(** What [_add_content_slide] adds to a slide: the title box, the text
    box of the bullets and perhaps a picture; and what the text box
    holds. *)
Lemma add_content_slide_bullets
    (int_times : Z -> Z -> Z)
    (_add_image_strict :
       Presentation -> Slide -> string -> string -> Z -> Z -> Z -> Z -> option Shape)
    (prs : Presentation) (slide : Slide) (content : SlideContent)
    (image_source : string) :
  ∃ title_box left top width height text_frame picture,
    shapes (SlidePopulator._add_content_slide int_times _add_image_strict prs slide
              content image_source)
    = shapes slide ++ [title_box; AutoShape left top width height text_frame]
        ++ option_list picture ∧
    p_text <$> paragraphs text_frame
    = match bullet_points content with
      | [] => [EmptyString]
      | _ => (fun bullet =>
                String.append " " (SlidePopulator.truncate_bullet bullet))
             <$> take 7 (bullet_points content)
      end ∧
    (length (paragraphs text_frame) ≤ 7)%nat ∧
    (length (bullet_points content) = 10%nat →
     length (paragraphs text_frame) = 7%nat) ∧
    (∀ bullet,
       (120 < String.length bullet)%nat →
       SlidePopulator.truncate_bullet bullet
       = String.append (Py.str_take 117 bullet) "..." ∧
       String.length (SlidePopulator.truncate_bullet bullet) = 120%nat) ∧
    (∀ bullet,
       (String.length bullet ≤ 120)%nat →
       SlidePopulator.truncate_bullet bullet = bullet).
Proof.
  assert (Hlimit : SlidePopulator.limit_bullets (bullet_points content)
                   = take 7 (bullet_points content)).
  { unfold SlidePopulator.limit_bullets.
    destruct (Nat.ltb_spec 7 (length (bullet_points content))); [reflexivity|].
    rewrite take_ge by lia. reflexivity. }
  assert (Htrunc : ∀ bullet, (120 < String.length bullet)%nat →
            SlidePopulator.truncate_bullet bullet
            = String.append (Py.str_take 117 bullet) "..." ∧
            String.length (SlidePopulator.truncate_bullet bullet) = 120%nat).
  { intros bullet Hlong. unfold SlidePopulator.truncate_bullet.
    holds (120 <? String.length bullet)%nat.
    split; [reflexivity|].
    rewrite length_append, length_str_take.
    change (120 - 3)%nat with 117%nat. simpl String.length. lia. }
  assert (Hshort : ∀ bullet, (String.length bullet ≤ 120)%nat →
            SlidePopulator.truncate_bullet bullet = bullet).
  { intros bullet Hle. unfold SlidePopulator.truncate_bullet.
    fails (120 <? String.length bullet)%nat.
    reflexivity. }
  unfold SlidePopulator._add_content_slide. rewrite Hlimit.
  destruct (if (length (take 7 (bullet_points content)) <=? 4)%nat
            then (17, 9, 10)
            else if (length (take 7 (bullet_points content)) <=? 6)%nat
                 then (15, 7, 8) else (12, 4, 6)) as [[size before] after].
  match goal with
  | |- context [SlidePopulator.set_paragraphs (SlidePopulator.add_bullets ?a ?b ?c ?l ?ps) ?f] =>
      set (tf := SlidePopulator.set_paragraphs (SlidePopulator.add_bullets a b c l ps) f)
  end.
  assert (Htext : p_text <$> paragraphs tf
                  = match bullet_points content with
                    | [] => [EmptyString]
                    | _ => (fun bullet =>
                              String.append " " (SlidePopulator.truncate_bullet bullet))
                           <$> take 7 (bullet_points content)
                    end).
  { subst tf. cbn [paragraphs SlidePopulator.set_paragraphs SlidePopulator.new_text_frame].
    rewrite add_bullets_new_frame.
    destruct (bullet_points content) as [|b bs]; [reflexivity|].
    change (take 7 (b :: bs)) with (b :: take 6 bs). cbv beta iota.
    rewrite <- list_fmap_compose. reflexivity. }
  assert (Hlen : length (paragraphs tf)
                 = match bullet_points content with
                   | [] => 1%nat
                   | l => (7 `min` length l)%nat
                   end).
  { rewrite <- (length_fmap p_text), Htext.
    destruct (bullet_points content) as [|b bs]; [reflexivity|].
    rewrite length_fmap, length_take. reflexivity. }
  assert (Hrest :
    (length (paragraphs tf) ≤ 7)%nat ∧
    (length (bullet_points content) = 10%nat → length (paragraphs tf) = 7%nat)).
  { rewrite Hlen. destruct (bullet_points content) as [|b bs]; simpl length; lia. }
  destruct Hrest as [Hmax Hten]. clearbody tf.
  destruct (image_concept content) as [[|c concept]|];
    [ | destruct (negb (String.eqb image_source "none")) | ];
    cbv beta iota zeta;
    try match goal with
        | |- context [_add_image_strict ?a ?b ?c ?d ?e ?f ?g ?h] =>
            destruct (_add_image_strict a b c d e f g h) as [picture|]
        end;
    destruct (speaker_notes content); cbn [shapes];
    rewrite <- ?app_assoc;
    first [ eexists _, _, _, _, _, _, (Some picture)
          | eexists _, _, _, _, _, _, None ];
    (split; [reflexivity|]);
    exact (conj Htext (conj Hmax (conj Hten (conj Htrunc Hshort)))).
Qed.

Example ten_bullets_rendered :
  ∃ title_box left top width height text_frame,
    shapes (SlidePopulator._add_content_slide Sample.int_times Sample.no_image
              (Sample.template 3) (Sample.slide 2) Sample.ten_bullets "pexels")
    = shapes (Sample.slide 2)
        ++ [title_box; AutoShape left top width height text_frame] ∧
    p_text <$> paragraphs text_frame
    = [" Point 1"; " Point 2"; " Point 3"; " Point 4"; " Point 5"; " Point 6";
       String.append " " (String.append (Sample.dashes 117) "...")]%string.
Proof. eexists _, _, _, _, _, _. split; vm_compute; reflexivity. Qed.

Section Populate.
Variable int_times : Z -> Z -> Z.
Variable _add_image_strict :
  Presentation -> Slide -> string -> string -> Z -> Z -> Z -> Z -> option Shape.
Variables (prs : Presentation) (count : Z) (image_source : string).

Local Abbreviation loop :=
  (SlidePopulator.populate_slides int_times _add_image_strict prs count
     image_source).
Local Abbreviation injected :=
  (injected int_times _add_image_strict prs count image_source).

Lemma length_populate_slides slides_content idx (l : list Slide) :
  length (loop slides_content idx l) = length l.
Proof.
  revert idx l. induction slides_content as [|content rest IH]; intros idx l;
    [reflexivity|].
  cbn [SlidePopulator.populate_slides].
  destruct (Py.len l <=? Z.of_nat idx); [reflexivity|].
  destruct (l !! idx) as [slide|]; [|reflexivity].
  destruct (idx =? 0)%nat; [rewrite IH; apply length_insert|].
  destruct (Z.of_nat idx =? count - 1); rewrite IH; [reflexivity|].
  apply length_insert.
Qed.

(** The records beyond the last slide are not read. *)
Lemma populate_slides_take slides_content idx (l : list Slide) :
  loop slides_content idx l = loop (take (length l - idx) slides_content) idx l.
Proof.
  revert idx l. induction slides_content as [|content rest IH]; intros idx l.
  - rewrite take_nil. reflexivity.
  - destruct (Z.leb_spec (Py.len l) (Z.of_nat idx)) as [Hbreak | Hin].
    + replace (length l - idx)%nat with 0%nat by (unfold Py.len in Hbreak; lia).
      cbn [take SlidePopulator.populate_slides].
      holds (Py.len l <=? Z.of_nat idx).
      reflexivity.
    + replace (length l - idx)%nat with (S (length l - S idx))
        by (unfold Py.len in Hin; lia).
      cbn [take SlidePopulator.populate_slides].
      fails (Py.len l <=? Z.of_nat idx).
      destruct (l !! idx) as [slide|]; [|reflexivity].
      destruct (idx =? 0)%nat.
      { rewrite IH, length_insert. reflexivity. }
      destruct (Z.of_nat idx =? count - 1).
      { apply IH. }
      rewrite IH, length_insert. reflexivity.
Qed.

(** The loop writes no slide at the last position of a presentation of
    two slides or more. *)
Lemma populate_slides_last slides_content idx (l : list Slide) :
  Py.len l = count → (2 ≤ length l)%nat →
  loop slides_content idx l !! (length l - 1)%nat = l !! (length l - 1)%nat.
Proof.
  revert idx l. induction slides_content as [|content rest IH];
    intros idx l Hcount Htwo; [reflexivity|].
  cbn [SlidePopulator.populate_slides].
  destruct (Py.len l <=? Z.of_nat idx); [reflexivity|].
  destruct (l !! idx) as [slide|]; [|reflexivity].
  destruct (Nat.eqb_spec idx 0) as [-> | Hidx].
  { rewrite <- (length_insert l 0
                  (SlidePopulator._add_title_slide_content_smart int_times prs
                     slide content)) at 1.
    rewrite IH by (unfold Py.len in *; rewrite length_insert; lia).
    rewrite length_insert. apply list_lookup_insert_ne. lia. }
  destruct (Z.eqb_spec (Z.of_nat idx) (count - 1)) as [Hlast | Hmid].
  { apply IH; assumption. }
  rewrite <- (length_insert l idx
                (SlidePopulator._add_content_slide int_times _add_image_strict
                   prs slide content image_source)) at 1.
  rewrite IH by (unfold Py.len in *; rewrite length_insert; lia).
  rewrite length_insert. apply list_lookup_insert_ne.
  unfold Py.len in *. lia.
Qed.

(** The record that meets the last slide is not read. *)
Lemma populate_slides_closing_record slides_content idx (l : list Slide) content :
  Py.len l = count → (1 ≤ idx ≤ length l - 1)%nat →
  loop (<[(length l - 1 - idx)%nat := content]> slides_content) idx l
  = loop slides_content idx l.
Proof.
  revert idx l. induction slides_content as [|record rest IH];
    intros idx l Hcount Hidx; [reflexivity|].
  destruct (decide (idx = length l - 1)%nat) as [Hlast | Hbefore].
  - replace (length l - 1 - idx)%nat with 0%nat by lia.
    cbn [insert list_insert SlidePopulator.populate_slides].
    destruct (Py.len l <=? Z.of_nat idx); [reflexivity|].
    destruct (l !! idx) as [slide|]; [|reflexivity].
    fails (idx =? 0)%nat.
    holds (Z.of_nat idx =? count - 1).
    reflexivity.
  - replace (length l - 1 - idx)%nat with (S (length l - 1 - S idx)) by lia.
    cbn [insert list_insert SlidePopulator.populate_slides].
    destruct (Py.len l <=? Z.of_nat idx); [reflexivity|].
    destruct (l !! idx) as [slide|]; [|reflexivity].
    fails (idx =? 0)%nat.
    destruct (Z.of_nat idx =? count - 1).
    + apply IH; [assumption | lia].
    + set (l' := <[idx := _]> l).
      assert (Hlen : length l' = length l) by apply length_insert.
      rewrite <- Hlen. apply IH; unfold Py.len in *; rewrite ?Hlen; lia.
Qed.

(** The loop, slide by slide: a slide met by a record is injected with
    it, the others are left. *)
Lemma populate_slides_lookup slides_content idx (l : list Slide) j :
  loop slides_content idx l !! j
  = if decide (idx ≤ j < idx + length slides_content)%nat
    then slide ← l !! j; injected j slide <$> slides_content !! (j - idx)%nat
    else l !! j.
Proof.
  revert idx l. induction slides_content as [|content rest IH]; intros idx l.
  - cbn [SlidePopulator.populate_slides length].
    rewrite decide_False by lia. reflexivity.
  - cbn [SlidePopulator.populate_slides].
    destruct (Z.leb_spec (Py.len l) (Z.of_nat idx)) as [Hbreak | Hin].
    { destruct (decide (idx ≤ j < idx + length (content :: rest))%nat);
        [|reflexivity].
      rewrite (lookup_ge_None_2 l j) by (unfold Py.len in Hbreak; lia).
      reflexivity. }
    destruct (lookup_lt_is_Some_2 l idx) as [slide Hslide];
      [unfold Py.len in Hin; lia|].
    rewrite Hslide.
    assert (Hstep : ∀ l' : list Slide,
              l' = <[idx := injected idx slide content]> l →
              loop rest (S idx) l' !! j
              = if decide (idx ≤ j < idx + length (content :: rest))%nat
                then slide ← l !! j;
                     injected j slide <$> (content :: rest) !! (j - idx)%nat
                else l !! j).
    { intros l' ->. rewrite IH. cbn [length].
      destruct (decide (j = idx)) as [-> | Hne].
      - rewrite decide_False by lia. rewrite decide_True by lia.
        rewrite list_lookup_insert_eq by (unfold Py.len in Hin; lia).
        rewrite Hslide, Nat.sub_diag. reflexivity.
      - rewrite list_lookup_insert_ne by lia.
        destruct (decide (S idx ≤ j < S idx + length rest)%nat).
        + rewrite decide_True by lia.
          replace (j - idx)%nat with (S (j - S idx)) by lia. reflexivity.
        + rewrite decide_False by lia. reflexivity. }
    unfold injected in Hstep at 1.
    destruct (idx =? 0)%nat; [apply Hstep; reflexivity|].
    destruct (Z.of_nat idx =? count - 1); apply Hstep; [|reflexivity].
    symmetry. apply list_insert_id. exact Hslide.
Qed.

End Populate.

(** C8. On every interior content slide of the presentation, the text
    box of the bullets that the injection adds holds one paragraph for
    each of the first 7 bullets of the record and none for the others
    (one empty paragraph when the record has no bullet): at most 7, and
    exactly 7 for a record of 10 bullets. Each paragraph is a space
    followed by the bullet, where a bullet of more than 120 characters
    is cut to its first 117 characters followed by "...". *)
Theorem content_slide_bullets
    (int_times : Z -> Z -> Z)
    (_add_image_strict :
       Presentation -> Slide -> string -> string -> Z -> Z -> Z -> Z -> option Shape)
    (presentation : Presentation) (slides_content : list SlideContent)
    (image_source : string) (idx : nat) (slide : Slide) (content : SlideContent) :
  slides presentation !! idx = Some slide →
  slides_content !! idx = Some content →
  (0 < idx)%nat →
  Z.of_nat idx ≠ Py.len (slides presentation) - 1 →
  ∃ filled title_box left top width height text_frame picture,
    slides (SlidePopulator.populate_presentation int_times _add_image_strict
              presentation slides_content image_source) !! idx = Some filled ∧
    shapes filled
    = shapes slide ++ [title_box; AutoShape left top width height text_frame]
        ++ option_list picture ∧
    p_text <$> paragraphs text_frame
    = match bullet_points content with
      | [] => [EmptyString]
      | _ => (fun bullet =>
                String.append " " (SlidePopulator.truncate_bullet bullet))
             <$> take 7 (bullet_points content)
      end ∧
    (length (paragraphs text_frame) ≤ 7)%nat ∧
    (length (bullet_points content) = 10%nat →
     length (paragraphs text_frame) = 7%nat) ∧
    (∀ bullet,
       (120 < String.length bullet)%nat →
       SlidePopulator.truncate_bullet bullet
       = String.append (Py.str_take 117 bullet) "..." ∧
       String.length (SlidePopulator.truncate_bullet bullet) = 120%nat) ∧
    (∀ bullet,
       (String.length bullet ≤ 120)%nat →
       SlidePopulator.truncate_bullet bullet = bullet).
Proof.
  intros Hslide Hcontent Hpos Hinterior.
  destruct (add_content_slide_bullets int_times _add_image_strict presentation
              slide content image_source)
    as (title_box & left & top & width & height & text_frame & picture & Hshapes & H).
  exists (SlidePopulator._add_content_slide int_times _add_image_strict
            presentation slide content image_source),
    title_box, left, top, width, height, text_frame, picture.
  split; [|split; assumption].
  unfold SlidePopulator.populate_presentation. cbn [slides].
  rewrite populate_slides_lookup.
  apply lookup_lt_Some in Hcontent as Hlt.
  rewrite decide_True by lia.
  rewrite Hslide, Nat.sub_0_r, Hcontent. cbn [mbind option_bind fmap option_fmap option_map].
  unfold injected.
  fails (idx =? 0)%nat.
  fails (Z.of_nat idx =? Py.len (slides presentation) - 1).
  reflexivity.
Qed.

Lemma content_slide_bullets_witness :
  slides (Sample.template 3) !! 1%nat = Some (Sample.slide 2) ∧
  [Sample.record 1; Sample.ten_bullets; Sample.record 3] !! 1%nat
  = Some Sample.ten_bullets ∧
  (0 < 1)%nat ∧
  Z.of_nat 1 ≠ Py.len (slides (Sample.template 3)) - 1 ∧
  ∃ filled title_box left top width height text_frame picture,
    slides (SlidePopulator.populate_presentation Sample.int_times Sample.no_image
              (Sample.template 3)
              [Sample.record 1; Sample.ten_bullets; Sample.record 3] "pexels")
      !! 1%nat = Some filled ∧
    shapes filled
    = shapes (Sample.slide 2)
        ++ [title_box; AutoShape left top width height text_frame]
        ++ option_list picture ∧
    p_text <$> paragraphs text_frame
    = match bullet_points Sample.ten_bullets with
      | [] => [EmptyString]
      | _ => (fun bullet =>
                String.append " " (SlidePopulator.truncate_bullet bullet))
             <$> take 7 (bullet_points Sample.ten_bullets)
      end ∧
    (length (paragraphs text_frame) ≤ 7)%nat ∧
    (length (bullet_points Sample.ten_bullets) = 10%nat →
     length (paragraphs text_frame) = 7%nat) ∧
    (∀ bullet,
       (120 < String.length bullet)%nat →
       SlidePopulator.truncate_bullet bullet
       = String.append (Py.str_take 117 bullet) "..." ∧
       String.length (SlidePopulator.truncate_bullet bullet) = 120%nat) ∧
    (∀ bullet,
       (String.length bullet ≤ 120)%nat →
       SlidePopulator.truncate_bullet bullet = bullet).
Proof.
  assert (H1 : slides (Sample.template 3) !! 1%nat = Some (Sample.slide 2))
    by reflexivity.
  assert (H2 : [Sample.record 1; Sample.ten_bullets; Sample.record 3] !! 1%nat
               = Some Sample.ten_bullets) by reflexivity.
  assert (H3 : (0 < 1)%nat) by lia.
  assert (H4 : Z.of_nat 1 ≠ Py.len (slides (Sample.template 3)) - 1)
    by (vm_compute; discriminate).
  split; [exact H1|]. split; [exact H2|]. split; [exact H3|]. split; [exact H4|].
  exact (content_slide_bullets Sample.int_times Sample.no_image (Sample.template 3)
           [Sample.record 1; Sample.ten_bullets; Sample.record 3] "pexels" 1%nat
           (Sample.slide 2) Sample.ten_bullets H1 H2 H3 H4).
Defined.

(** The cover takes the title into the text shape that stands highest,
    the larger first, and the subtitle into the next one. *)
Example cover_placeholders :
  let frame text :=
    mkTextFrame
      [mkParagraph text None None None None None None None None None None]
      None None None None None None in
  let cover :=
    mkSlide [AutoShape 0 500 100 10 (frame "low"%string);
             Picture 0 0 50 50 "bg.png";
             AutoShape 0 200 100 10 (frame "small"%string);
             AutoShape 0 200 100 30 (frame "large"%string)] (NoNotesSlide true) in
  SlidePopulator.ts_shape
    <$> Py.sort_by SlidePopulator.key_le
          (SlidePopulator.find_text_shapes (shapes cover))
  = [3; 2; 0]%nat ∧
  (fun s => frame_text <$> shape_text_frame s)
    <$> shapes (SlidePopulator._add_title_slide_content_smart Sample.int_times
                  (Sample.template 3) cover (Sample.record 1))
  = [Some "low"; None;
     Some (String (ascii_of_nat 10) "First point");
     Some (String (ascii_of_nat 10) "Title 1")]%string.
Proof. split; vm_compute; reflexivity. Qed.

(** C9 (as amended). For every presentation of at least two slides and
    every list of content records, the injection leaves the last slide
    as it was, and the content record that meets it, whatever it is,
    changes nothing of the result. *)
Theorem closing_slide_untouched
    (int_times : Z -> Z -> Z)
    (_add_image_strict :
       Presentation -> Slide -> string -> string -> Z -> Z -> Z -> Z -> option Shape)
    (presentation : Presentation) (slides_content : list SlideContent)
    (image_source : string) :
  (2 ≤ length (slides presentation))%nat →
  last (slides (SlidePopulator.populate_presentation int_times _add_image_strict
                  presentation slides_content image_source))
  = last (slides presentation) ∧
  ∀ content,
    SlidePopulator.populate_presentation int_times _add_image_strict presentation
      (<[(length (slides presentation) - 1)%nat := content]> slides_content)
      image_source
    = SlidePopulator.populate_presentation int_times _add_image_strict presentation
        slides_content image_source.
Proof.
  intros Htwo. unfold SlidePopulator.populate_presentation. cbn [slides]. split.
  - rewrite !last_lookup, length_populate_slides.
    replace (Nat.pred (length (slides presentation)))
      with (length (slides presentation) - 1)%nat by lia.
    apply populate_slides_last; [reflexivity | assumption].
  - intros content. f_equal.
    destruct slides_content as [|record rest]; [reflexivity|].
    replace (length (slides presentation) - 1)%nat
      with (S (length (slides presentation) - 1 - 1)) by lia.
    cbn [insert list_insert SlidePopulator.populate_slides].
    destruct (Py.len (slides presentation) <=? Z.of_nat 0); [reflexivity|].
    destruct (slides presentation !! 0%nat) as [slide|]; [|reflexivity].
    cbn [Nat.eqb].
    set (l' := <[0%nat := _]> (slides presentation)).
    assert (Hlen : length l' = length (slides presentation)) by apply length_insert.
    rewrite <- Hlen.
    apply populate_slides_closing_record; unfold Py.len; rewrite ?Hlen; lia.
Qed.

Lemma closing_slide_untouched_witness :
  (2 ≤ length (slides (Sample.template 3)))%nat ∧
  last (slides (SlidePopulator.populate_presentation Sample.int_times
                  Sample.no_image (Sample.template 3) (Sample.records 3) "pexels"))
  = last (slides (Sample.template 3)) ∧
  ∀ content,
    SlidePopulator.populate_presentation Sample.int_times Sample.no_image
      (Sample.template 3)
      (<[(length (slides (Sample.template 3)) - 1)%nat := content]>
         (Sample.records 3))
      "pexels"
    = SlidePopulator.populate_presentation Sample.int_times Sample.no_image
        (Sample.template 3) (Sample.records 3) "pexels".
Proof.
  assert (H : (2 ≤ length (slides (Sample.template 3)))%nat) by (vm_compute; lia).
  split; [exact H|].
  exact (closing_slide_untouched Sample.int_times Sample.no_image
           (Sample.template 3) (Sample.records 3) "pexels" H).
Defined.

(** The claim C9 fails for a presentation of one slide: its only slide
    is the last one and is written as the cover. *)
Lemma closing_slide_single_counterexample :
  last (slides (SlidePopulator.populate_presentation Sample.int_times
                  Sample.no_image (Sample.template 1) (Sample.records 1) "pexels"))
  ≠ last (slides (Sample.template 1)) ∧
  (length <$> (shapes <$> last (slides (Sample.template 1)))) = Some 1%nat ∧
  (length <$>
     (shapes <$>
        last (slides (SlidePopulator.populate_presentation Sample.int_times
                        Sample.no_image (Sample.template 1) (Sample.records 1)
                        "pexels"))))
  = Some 3%nat.
Proof.
  split; [vm_compute; discriminate|]. split; vm_compute; reflexivity.
Qed.

(** C10. When there are more content records than slides, the injection
    stops after the last slide: the result is that of the records that
    meet a slide, the others are not read, and the presentation has the
    slides it had, no more. The injection raises no error of its own. *)
Theorem surplus_records_ignored
    (int_times : Z -> Z -> Z)
    (_add_image_strict :
       Presentation -> Slide -> string -> string -> Z -> Z -> Z -> Z -> option Shape)
    (presentation : Presentation) (slides_content : list SlideContent)
    (image_source : string) :
  SlidePopulator.populate_presentation int_times _add_image_strict presentation
    slides_content image_source
  = SlidePopulator.populate_presentation int_times _add_image_strict presentation
      (take (length (slides presentation)) slides_content) image_source ∧
  length (slides (SlidePopulator.populate_presentation int_times _add_image_strict
                    presentation slides_content image_source))
  = length (slides presentation).
Proof.
  unfold SlidePopulator.populate_presentation. cbn [slides]. split.
  - f_equal. rewrite populate_slides_take, Nat.sub_0_r. reflexivity.
  - apply length_populate_slides.
Qed.

Example surplus_sample :
  SlidePopulator.populate_presentation Sample.int_times Sample.no_image
    (Sample.template 3) (Sample.records 8) "pexels"
  = SlidePopulator.populate_presentation Sample.int_times Sample.no_image
      (Sample.template 3) (Sample.records 3) "pexels".
Proof. vm_compute. reflexivity. Qed.

(** * Further properties *)

(** ** The replicator and the handler *)

Lemma mapM_raise {A B} (f : A → result B) (x : A) (l : list A) e :
  f x = Raise e → mapM f (x :: l) = Raise e.
Proof. intros H. cbn [mapM]. rewrite H. reflexivity. Qed.

Lemma mapM_ok {A B} (f : A → result B) (P : B → Prop) (l : list A) :
  Forall (fun x => ∃ y, f x = Ok y ∧ P y) l →
  ∃ ys, mapM f l = Ok ys ∧ length ys = length l ∧ Forall P ys.
Proof.
  induction 1 as [|x l (y & Hy & HP) _ (ys & Hys & Hlen & HPs)].
  - exists []. repeat split. constructor.
  - exists (y :: ys). cbn [mapM]. rewrite Hy. cbn [mbind result_bind].
    rewrite Hys. cbn [mbind result_bind mret result_ret length].
    repeat split; [congruence | constructor; assumption].
Qed.

(** What a plan that can be carried out gives: as many slides as
    records, of the size of the template. *)
Lemma render_presentation_count save_and_reopen template slides_content config :
  3 ≤ Py.len (slides template) →
  2 ≤ Py.len slides_content →
  valid_plan (slides template) (Py.len slides_content) config →
  ∃ prs,
    SlideRenderer.render_presentation save_and_reopen template slides_content
      config = Ok prs ∧
    length (slides prs) = length slides_content ∧
    slide_width prs = slide_width template ∧
    slide_height prs = slide_height template.
Proof.
  intros Hlen Hreq Hplan. unfold valid_plan in Hplan.
  destruct (SlideRenderer.use_config _ _) as [unique duplicate] eqn:Hcfg.
  destruct Hplan as (Hu & Hd & Henough).
  destruct (assemble_spec (slides template) (Py.len slides_content) config
              unique duplicate Hlen Hcfg Hu Hd) as (output & Hasm & Hout).
  pose proof (length_chosen_sources (Py.len (slides template))
                (Py.len slides_content) unique duplicate Hreq Henough) as Hcount.
  apply Forall2_length in Hout.
  rewrite render_presentation_assemble, Hasm. cbn [mbind result_bind].
  eexists. split; [reflexivity|]. cbn [slides slide_width slide_height].
  rewrite length_fmap. unfold Py.len in *. repeat split. lia.
Qed.



Lemma elem_of_round_robin duplicate count k :
  k ∈ round_robin duplicate count → k ∈ duplicate.
Proof.
  unfold round_robin. intros H. apply list_elem_of_omap in H as (i & _ & Hi).
  unfold round_robin_pick in Hi. apply list_elem_of_lookup. eauto.
Qed.

Lemma NoDup_take_stable {A} (l : list A) i : NoDup l → NoDup (take i l).
Proof.
  intros H. rewrite <- (take_drop i l) in H. apply NoDup_app in H. apply H.
Qed.

Lemma filter_eq_not_elem (k : Z) (l : list Z) :
  k ∉ l → filter (fun x => x = k) l = [].
Proof.
  induction l as [|x l IH]; intros Hk; [reflexivity|].
  apply not_elem_of_cons in Hk as [Hne Hk].
  rewrite filter_cons, decide_False by congruence. apply IH, Hk.
Qed.

Lemma filter_eq_NoDup (k : Z) (l : list Z) :
  NoDup l → (length (filter (fun x => x = k) l) ≤ 1)%nat.
Proof.
  induction 1 as [|x l Hx Hnd IH]; [simpl; lia|].
  rewrite filter_cons. destruct (decide (x = k)) as [-> | Hne]; [|exact IH].
  rewrite filter_eq_not_elem by assumption. simpl. lia.
Qed.

(** X2. For a plan whose slide numbers lie in the template, every
    content slide of the assembly is a slide the plan names, unique or
    duplicate. When the unique list has no repetition and shares no
    slide with the duplicate list, a unique slide is the source of at
    most one content slide; and when the unique slides suffice, the
    content is the first of them, in their order, and no duplicate
    slide is used. *)
Theorem content_sources_from_plan n required config unique duplicate :
  3 ≤ n →
  SlideRenderer.use_config n config = (unique, duplicate) →
  Forall (fun k => 1 ≤ k ≤ n) unique →
  Forall (fun k => 1 ≤ k ≤ n) duplicate →
  ∃ content,
    SlideRenderer.source_sequence n required config = Ok ([1] ++ content ++ [n]) ∧
    (∀ k, k ∈ content → k ∈ unique ∨ k ∈ duplicate) ∧
    (NoDup unique → (∀ k, k ∈ unique → k ∉ duplicate) →
     ∀ k, k ∈ unique → (length (filter (fun x => x = k) content) ≤ 1)%nat) ∧
    (required - 2 ≤ Py.len unique →
     content = take (Z.to_nat (required - 2)) unique).
Proof.
  intros Hn Hcfg Hu Hd.
  rewrite (source_sequence_spec n required config unique duplicate) by assumption.
  unfold chosen_sources.
  set (once := take (Z.to_nat (required - 2)) unique).
  set (more := round_robin duplicate (required - 2 - Py.len once)).
  exists (once ++ more). split; [rewrite <- !app_assoc; reflexivity|].
  split; [|split].
  - intros k Hk. apply elem_of_app in Hk as [Hk | Hk].
    + left. apply elem_of_take in Hk as (i & Hi & _).
      apply list_elem_of_lookup. eauto.
    + right. eapply elem_of_round_robin; exact Hk.
  - intros Hnd Hdisj k Hk. rewrite filter_app, length_app.
    rewrite (filter_eq_not_elem k more)
      by (intros Hin; apply (Hdisj k Hk); eapply elem_of_round_robin; exact Hin).
    pose proof (filter_eq_NoDup k once (NoDup_take_stable _ _ Hnd)). simpl. lia.
  - intros Henough. subst more.
    rewrite round_robin_nonpos; [apply app_nil_r|].
    subst once. unfold Py.len in *. rewrite length_take. lia.
Qed.

Lemma content_sources_from_plan_witness :
  3 ≤ 6 ∧
  SlideRenderer.use_config 6 (Some (TemplateAnalyzer._get_default_strategy 6 9))
  = ([2], [3; 4; 5]) ∧
  Forall (fun k => 1 ≤ k ≤ 6) [2] ∧
  Forall (fun k => 1 ≤ k ≤ 6) [3; 4; 5] ∧
  ∃ content,
    SlideRenderer.source_sequence 6 9
      (Some (TemplateAnalyzer._get_default_strategy 6 9))
    = Ok ([1] ++ content ++ [6]) ∧
    (∀ k, k ∈ content → k ∈ [2] ∨ k ∈ [3; 4; 5]) ∧
    (NoDup [2] → (∀ k, k ∈ [2] → k ∉ [3; 4; 5]) →
     ∀ k, k ∈ [2] → (length (filter (fun x => x = k) content) ≤ 1)%nat) ∧
    (9 - 2 ≤ Py.len [2] → content = take (Z.to_nat (9 - 2)) [2]).
Proof.
  assert (H1 : 3 ≤ 6) by lia.
  assert (H2 : SlideRenderer.use_config 6
                 (Some (TemplateAnalyzer._get_default_strategy 6 9))
               = ([2], [3; 4; 5])) by (vm_compute; reflexivity).
  assert (H3 : Forall (fun k => 1 ≤ k ≤ 6) [2])
    by (apply (bool_decide_unpack _); vm_compute; exact I).
  assert (H4 : Forall (fun k => 1 ≤ k ≤ 6) [3; 4; 5])
    by (apply (bool_decide_unpack _); vm_compute; exact I).
  split; [exact H1|]. split; [exact H2|]. split; [exact H3|]. split; [exact H4|].
  exact (content_sources_from_plan 6 9
           (Some (TemplateAnalyzer._get_default_strategy 6 9)) [2] [3; 4; 5]
           H1 H2 H3 H4).
Defined.

(** ** The sanitizers *)

Lemma append_assoc (a b c : string) :
  String.append (String.append a b) c = String.append a (String.append b c).
Proof. induction a as [|x a IH]; simpl; [reflexivity | rewrite IH; reflexivity]. Qed.

Lemma contains_trans a b s :
  Py.contains a b = true → Py.contains b s = true → Py.contains a s = true.
Proof.
  rewrite !contains_spec. intros (p1 & q1 & ->) (p2 & q2 & ->).
  exists (String.append p2 p1), (String.append q1 q2).
  rewrite !append_assoc. reflexivity.
Qed.

(** A denylist marks what another marks when each entry of the second
    contains an entry of the first. *)
Lemma is_watermark_covered (wide narrow : list string) s :
  forallb (fun kw => existsb (fun kw' => Py.contains kw' kw) wide) narrow = true →
  Sanitize.is_watermark narrow s = true →
  Sanitize.is_watermark wide s = true.
Proof.
  intros Hcover. unfold Sanitize.is_watermark, Py.any.
  destruct (shape_text_frame s) as [tf|]; [|discriminate].
  rewrite !existsb_exists. intros (kw & Hkw & Hc).
  rewrite forallb_forall in Hcover. specialize (Hcover kw Hkw).
  apply existsb_exists in Hcover as (kw' & Hkw' & Hc').
  exists kw'. split; [assumption|]. eapply contains_trans; eassumption.
Qed.

Lemma is_watermark_same (ks1 ks2 : list string) s :
  forallb (fun kw => existsb (fun kw' => Py.contains kw' kw) ks2) ks1 = true →
  forallb (fun kw => existsb (fun kw' => Py.contains kw' kw) ks1) ks2 = true →
  Sanitize.is_watermark ks1 s = Sanitize.is_watermark ks2 s.
Proof.
  intros H12 H21.
  destruct (Sanitize.is_watermark ks1 s) eqn:H1, (Sanitize.is_watermark ks2 s) eqn:H2;
    try reflexivity.
  - rewrite (is_watermark_covered ks2 ks1 s H12 H1) in H2. discriminate.
  - rewrite (is_watermark_covered ks1 ks2 s H21 H2) in H1. discriminate.
Qed.

Lemma without_markers_unmarked keywords slide :
  Forall (fun s => Sanitize.is_watermark keywords s = false)
    (shapes (without_markers keywords slide)).
Proof.
  unfold without_markers. cbn [shapes]. apply Forall_forall.
  intros s Hs. apply list_elem_of_filter in Hs. apply Hs.
Qed.

Lemma without_markers_covered wide narrow slide :
  forallb (fun kw => existsb (fun kw' => Py.contains kw' kw) wide) narrow = true →
  without_markers narrow (without_markers wide slide) = without_markers wide slide.
Proof.
  intros Hcover. apply without_markers_id.
  eapply Forall_impl; [apply (without_markers_unmarked wide)|].
  intros s Hs. simpl in Hs.
  destruct (Sanitize.is_watermark narrow s) eqn:Hn; [|reflexivity].
  rewrite (is_watermark_covered wide narrow s Hcover Hn) in Hs. discriminate.
Qed.

Lemma covered_refl (ks : list string) :
  forallb (fun kw => existsb (fun kw' => Py.contains kw' kw) ks) ks = true.
Proof.
  apply forallb_forall. intros kw Hkw. apply existsb_exists.
  exists kw. split; [assumption|]. apply contains_spec.
  exists EmptyString, EmptyString. simpl.
  clear. induction kw as [|c kw IH]; simpl; congruence.
Qed.

(** X3. Cleaning is idempotent: a presentation cleaned by a sanitizer
    is left as it is by a second pass of the same sanitizer. And no
    slide of a presentation that [render_presentation] returns has a
    shape that carries a marker of the denylist of the replicator,
    whatever saving and reopening added to the slides. *)
Theorem sanitize_idempotent :
  (∀ presentation,
     SlideRenderer._remove_watermarks (SlideRenderer._remove_watermarks presentation)
     = SlideRenderer._remove_watermarks presentation) ∧
  (∀ presentation,
     WatermarkRemover.remove_watermarks
       (WatermarkRemover.remove_watermarks presentation)
     = WatermarkRemover.remove_watermarks presentation) ∧
  (∀ save_and_reopen template slides_content config prs,
     SlideRenderer.render_presentation save_and_reopen template slides_content
       config = Ok prs →
     ∀ slide s, slide ∈ slides prs → s ∈ shapes slide →
       Sanitize.is_watermark SlideRenderer.watermark_keywords s = false).
Proof.
  assert (Hidem : ∀ keywords (l : list Slide),
            without_markers keywords <$> (without_markers keywords <$> l)
            = without_markers keywords <$> l).
  { intros keywords l. rewrite <- list_fmap_compose. apply list_fmap_ext.
    intros _ slide _. simpl. apply without_markers_covered, covered_refl. }
  split; [|split].
  - intros presentation. unfold SlideRenderer._remove_watermarks.
    cbn [slides slide_width slide_height].
    rewrite !clean_slides_spec, Hidem. reflexivity.
  - intros presentation. unfold WatermarkRemover.remove_watermarks.
    cbn [slides slide_width slide_height].
    rewrite !clean_slides_spec, Hidem. reflexivity.
  - intros save_and_reopen template slides_content config prs Hrender slide s
      Hslide Hs.
    rewrite render_presentation_assemble in Hrender.
    destruct (SlideRenderer.assemble _ _ _) as [output|e]; [|discriminate].
    cbn [mbind result_bind] in Hrender. injection Hrender as <-.
    cbn [slides] in Hslide. apply list_elem_of_fmap in Hslide as (s0 & -> & _).
    unfold finished in Hs.
    pose proof (without_markers_unmarked SlideRenderer.watermark_keywords
                  (save_and_reopen s0)) as Hall.
    rewrite Forall_forall in Hall. apply Hall, Hs.
Qed.

Lemma sanitize_idempotent_witness :
  ∃ prs,
    SlideRenderer.render_presentation Sample.evaluation_stamp (Sample.template 6)
      (Sample.records 9) None = Ok prs ∧
    ∀ slide s, slide ∈ slides prs → s ∈ shapes slide →
      Sanitize.is_watermark SlideRenderer.watermark_keywords s = false.
Proof.
  destruct (SlideRenderer.render_presentation Sample.evaluation_stamp
              (Sample.template 6) (Sample.records 9) None) as [prs|e] eqn:H.
  - exists prs. split; [reflexivity|].
    exact (proj2 (proj2 sanitize_idempotent) Sample.evaluation_stamp
             (Sample.template 6) (Sample.records 9) None prs H).
  - vm_compute in H. discriminate.
Defined.

(** X4. Most entries of the two denylists are redundant: the sanitizer
    of the remover marks a shape exactly when its lower-cased text
    contains "evaluation" or "aspose", and the one of the replicator
    exactly when it contains one of these or "copyright" or
    "trial version". So what the remover marks the replicator marks,
    and the remover leaves a presentation cleaned by the replicator as
    it is; the converse fails, on a text box "Copyright 2024". *)
Theorem denylists_effective :
  (∀ s, Sanitize.is_watermark WatermarkRemover.watermark_keywords s
        = Sanitize.is_watermark ["evaluation"; "aspose"]%string s) ∧
  (∀ s, Sanitize.is_watermark SlideRenderer.watermark_keywords s
        = Sanitize.is_watermark
            ["copyright"; "evaluation"; "aspose"; "trial version"]%string s) ∧
  (∀ s, Sanitize.is_watermark WatermarkRemover.watermark_keywords s = true →
        Sanitize.is_watermark SlideRenderer.watermark_keywords s = true) ∧
  (∀ presentation,
     WatermarkRemover.remove_watermarks
       (SlideRenderer._remove_watermarks presentation)
     = SlideRenderer._remove_watermarks presentation) ∧
  Sanitize.is_watermark SlideRenderer.watermark_keywords
    (Sample.text_box "Copyright 2024") = true ∧
  Sanitize.is_watermark WatermarkRemover.watermark_keywords
    (Sample.text_box "Copyright 2024") = false.
Proof.
  assert (Hcover :
    forallb (fun kw => existsb (fun kw' => Py.contains kw' kw)
                         SlideRenderer.watermark_keywords)
      WatermarkRemover.watermark_keywords = true) by (vm_compute; reflexivity).
  split; [|split; [|split; [|split; [|split]]]].
  - intros s. apply is_watermark_same; vm_compute; reflexivity.
  - intros s. apply is_watermark_same; vm_compute; reflexivity.
  - intros s. apply is_watermark_covered, Hcover.
  - intros presentation.
    unfold WatermarkRemover.remove_watermarks, SlideRenderer._remove_watermarks.
    cbn [slides slide_width slide_height]. rewrite !clean_slides_spec.
    f_equal. rewrite <- list_fmap_compose. apply list_fmap_ext.
    intros _ slide _. simpl. apply without_markers_covered, Hcover.
  - vm_compute. reflexivity.
  - vm_compute. reflexivity.
Qed.

Lemma denylists_effective_witness :
  Sanitize.is_watermark WatermarkRemover.watermark_keywords
    (Sample.text_box "Evaluation Only - Created with ...") = true ∧
  Sanitize.is_watermark SlideRenderer.watermark_keywords
    (Sample.text_box "Evaluation Only - Created with ...") = true.
Proof.
  assert (H : Sanitize.is_watermark WatermarkRemover.watermark_keywords
                (Sample.text_box "Evaluation Only - Created with ...") = true)
    by (vm_compute; reflexivity).
  split; [exact H|].
  exact (proj1 (proj2 (proj2 denylists_effective))
           (Sample.text_box "Evaluation Only - Created with ...") H).
Defined.

Lemma length_filter_marked keywords (l : list Shape) :
  (length (filter (fun s => Sanitize.is_watermark keywords s = true) l)
   + length (filter (fun s => Sanitize.is_watermark keywords s = false) l)
   = length l)%nat.
Proof.
  induction l as [|s l IH]; [reflexivity|]. rewrite !filter_cons.
  destruct (Sanitize.is_watermark keywords s).
  - rewrite decide_True, decide_False by congruence. simpl. lia.
  - rewrite decide_False, decide_True by congruence. simpl. lia.
Qed.

Lemma filter_same_length {A} (P : A → Prop) `{∀ x, Decision (P x)} (l : list A) :
  length (filter P l) = length l → filter P l = l.
Proof.
  induction l as [|x l IH]; [reflexivity|]. rewrite filter_cons.
  destruct (decide (P x)); simpl; intros Hlen.
  - f_equal. apply IH. lia.
  - pose proof (length_filter P l). lia.
Qed.

Lemma shape_count_cons slide (l : list Slide) :
  shape_count (slide :: l) = Py.len (shapes slide) + shape_count l.
Proof. reflexivity. Qed.

Lemma shape_count_cleaned keywords (l : list Slide) :
  shape_count (without_markers keywords <$> l) ≤ shape_count l ∧
  (shape_count (without_markers keywords <$> l) = shape_count l →
   without_markers keywords <$> l = l).
Proof.
  induction l as [|slide l [IHle IHeq]]; [split; [reflexivity | reflexivity]|].
  rewrite fmap_cons, !shape_count_cons.
  pose proof (length_filter
    (fun s => Sanitize.is_watermark keywords s = false) (shapes slide)) as Hle.
  assert (Hshapes : Py.len (shapes (without_markers keywords slide))
                    = Z.of_nat (length (filter
                        (fun s => Sanitize.is_watermark keywords s = false)
                        (shapes slide)))) by reflexivity.
  rewrite Hshapes. unfold Py.len at 1 2.
  split; [lia|]. intros Heq. f_equal.
  - destruct slide as [l0 nt]. unfold without_markers. cbn [shapes notes] in *.
    f_equal. apply filter_same_length. lia.
  - apply IHeq. lia.
Qed.

Lemma snd_clean_slides keywords (l : list Slide) n :
  snd (Sanitize.clean_slides keywords l n)
  = n + (shape_count l - shape_count (without_markers keywords <$> l)).
Proof.
  revert n. induction l as [|slide l IH]; intros n.
  - unfold shape_count. simpl. lia.
  - cbn [Sanitize.clean_slides]. rewrite clean_slide_spec.
    specialize (IH (n + Py.len (filter
                     (fun s => Sanitize.is_watermark keywords s = true)
                     (shapes slide)))).
    destruct (Sanitize.clean_slides keywords l _) as [rest total].
    cbn [snd] in *. subst total. rewrite fmap_cons, !shape_count_cons.
    assert (Hshapes : Py.len (shapes (without_markers keywords slide))
                      = Z.of_nat (length (filter
                          (fun s => Sanitize.is_watermark keywords s = false)
                          (shapes slide)))) by reflexivity.
    rewrite Hshapes.
    pose proof (length_filter_marked keywords (shapes slide)).
    unfold Py.len in *. lia.
Qed.

(** X5. The counter of the remover, which decides between the log lines
    "Removed n watermark shapes" and "No watermarks found", is the
    number of shapes the presentation has lost; it is never negative,
    and it is 0 exactly when the presentation is returned unchanged. *)
Theorem total_removed_counts presentation :
  WatermarkRemover.total_removed presentation
  = shape_count (slides presentation)
    - shape_count (slides (WatermarkRemover.remove_watermarks presentation)) ∧
  0 ≤ WatermarkRemover.total_removed presentation ∧
  (WatermarkRemover.total_removed presentation = 0 ↔
   WatermarkRemover.remove_watermarks presentation = presentation).
Proof.
  unfold WatermarkRemover.total_removed, WatermarkRemover.remove_watermarks.
  cbn [slides]. rewrite snd_clean_slides, clean_slides_spec.
  destruct (shape_count_cleaned WatermarkRemover.watermark_keywords
              (slides presentation)) as [Hle Heq].
  split; [lia|]. split; [lia|]. split.
  - intros H0. destruct presentation as [w h l]. cbn [slides slide_width
      slide_height] in *. f_equal. apply Heq. lia.
  - intros Hsame. destruct presentation as [w h l]. cbn [slides slide_width
      slide_height] in *. injection Hsame as Hsame. rewrite Hsame. lia.
Qed.

(** ** The assembly as the cloning of the chosen sources *)

Section Cloning.
Context {ISlide : Type}.
Variable template : list ISlide.

Local Abbreviation clone := (fun k : Z => Py.index template (k - 1)).

Lemma mapM_result_app {A B} (f : A → result B) (l1 l2 : list A) :
  mapM f (l1 ++ l2) = xs ← mapM f l1; ys ← mapM f l2; Ok (xs ++ ys).
Proof.
  induction l1 as [|a l1 IH].
  - cbn [app mapM mbind result_bind mret result_ret].
    destruct (mapM f l2); reflexivity.
  - cbn [app mapM]. destruct (f a) as [b|e]; [|reflexivity].
    cbn [mbind result_bind]. rewrite IH.
    destruct (mapM f l1) as [xs|e]; [|reflexivity]. cbn [mbind result_bind].
    destruct (mapM f l2) as [ys|e]; reflexivity.
Qed.

Lemma add_unique_slides_mapM needed unique output added :
  SlideRenderer.add_unique_slides template needed unique output added
  = clones ← mapM clone (take (Z.to_nat (needed - added)) unique);
    Ok (output ++ clones, added + Py.len clones).
Proof.
  revert output added. induction unique as [|k unique IH]; intros output added.
  - rewrite take_nil. cbn [SlideRenderer.add_unique_slides mapM mbind result_bind
      mret result_ret]. rewrite app_nil_r. unfold Py.len. simpl.
    rewrite Z.add_0_r. reflexivity.
  - cbn [SlideRenderer.add_unique_slides].
    destruct (Z.ltb_spec added needed) as [Hlt | Hge].
    + replace (Z.to_nat (needed - added)) with (S (Z.to_nat (needed - (added + 1))))
        by lia.
      cbn [take mapM]. destruct (Py.index template (k - 1)) as [s|e]; [|reflexivity].
      cbn [mbind result_bind]. rewrite IH.
      destruct (mapM _ _) as [clones|e]; [|reflexivity].
      cbn [mbind result_bind mret result_ret]. rewrite <- app_assoc.
      unfold Py.len. cbn [length app]. do 2 f_equal. lia.
    + rewrite IH. replace (Z.to_nat (needed - added)) with 0%nat by lia.
      rewrite take_0. reflexivity.
Qed.

Lemma add_duplicate_slides_mapM duplicate indices output :
  duplicate ≠ [] →
  Forall (fun i => 0 ≤ i) indices →
  SlideRenderer.add_duplicate_slides template duplicate indices output
  = clones ← mapM clone (omap (round_robin_pick duplicate) indices);
    Ok (output ++ clones).
Proof.
  intros Hne Hidx. revert output.
  induction Hidx as [|i indices Hi Hidx IH]; intros output.
  - cbn [SlideRenderer.add_duplicate_slides omap list_omap mapM mbind result_bind
      mret result_ret]. rewrite app_nil_r. reflexivity.
  - cbn [SlideRenderer.add_duplicate_slides omap list_omap].
    assert (Hlen : 0 < Py.len duplicate).
    { unfold Py.len. destruct duplicate; [congruence | simpl; lia]. }
    pose proof (Z.mod_pos_bound i _ Hlen) as Hmod.
    destruct (round_robin_pick_Some duplicate i Hne Hi) as [k Hk].
    rewrite Hk. unfold round_robin_pick in Hk.
    assert (Hidx_k : Py.index duplicate (i mod Py.len duplicate) = Ok k).
    { apply index_lookup; [lia | exact Hk]. }
    rewrite Hidx_k. cbn [mbind result_bind mapM].
    destruct (Py.index template (k - 1)) as [s|e]; [|reflexivity].
    cbn [mbind result_bind]. rewrite IH.
    destruct (mapM _ _) as [clones|e]; [|reflexivity].
    cbn [mbind result_bind mret result_ret]. rewrite <- app_assoc. reflexivity.
Qed.

Lemma mapM_result_length {A B} (f : A → result B) (l : list A) ys :
  mapM f l = Ok ys → length ys = length l.
Proof.
  revert ys. induction l as [|a l IH]; intros ys H.
  - cbn in H. injection H as <-. reflexivity.
  - cbn [mapM] in H. destruct (f a) as [b|e]; [|discriminate].
    cbn [mbind result_bind] in H. destruct (mapM f l) as [xs|e]; [|discriminate].
    cbn [mbind result_bind mret result_ret] in H. injection H as <-.
    simpl. rewrite (IH xs); reflexivity.
Qed.

Lemma assemble_mapM required config unique duplicate :
  3 ≤ Py.len template →
  SlideRenderer.use_config (Py.len template) config = (unique, duplicate) →
  SlideRenderer.assemble template required config
  = mapM clone (chosen_sources (Py.len template) required unique duplicate).
Proof.
  intros Hlen Hcfg. unfold SlideRenderer.assemble.
  fails (Py.len template <? 3).
  rewrite Hcfg, remove_all_but_cover_take by lia.
  destruct template as [|cover rest] eqn:Ht;
    [unfold Py.len in Hlen; simpl in Hlen; lia|].
  rewrite <- Ht in *. replace (take 1 template) with [cover] by (subst; reflexivity).
  assert (Hclosing : in_template template (Py.len template))
    by (unfold in_template; lia).
  destruct (index_in_template _ _ Hclosing) as (closing & Hidx & _).
  assert (Hcover : Py.index template (1 - 1) = Ok cover).
  { destruct (index_in_template template 1) as (s & Hs & [_ Hc]);
      [unfold in_template; lia|].
    rewrite Hs. rewrite Ht in Hc. simpl in Hc. congruence. }
  unfold chosen_sources. rewrite !mapM_result_app.
  cbn [mapM]. rewrite Hcover, Hidx. cbn [mbind result_bind mret result_ret].
  rewrite add_unique_slides_mapM, Z.sub_0_r.
  destruct (mapM _ (take _ unique)) as [once|e] eqn:Honce; [|reflexivity].
  cbn [mbind result_bind]. rewrite Z.add_0_l.
  apply mapM_result_length in Honce.
  replace (Py.len (take (Z.to_nat (required - 2)) unique)) with (Py.len once)
    by (unfold Py.len; congruence).
  set (remaining := required - 2 - Py.len once).
  destruct ((0 <? remaining) && Py.truthy duplicate) eqn:Hcond.
  - apply andb_prop in Hcond as [Hpos Hne].
    assert (duplicate ≠ []) by (destruct duplicate; [discriminate | congruence]).
    rewrite add_duplicate_slides_mapM by (try assumption; apply range_nonneg; lia).
    fold (round_robin duplicate remaining).
    destruct (mapM _ (round_robin duplicate remaining)) as [more|e]; [|reflexivity].
    cbn [mbind result_bind]. rewrite <- !app_assoc. reflexivity.
  - assert (Hrr : round_robin duplicate remaining = []).
    { apply andb_false_iff in Hcond as [Hpos | Hnil].
      - apply round_robin_nonpos. apply Z.ltb_ge in Hpos. lia.
      - destruct duplicate; [apply round_robin_nil | discriminate]. }
    rewrite Hrr. cbn [mapM mbind result_bind mret result_ret].
    rewrite <- !app_assoc. reflexivity.
Qed.

Lemma index_outside k :
  ¬ cloneable template k → Py.index template (k - 1) = Raise IndexError.
Proof.
  intros Hout. unfold Py.index. cbv zeta.
  destruct ((0 <=? _) && (_ <? Py.len template)) eqn:Hin; [|reflexivity].
  apply andb_prop in Hin as [H1 H2]. exfalso. apply Hout. unfold cloneable.
  destruct (Z.ltb_spec (k - 1) 0); lia.
Qed.

Lemma index_inside k :
  cloneable template k → ∃ s, Py.index template (k - 1) = Ok s.
Proof.
  unfold cloneable. intros Hk. unfold Py.index. cbv zeta.
  set (j := if k - 1 <? 0 then Py.len template + (k - 1) else k - 1).
  assert (Hj : 0 ≤ j < Py.len template)
    by (subst j; destruct (Z.ltb_spec (k - 1) 0); lia).
  holds (0 <=? j). holds (j <? Py.len template). cbn [andb].
  destruct (lookup_lt_is_Some_2 template (Z.to_nat j)) as [s Hs];
    [unfold Py.len in Hj; lia|].
  rewrite Hs. eauto.
Qed.

(** A slide number from [1 - N] to 0 stands for the slide that many
    places before the last one: 0 for the closing slide. *)
Lemma index_from_end k :
  1 - Py.len template ≤ k ≤ 0 →
  Py.index template (k - 1) = Py.index template (Py.len template + k - 1).
Proof.
  intros Hk. unfold Py.index. cbv zeta.
  holds (k - 1 <? 0). fails (Py.len template + k - 1 <? 0).
  replace (Py.len template + (k - 1)) with (Py.len template + k - 1) by lia.
  reflexivity.
Qed.

Lemma index_raises (i : Z) e : Py.index template i = Raise e → e = IndexError.
Proof.
  unfold Py.index. cbv zeta.
  destruct ((0 <=? _) && (_ <? Py.len template));
    [destruct (template !! _)|]; congruence.
Qed.

Lemma mapM_clone_raise (l : list Z) k :
  k ∈ l → ¬ cloneable template k → mapM clone l = Raise IndexError.
Proof.
  intros Hk Hout. induction l as [|a l IH]; [inversion Hk|].
  cbn [mapM]. apply elem_of_cons in Hk as [<- | Hk].
  - rewrite (index_outside k Hout). reflexivity.
  - rewrite (IH Hk).
    destruct (Py.index template (a - 1)) as [s|e] eqn:Ha; [reflexivity|].
    apply index_raises in Ha. subst e. reflexivity.
Qed.

End Cloning.

(** X6. For a template of at least 3 slides, whatever the plan, the
    replicator clones, in their order, the slides the plan chooses: the
    cover, the unique slides as far as content is needed, the
    duplicates in round-robin order, and the closing slide; the slides
    of the plan that are not reached are never looked up. A slide
    number [k] is looked up at the index [k - 1] of the slide
    collection of the cloning library, where a negative index counts
    from the end: a number from 1 to N is that slide of the template,
    a number from [1 - N] to 0 is the slide that many places before the
    last one (0 is the closing slide). The replicator fails, with an
    index error, exactly when one of the chosen numbers lies outside
    [1 - N, N]. *)
Theorem render_presentation_clones save_and_reopen template slides_content
    config unique duplicate :
  3 ≤ Py.len (slides template) →
  SlideRenderer.use_config (Py.len (slides template)) config = (unique, duplicate) →
  let sources :=
    chosen_sources (Py.len (slides template)) (Py.len slides_content)
      unique duplicate in
  SlideRenderer.render_presentation save_and_reopen template slides_content config
  = (output ← mapM (fun k => Py.index (slides template) (k - 1)) sources;
     Ok (mkPresentation (slide_width template) (slide_height template)
           (finished save_and_reopen <$> output))) ∧
  ((∃ k, k ∈ sources ∧ ¬ cloneable (slides template) k) ↔
   SlideRenderer.render_presentation save_and_reopen template slides_content config
   = Raise IndexError) ∧
  (∀ k, in_template (slides template) k →
        ∃ s, Py.index (slides template) (k - 1) = Ok s ∧
             clone_of (slides template) k s) ∧
  (∀ k, 1 - Py.len (slides template) ≤ k ≤ 0 →
        Py.index (slides template) (k - 1)
        = Py.index (slides template) (Py.len (slides template) + k - 1)).
Proof.
  intros Hlen Hcfg sources.
  rewrite render_presentation_assemble.
  rewrite (assemble_mapM (slides template) (Py.len slides_content) config
             unique duplicate Hlen Hcfg).
  fold sources. split; [reflexivity|]. split; [split|split].
  - intros (k & Hk & Hout).
    rewrite (mapM_clone_raise (slides template) sources k Hk Hout). reflexivity.
  - intros Hraise.
    destruct (decide (Forall (cloneable (slides template)) sources)) as [Hall | Hnot].
    + exfalso.
      destruct (mapM_ok (fun k => Py.index (slides template) (k - 1))
                  (fun _ => True) sources) as (ys & Hys & _).
      { eapply Forall_impl; [exact Hall|]. intros k Hk. simpl.
        destruct (index_inside _ _ Hk) as (s & Hs). eauto. }
      rewrite Hys in Hraise. discriminate.
    + apply not_Forall_Exists in Hnot; [|apply _].
      apply Exists_exists in Hnot as (k & Hk & Hout). eauto.
  - intros k Hk. apply index_in_template, Hk.
  - intros k Hk. apply index_from_end, Hk.
Qed.

Lemma render_presentation_clones_witness :
  3 ≤ Py.len (slides (Sample.template 6)) ∧
  SlideRenderer.use_config (Py.len (slides (Sample.template 6)))
    (Some (mkConfig None (Some [9]) None None))
  = ([9], [2; 3; 4; 5]) ∧
  SlideRenderer.render_presentation Sample.evaluation_stamp (Sample.template 6)
    (Sample.records 9) (Some (mkConfig None (Some [9]) None None))
  = Raise IndexError.
Proof.
  assert (H1 : 3 ≤ Py.len (slides (Sample.template 6))) by (vm_compute; discriminate).
  assert (H2 : SlideRenderer.use_config (Py.len (slides (Sample.template 6)))
                 (Some (mkConfig None (Some [9]) None None))
               = ([9], [2; 3; 4; 5])) by (vm_compute; reflexivity).
  split; [exact H1|]. split; [exact H2|].
  apply (proj1 (proj2 (render_presentation_clones Sample.evaluation_stamp
                         (Sample.template 6) (Sample.records 9)
                         (Some (mkConfig None (Some [9]) None None)) [9]
                         [2; 3; 4; 5] H1 H2))).
  exists 9. split; [|vm_compute; intros [_ H]; apply H; reflexivity].
  apply (bool_decide_unpack _). vm_compute. exact I.
Defined.

(** Slide number 0 is the closing slide: on a 6-slide template the plan
    with the unique slide 0 gives the sources 1, 6, 2, 3, 6. *)
Example slide_number_zero :
  SlideRenderer.source_sequence 6 5 (Some (mkConfig None (Some [0]) None None))
  = Ok [1; 6; 2; 3; 6].
Proof. vm_compute. reflexivity. Qed.

(** ** The planner *)

Lemma elem_of_insert_sorted k x (l : list Z) :
  k ∈ Py.insert_sorted x l ↔ k = x ∨ k ∈ l.
Proof.
  induction l as [|y l IH]; cbn [Py.insert_sorted].
  - rewrite list_elem_of_singleton, elem_of_nil. tauto.
  - destruct (Z.ltb_spec x y); [rewrite elem_of_cons; tauto|].
    destruct (Z.eqb_spec x y) as [-> | Hne]; [rewrite elem_of_cons; tauto|].
    rewrite !elem_of_cons, IH. tauto.
Qed.

Lemma insert_sorted_ascending x (l : list Z) :
  StronglySorted Z.lt l → StronglySorted Z.lt (Py.insert_sorted x l).
Proof.
  induction 1 as [|y l Hl IH Hy]; cbn [Py.insert_sorted].
  - repeat constructor.
  - destruct (Z.ltb_spec x y) as [Hlt | Hge].
    + constructor; [constructor; assumption|].
      constructor; [assumption|].
      eapply Forall_impl; [exact Hy|]. intros z Hz. simpl in *. lia.
    + destruct (Z.eqb_spec x y) as [-> | Hne]; [constructor; assumption|].
      constructor; [assumption|].
      apply Forall_forall. intros z Hz. apply elem_of_insert_sorted in Hz as [-> | Hz].
      * lia.
      * rewrite Forall_forall in Hy. apply Hy, Hz.
Qed.

Lemma sorted_set_ascending (l : list Z) : StronglySorted Z.lt (Py.sorted_set l).
Proof.
  unfold Py.sorted_set. induction l as [|x l IH]; [constructor|].
  cbn [foldr]. apply insert_sorted_ascending, IH.
Qed.

Lemma range_ascending a b : StronglySorted Z.lt (Py.range a b).
Proof.
  unfold Py.range. destruct (Z.le_gt_cases (b - a) 0) as [Hle | Hgt].
  - rewrite seqZ_nil by lia. constructor.
  - remember (Z.to_nat (b - a)) as m eqn:Hm.
    replace (b - a) with (Z.of_nat m) by lia. clear. revert a.
    induction m as [|m IH]; intros a; [constructor|].
    rewrite seqZ_cons by lia. constructor.
    + replace (Z.pred (Z.of_nat (S m))) with (Z.of_nat m) by lia. apply IH.
    + apply Forall_forall. intros z Hz. apply elem_of_seqZ in Hz. lia.
Qed.

Lemma filter_ascending (P : Z → Prop) `{∀ x, Decision (P x)} (l : list Z) :
  StronglySorted Z.lt l → StronglySorted Z.lt (filter P l).
Proof.
  induction 1 as [|y l Hl IH Hy]; [constructor|].
  rewrite filter_cons. destruct (decide (P y)); [|exact IH].
  constructor; [exact IH|].
  apply Forall_forall. intros z Hz. apply list_elem_of_filter in Hz as [_ Hz].
  rewrite Forall_forall in Hy. apply Hy, Hz.
Qed.

Lemma duplicates_ascending n (unique : list Z) :
  let candidates := filter (fun s => s ∉ unique) (Py.range 2 n) in
  StronglySorted Z.lt (if Py.truthy candidates then candidates else Py.range 2 n).
Proof.
  intros candidates. destruct (Py.truthy candidates).
  - apply filter_ascending, range_ascending.
  - apply range_ascending.
Qed.

Lemma ascending_NoDup (l : list Z) : StronglySorted Z.lt l → NoDup l.
Proof.
  induction 1 as [|y l Hl IH Hy]; constructor; [|exact IH].
  intros Hin. rewrite Forall_forall in Hy. specialize (Hy y Hin). lia.
Qed.

(** X7. The slide numbers extracted from an instruction text come out
    in strictly ascending order, each once, whatever the order and the
    number of their mentions in the text. Both lists of every plan made
    by the default heuristic or by extraction are strictly ascending,
    so neither repeats a slide number. *)
Theorem plan_lists_ascending :
  (∀ text,
     StronglySorted Z.lt (TemplateAnalyzer._extract_slide_numbers text) ∧
     NoDup (TemplateAnalyzer._extract_slide_numbers text)) ∧
  (∀ n required,
     let plan := TemplateAnalyzer._get_default_strategy n required in
     StronglySorted Z.lt (get (unique_slides plan) []) ∧
     StronglySorted Z.lt (get (duplicate_slides plan) [])) ∧
  (∀ model n c text required,
     TemplateAnalyzer._extract_slide_numbers (String c text) ≠ [] →
     let plan :=
       TemplateAnalyzer.analyze_template_instructions (Some model) n
         (Some (String c text)) required in
     StronglySorted Z.lt (get (unique_slides plan) []) ∧
     StronglySorted Z.lt (get (duplicate_slides plan) []) ∧
     NoDup (get (unique_slides plan) []) ∧
     NoDup (get (duplicate_slides plan) [])).
Proof.
  assert (Hextract : ∀ text,
            StronglySorted Z.lt (TemplateAnalyzer._extract_slide_numbers text)).
  { intros text. unfold TemplateAnalyzer._extract_slide_numbers.
    apply sorted_set_ascending. }
  split; [|split].
  - intros text. split; [apply Hextract | apply ascending_NoDup, Hextract].
  - intros n required plan. subst plan.
    unfold TemplateAnalyzer._get_default_strategy.
    cbn [unique_slides duplicate_slides get]. split.
    + destruct (2 <=? n); repeat constructor.
    + apply duplicates_ascending.
  - intros model n c text required Hfound plan. subst plan.
    unfold TemplateAnalyzer.analyze_template_instructions.
    pose proof (Hextract (String c text)) as Hsorted.
    destruct (TemplateAnalyzer._extract_slide_numbers (String c text))
      as [|k ks] eqn:E; [congruence|].
    cbn [Py.truthy unique_slides duplicate_slides get].
    pose proof (duplicates_ascending n (k :: ks)) as Hdup. cbv zeta in Hdup.
    exact (conj Hsorted (conj Hdup (conj (ascending_NoDup _ Hsorted)
                                         (ascending_NoDup _ Hdup)))).
Qed.

Lemma plan_lists_ascending_witness :
  TemplateAnalyzer._extract_slide_numbers "Slide 5 and slide 2 are unique" ≠ [] ∧
  let plan :=
    TemplateAnalyzer.analyze_template_instructions (Some Sample.empty_answer) 6
      (Some "Slide 5 and slide 2 are unique"%string) 9 in
  StronglySorted Z.lt (get (unique_slides plan) []) ∧
  StronglySorted Z.lt (get (duplicate_slides plan) []) ∧
  NoDup (get (unique_slides plan) []) ∧
  NoDup (get (duplicate_slides plan) []).
Proof.
  assert (H : TemplateAnalyzer._extract_slide_numbers
                "Slide 5 and slide 2 are unique" ≠ [])
    by (vm_compute; discriminate).
  split; [exact H|].
  exact (proj2 (proj2 plan_lists_ascending) Sample.empty_answer 6 "S"%char
           "lide 5 and slide 2 are unique"%string 9 H).
Defined.

(** X8. The language model of the analyzer is a fallback only: when the
    patterns find a slide number in the instructions, the plan is the
    same whatever the model answers. And every plan the analyzer
    returns, by whatever path, names both of its lists and the size of
    the template, so that the replicator takes its lists from the plan
    and never its own default. *)
Theorem analyzer_plan_complete :
  (∀ model model' n c text required,
     TemplateAnalyzer._extract_slide_numbers (String c text) ≠ [] →
     TemplateAnalyzer.analyze_template_instructions (Some model) n
       (Some (String c text)) required
     = TemplateAnalyzer.analyze_template_instructions (Some model') n
         (Some (String c text)) required) ∧
  (∀ model n instructions required,
     let plan :=
       TemplateAnalyzer.analyze_template_instructions model n instructions
         required in
     ∃ unique duplicate,
       unique_slides plan = Some unique ∧
       duplicate_slides plan = Some duplicate ∧
       num_template_slides plan = Some n ∧
       config_truthy (Some plan) = true ∧
       ∀ m, SlideRenderer.use_config m (Some plan) = (unique, duplicate)).
Proof.
  split.
  - intros model model' n c text required Hfound.
    unfold TemplateAnalyzer.analyze_template_instructions.
    destruct (TemplateAnalyzer._extract_slide_numbers (String c text));
      [congruence | reflexivity].
  - intros model n instructions required plan.
    assert (Hdefault : ∀ n required,
              let plan := TemplateAnalyzer._get_default_strategy n required in
              ∃ unique duplicate,
                unique_slides plan = Some unique ∧
                duplicate_slides plan = Some duplicate ∧
                num_template_slides plan = Some n ∧
                config_truthy (Some plan) = true ∧
                ∀ m, SlideRenderer.use_config m (Some plan) = (unique, duplicate)).
    { intros n' required' plan'. subst plan'.
      unfold TemplateAnalyzer._get_default_strategy.
      eexists _, _. repeat split. }
    subst plan. unfold TemplateAnalyzer.analyze_template_instructions.
    destruct model as [model|]; [|apply Hdefault].
    destruct instructions as [[|c text]|]; [apply Hdefault | | apply Hdefault].
    destruct (Py.truthy _).
    + eexists _, _. repeat split.
    + unfold TemplateAnalyzer._analyze_with_llm.
      destruct (model n (String c text) required) as [[[u d] s]|]; [|apply Hdefault].
      eexists _, _. repeat split.
Qed.

Lemma analyzer_plan_complete_witness :
  TemplateAnalyzer._extract_slide_numbers "Slide 5 and slide 2 are unique" ≠ [] ∧
  TemplateAnalyzer.analyze_template_instructions (Some Sample.empty_answer) 6
    (Some "Slide 5 and slide 2 are unique"%string) 9
  = TemplateAnalyzer.analyze_template_instructions (Some Sample.no_model) 6
      (Some "Slide 5 and slide 2 are unique"%string) 9.
Proof.
  assert (H : TemplateAnalyzer._extract_slide_numbers
                "Slide 5 and slide 2 are unique" ≠ [])
    by (vm_compute; discriminate).
  split; [exact H|].
  exact (proj1 analyzer_plan_complete Sample.empty_answer Sample.no_model 6
           "S"%char "lide 5 and slide 2 are unique"%string 9 H).
Defined.

(** ** The content generator *)

Lemma range_cons a b : a < b → Py.range a b = a :: Py.range (a + 1) b.
Proof.
  intros H. unfold Py.range. rewrite seqZ_cons by lia.
  f_equal. f_equal; lia.
Qed.

Lemma range_snoc a b : a ≤ b → Py.range a (b + 1) = Py.range a b ++ [b].
Proof.
  intros H. unfold Py.range.
  replace (b + 1 - a) with ((b - a) + 1) by lia.
  rewrite seqZ_app by lia. f_equal.
  replace (a + (b - a)) with b by lia. reflexivity.
Qed.

Lemma slice_to_all {A} (n : Z) (l : list A) :
  0 ≤ n → Py.len l ≤ n → ContentGenerator.slice_to n l = l.
Proof.
  intros Hn Hlen. unfold ContentGenerator.slice_to.
  holds (0 <=? n). apply take_ge. unfold Py.len in Hlen. lia.
Qed.

Lemma length_slice_to {A} (n : Z) (l : list A) :
  0 ≤ n → Py.len (ContentGenerator.slice_to n l) = Z.min n (Py.len l).
Proof.
  intros Hn. unfold ContentGenerator.slice_to.
  holds (0 <=? n). unfold Py.len. rewrite length_take. lia.
Qed.

Lemma length_read_slides slides_data slides :
  length (ContentGenerator.read_slides slides_data slides)
  = (length slides + length slides_data)%nat.
Proof.
  revert slides. induction slides_data as [|d rest IH]; intros slides; simpl.
  - lia.
  - rewrite IH, length_app. simpl. lia.
Qed.

Lemma fill_missing_spec fuel topic num_slides slides :
  (Z.to_nat (num_slides - Py.len slides) < fuel)%nat →
  ContentGenerator.fill_missing fuel topic num_slides slides
  = slides ++ (ContentGenerator.additional_insights topic
                 <$> Py.range (Py.len slides + 1) (num_slides + 1)).
Proof.
  revert slides. induction fuel as [|fuel IH]; intros slides Hfuel; [lia|].
  cbn [ContentGenerator.fill_missing].
  destruct (Z.ltb_spec (Py.len slides) num_slides) as [Hlt | Hge].
  - rewrite IH by (unfold Py.len in *; rewrite length_app; simpl; lia).
    rewrite (range_cons (Py.len slides + 1)) by lia.
    rewrite fmap_cons, <- app_assoc. cbn [app].
    replace (Py.len (slides ++ [ContentGenerator.additional_insights topic
                                  (Py.len slides + 1)]))
      with (Py.len slides + 1)
      by (unfold Py.len; rewrite length_app; simpl; lia).
    reflexivity.
  - unfold Py.range. rewrite seqZ_nil by lia. rewrite app_nil_r. reflexivity.
Qed.

Lemma fallback_numbers topic start_idx (l : list Z) :
  slide_number <$> (ContentGenerator.content_slide topic start_idx <$> l) = l.
Proof.
  rewrite <- list_fmap_compose. rewrite <- (list_fmap_id l) at 2.
  apply list_fmap_ext. reflexivity.
Qed.

Lemma lookup_later {A} (x : A) (l : list A) (i : nat) :
  (x :: l) !! S i = l !! i.
Proof. reflexivity. Qed.

Lemma length_fallback_content topic num_slides template_config :
  3 ≤ num_slides →
  Py.len (ContentGenerator._generate_fallback_content topic num_slides
            template_config) = num_slides.
Proof.
  intros Hn. unfold ContentGenerator._generate_fallback_content.
  destruct (bool_decide _);
    unfold Py.len; rewrite !length_app, length_fmap; cbn [length];
    unfold Py.range; rewrite length_seqZ; lia.
Qed.

(** X9. The content made without the language model, for 3 slides or
    more: as many records as slides asked for, numbered 1, 2, ... in
    their order; the first is the cover, with the topic as its title
    and no image; the last is the closing record "Thank You", with no
    image; every record between them, but the table of contents, has 6
    bullet points and an image prompt. The second record is the table
    of contents, of at most 8 entries, exactly when the plan lists
    slide 2 as unique. *)
Theorem fallback_content topic num_slides template_config :
  3 ≤ num_slides →
  let slides :=
    ContentGenerator._generate_fallback_content topic num_slides template_config in
  let unique := fst (SlideRenderer.use_config num_slides template_config) in
  Py.len slides = num_slides ∧
  slide_number <$> slides = Py.range 1 (num_slides + 1) ∧
  (∃ cover, head slides = Some cover ∧ title cover = topic ∧
            image_concept cover = None) ∧
  (∃ closing, last slides = Some closing ∧ title closing = "Thank You"%string ∧
              image_concept closing = None) ∧
  (∀ j record, slides !! j = Some record → (0 < j < length slides - 1)%nat →
     title record = "Table of Contents"%string ∨
     (Py.len (bullet_points record) = 6 ∧ image_concept record ≠ None)) ∧
  (∀ record, slides !! 1%nat = Some record →
     (title record = "Table of Contents"%string ↔ 2 ∈ unique) ∧
     (title record = "Table of Contents"%string →
      Py.len (bullet_points record) ≤ 8)).
Proof.
  intros Hn slides unique. subst slides unique.
  unfold ContentGenerator._generate_fallback_content.
  assert (Hunique :
    match template_config with
    | Some c => if config_truthy template_config then get (unique_slides c) [] else []
    | None => []
    end = fst (SlideRenderer.use_config num_slides template_config)).
  { unfold SlideRenderer.use_config. destruct template_config as [c|]; [|reflexivity].
    destruct (config_truthy (Some c)); reflexivity. }
  rewrite Hunique.
  set (unique := fst (SlideRenderer.use_config num_slides template_config)).
  assert (Hcontent : ∀ start_idx j record,
            (ContentGenerator.content_slide topic start_idx
               <$> Py.range start_idx num_slides) !! j = Some record →
            Py.len (bullet_points record) = 6 ∧ image_concept record ≠ None ∧
            title record ≠ "Table of Contents"%string).
  { intros start_idx j record Hj. apply list_lookup_fmap_Some in Hj as (i & -> & Hi).
    unfold ContentGenerator.content_slide.
    cbn [bullet_points image_concept title].
    split; [reflexivity|]. split; [discriminate|].
    unfold ContentGenerator.cycle.
    assert (Hlt : (Z.to_nat ((i - start_idx) mod Py.len ContentGenerator.title_variations)
                   < 10)%nat).
    { change (Py.len ContentGenerator.title_variations) with 10.
      pose proof (Z.mod_pos_bound (i - start_idx) 10). lia. }
    revert Hlt.
    generalize (Z.to_nat ((i - start_idx) mod Py.len ContentGenerator.title_variations)).
    intros m Hm. do 10 (destruct m as [|m]; [vm_compute; discriminate|]). lia. }
  destruct (bool_decide (2 ∈ unique)) eqn:Htoc.
  - apply bool_decide_eq_true in Htoc.
    split; [|split; [|split; [|split; [|split]]]].
    + pose proof (length_fallback_content topic num_slides template_config Hn)
        as Hlen.
      unfold ContentGenerator._generate_fallback_content in Hlen.
      rewrite Hunique in Hlen. fold unique in Hlen.
      rewrite (bool_decide_eq_true_2 _ Htoc) in Hlen. exact Hlen.
    + rewrite !fmap_app, fallback_numbers. cbn [fmap list_fmap slide_number app].
      rewrite (range_cons 1), (range_cons (1 + 1)) by lia.
      replace (1 + 1 + 1) with 3 by lia.
      rewrite (range_snoc 3) by lia. reflexivity.
    + eexists. split; [reflexivity|]. split; reflexivity.
    + eexists. split; [rewrite last_snoc; reflexivity|]. split; reflexivity.
    + intros j record Hj Hrange. rewrite !length_app, length_fmap in Hrange.
      unfold Py.range in Hrange. rewrite length_seqZ in Hrange.
      cbn [length] in Hrange. rewrite <- !app_assoc in Hj. cbn [app] in Hj.
      destruct j as [|[|j]]; [lia | left; cbn in Hj; injection Hj as <-; reflexivity |].
      right. rewrite !lookup_later in Hj.
      rewrite lookup_app_l in Hj
        by (rewrite length_fmap; unfold Py.range; rewrite length_seqZ; lia).
      destruct (Hcontent 3 j record Hj) as (H1 & H2 & _). auto.
    + intros record Hrec. rewrite <- !app_assoc in Hrec. cbn in Hrec.
      injection Hrec as <-. cbn [title bullet_points]. split; [tauto|].
      intros _. unfold ContentGenerator.toc_items, Py.len.
      rewrite length_take. lia.
  - apply bool_decide_eq_false in Htoc.
    split; [|split; [|split; [|split; [|split]]]].
    + pose proof (length_fallback_content topic num_slides template_config Hn)
        as Hlen.
      unfold ContentGenerator._generate_fallback_content in Hlen.
      rewrite Hunique in Hlen. fold unique in Hlen.
      rewrite (bool_decide_eq_false_2 _ Htoc) in Hlen. exact Hlen.
    + rewrite !fmap_app, fallback_numbers. cbn [fmap list_fmap slide_number app].
      rewrite (range_cons 1) by lia.
      replace (1 + 1) with 2 by lia.
      rewrite (range_snoc 2) by lia. reflexivity.
    + eexists. split; [reflexivity|]. split; reflexivity.
    + eexists. split; [rewrite last_snoc; reflexivity|]. split; reflexivity.
    + intros j record Hj Hrange. rewrite !length_app, length_fmap in Hrange.
      unfold Py.range in Hrange. rewrite length_seqZ in Hrange.
      cbn [length] in Hrange. rewrite <- !app_assoc in Hj. cbn [app] in Hj.
      destruct j as [|j]; [lia|].
      right. rewrite !lookup_later in Hj.
      rewrite lookup_app_l in Hj
        by (rewrite length_fmap; unfold Py.range; rewrite length_seqZ; lia).
      destruct (Hcontent 2 j record Hj) as (H1 & H2 & _). auto.
    + intros record Hrec. rewrite <- !app_assoc in Hrec. cbn [app] in Hrec.
      rewrite lookup_later in Hrec.
      rewrite lookup_app_l in Hrec
        by (rewrite length_fmap; unfold Py.range; rewrite length_seqZ; lia).
      destruct (Hcontent 2 0%nat record Hrec) as (_ & _ & Hne).
      split; [split; [congruence | tauto] | congruence].
Qed.

Lemma fallback_content_witness :
  3 ≤ 5 ∧
  Py.len (ContentGenerator._generate_fallback_content "Rocq" 5
            (Some (TemplateAnalyzer._get_default_strategy 6 5))) = 5 ∧
  slide_number <$> ContentGenerator._generate_fallback_content "Rocq" 5
                     (Some (TemplateAnalyzer._get_default_strategy 6 5))
  = Py.range 1 (5 + 1).
Proof.
  assert (H : 3 ≤ 5) by lia.
  split; [exact H|].
  pose proof (fallback_content "Rocq" 5
                (Some (TemplateAnalyzer._get_default_strategy 6 5)) H) as P.
  cbv zeta in P. exact (conj (proj1 P) (proj1 (proj2 P))).
Defined.

(** X10. The content generator returns exactly as many records as
    slides asked for (3 or more), on every path: without a model, when
    the model or the reading of its answer fails, and when the model
    answers with too few or too many slides. In the last case the
    records are those read from the first slides of the answer, in
    their order, followed by "Additional Insights" records numbered by
    their position up to the count asked for. *)
Theorem generate_presentation_content_count model request :
  3 ≤ ContentGenerator.num_slides request →
  let n := ContentGenerator.num_slides request in
  Py.len (ContentGenerator.generate_presentation_content model request) = n ∧
  (∀ answer slides_data,
     model = Some answer → answer request = Some slides_data →
     let read :=
       ContentGenerator.read_slides (take (Z.to_nat n) slides_data) [] in
     ContentGenerator.generate_presentation_content model request
     = read ++ (ContentGenerator.additional_insights
                  (ContentGenerator.topic request)
                  <$> Py.range (Py.len read + 1) (n + 1)) ∧
     Py.len read = Z.min n (Py.len slides_data)).
Proof.
  intros Hn n. subst n.
  set (n := ContentGenerator.num_slides request) in *.
  assert (Hanswer : ∀ answer slides_data,
     model = Some answer → answer request = Some slides_data →
     let read :=
       ContentGenerator.read_slides (take (Z.to_nat n) slides_data) [] in
     ContentGenerator.generate_presentation_content model request
     = read ++ (ContentGenerator.additional_insights
                  (ContentGenerator.topic request)
                  <$> Py.range (Py.len read + 1) (n + 1)) ∧
     Py.len read = Z.min n (Py.len slides_data)).
  { intros answer slides_data -> Hdata read.
    assert (Hread : Py.len read = Z.min n (Py.len slides_data)).
    { subst read. unfold Py.len. rewrite length_read_slides, length_take.
      simpl. lia. }
    split; [|exact Hread].
    unfold ContentGenerator.generate_presentation_content. rewrite Hdata.
    fold n. unfold ContentGenerator.slice_to at 2. holds (0 <=? n). fold read.
    rewrite fill_missing_spec by (unfold Py.len; lia).
    apply slice_to_all; [lia|].
    unfold Py.len in *. rewrite length_app, length_fmap.
    unfold Py.range. rewrite length_seqZ. lia. }
  split; [|exact Hanswer].
  pose proof (length_fallback_content (ContentGenerator.topic request) n
                (ContentGenerator.template_config request) Hn) as Hfb.
  destruct model as [answer|] eqn:Hm; [|exact Hfb].
  destruct (answer request) as [slides_data|] eqn:Hdata.
  - destruct (Hanswer answer slides_data eq_refl Hdata) as [-> Hread].
    unfold Py.len in *. rewrite length_app, length_fmap.
    unfold Py.range. rewrite length_seqZ. lia.
  - unfold ContentGenerator.generate_presentation_content. rewrite Hdata.
    exact Hfb.
Qed.

Lemma generate_presentation_content_count_witness :
  3 ≤ ContentGenerator.num_slides SampleContent.request ∧
  Py.len (ContentGenerator.generate_presentation_content
            (Some SampleContent.short_answer) SampleContent.request)
  = ContentGenerator.num_slides SampleContent.request.
Proof.
  assert (H : 3 ≤ ContentGenerator.num_slides SampleContent.request)
    by (vm_compute; discriminate).
  split; [exact H|].
  exact (proj1 (generate_presentation_content_count
                  (Some SampleContent.short_answer) SampleContent.request H)).
Defined.

(** ** The handler, from the request to the presentations *)

Lemma valid_plan_lists {ISlide} (template : list ISlide) required plan
    (unique duplicate : list Z) :
  3 ≤ Py.len template →
  unique_slides plan = Some unique →
  duplicate_slides plan = Some duplicate →
  Forall (in_template template) unique →
  (∀ s, s ∈ duplicate → 2 ≤ s ≤ Py.len template - 1) →
  duplicate ≠ [] →
  valid_plan template required (Some plan).
Proof.
  intros Hn Hu Hd Hunique Hdup Hne. unfold valid_plan, SlideRenderer.use_config.
  assert (Htruthy : config_truthy (Some plan) = true).
  { unfold config_truthy. rewrite Hu. destruct (strategy plan); reflexivity. }
  rewrite Htruthy, Hu, Hd. cbn [get].
  split; [exact Hunique|]. split; [|left; exact Hne].
  apply Forall_forall. intros s Hs. apply Hdup in Hs. unfold in_template. lia.
Qed.

Lemma valid_plan_default_strategy {ISlide} (template : list ISlide) required required' :
  3 ≤ Py.len template →
  valid_plan template required
    (Some (TemplateAnalyzer._get_default_strategy (Py.len template) required')).
Proof.
  intros Hn.
  pose proof (duplicates_of_unique (Py.len template)
                (if 2 <=? Py.len template then [2] else [])) as Hdup.
  cbv zeta in Hdup. destruct Hdup as (Hin & Hne & _).
  eapply valid_plan_lists; [exact Hn | reflexivity | reflexivity | | exact Hin
                           | exact (Hne Hn)].
  holds (2 <=? Py.len template). repeat constructor; unfold in_template; lia.
Qed.

Lemma valid_plan_extraction {ISlide} (template : list ISlide) model c text
    required required' :
  3 ≤ Py.len template →
  TemplateAnalyzer._extract_slide_numbers (String c text) ≠ [] →
  Forall (in_template template)
    (TemplateAnalyzer._extract_slide_numbers (String c text)) →
  valid_plan template required
    (Some (TemplateAnalyzer.analyze_template_instructions (Some model)
             (Py.len template) (Some (String c text)) required')).
Proof.
  intros Hn Hfound Hall.
  unfold TemplateAnalyzer.analyze_template_instructions.
  destruct (TemplateAnalyzer._extract_slide_numbers (String c text))
    as [|k ks] eqn:E; [congruence|].
  cbn [Py.truthy].
  pose proof (duplicates_of_unique (Py.len template) (k :: ks)) as Hdup.
  cbv zeta in Hdup. destruct Hdup as (Hin & Hne & _).
  eapply valid_plan_lists; [exact Hn | reflexivity | reflexivity | exact Hall
                           | exact Hin | exact (Hne Hn)].
Qed.

(** X11. The plan the handler passes to the replicator is one the
    replicator can carry out (its slide numbers are slides of the
    template, and it names a slide to repeat), for a template of at
    least 3 slides and any number of slides required, in each of these
    cases: no instruction text is given (or an empty one); the analyzer
    has no language model; the instructions are plain, the patterns
    find slide numbers in them, and all of these are slides of the
    template. Such a plan makes the replicator return as many slides as
    there are records. *)
Theorem handler_plan_valid model template required :
  3 ≤ Py.len (slides template) →
  valid_plan (slides template) required
    (Main.analyze_template model template None required) ∧
  valid_plan (slides template) required
    (Main.analyze_template model template (Some EmptyString) required) ∧
  (∀ instructions,
     valid_plan (slides template) required
       (Main.analyze_template None template instructions required)) ∧
  (∀ answer c text,
     plain_instructions (String c text) →
     TemplateAnalyzer._extract_slide_numbers (String c text) ≠ [] →
     Forall (in_template (slides template))
       (TemplateAnalyzer._extract_slide_numbers (String c text)) →
     valid_plan (slides template) required
       (Main.analyze_template (Some answer) template (Some (String c text))
          required)) ∧
  (∀ save_and_reopen slides_content config,
     Py.len slides_content = required →
     2 ≤ required →
     valid_plan (slides template) required config →
     ∃ prs,
       SlideRenderer.render_presentation save_and_reopen template slides_content
         config = Ok prs ∧
       Py.len (slides prs) = required).
Proof.
  intros Hn. split; [|split; [|split; [|split]]].
  - apply valid_plan_default, Hn.
  - apply valid_plan_default, Hn.
  - intros [[|c text]|]; cbn [Main.analyze_template];
      try (apply valid_plan_default, Hn).
    apply valid_plan_default_strategy, Hn.
  - intros answer c text _ Hfound Hall. cbn [Main.analyze_template].
    apply valid_plan_extraction; assumption.
  - intros save_and_reopen slides_content config Hlen Hreq Hplan. subst required.
    destruct (render_presentation_count save_and_reopen template slides_content
                config Hn Hreq Hplan) as (prs & Hprs & Hcount & _).
    exists prs. split; [exact Hprs|]. unfold Py.len. rewrite Hcount. reflexivity.
Qed.

Lemma handler_plan_valid_witness :
  3 ≤ Py.len (slides (Sample.template 6)) ∧
  plain_instructions "Slide 5 and slide 2 are unique" ∧
  TemplateAnalyzer._extract_slide_numbers "Slide 5 and slide 2 are unique" ≠ [] ∧
  Forall (in_template (slides (Sample.template 6)))
    (TemplateAnalyzer._extract_slide_numbers "Slide 5 and slide 2 are unique") ∧
  valid_plan (slides (Sample.template 6)) 9
    (Main.analyze_template (Some Sample.no_model) (Sample.template 6)
       (Some "Slide 5 and slide 2 are unique"%string) 9).
Proof.
  assert (H1 : 3 ≤ Py.len (slides (Sample.template 6))) by (vm_compute; discriminate).
  assert (H2 : plain_instructions "Slide 5 and slide 2 are unique")
    by (apply (bool_decide_unpack _); vm_compute; exact I).
  assert (H3 : TemplateAnalyzer._extract_slide_numbers
                 "Slide 5 and slide 2 are unique" ≠ [])
    by (vm_compute; discriminate).
  assert (H4 : Forall (in_template (slides (Sample.template 6)))
                 (TemplateAnalyzer._extract_slide_numbers
                    "Slide 5 and slide 2 are unique"))
    by (apply (bool_decide_unpack _); vm_compute; exact I).
  split; [exact H1|]. split; [exact H2|]. split; [exact H3|]. split; [exact H4|].
  exact (proj1 (proj2 (proj2 (proj2 (handler_plan_valid (Some Sample.no_model)
                                       (Sample.template 6) 9 H1))))
           Sample.no_model "S"%char "lide 5 and slide 2 are unique"%string
           H2 H3 H4).
Defined.

(** The instructions "slide 2 and slide 9 are unique" name a slide that
    a 6-slide template does not have, yet 3 slides are made of it: the
    only content slide is slide 2, and slide 9 is never looked up. *)
Example unreached_slide_number :
  TemplateAnalyzer._extract_slide_numbers "slide 2 and slide 9 are unique" = [2; 9] ∧
  SlideRenderer.source_sequence 6 3
    (Main.analyze_template (Some Sample.no_model) (Sample.template 6)
       (Some "slide 2 and slide 9 are unique"%string) 3)
  = Ok [1; 2; 6].
Proof. split; vm_compute; reflexivity. Qed.

Section EndToEnd.
(** The form fields of a request, the text of its PDF, and the services
    the handler calls *)
Variables (topic : string) (content_instructions : option string)
          (website_url : option string) (pdf_content : option string)
          (include_quiz : bool) (program_type target_audience : string).
Variable analyzer_model : option TemplateAnalyzer.GenerativeModel.
Variable content_model : option ContentGenerator.GenerativeModel.
Variable save_and_reopen : Slide -> Slide.
Variable int_times : Z -> Z -> Z.
Variable _add_image_strict :
  Presentation -> Slide -> string -> string -> Z -> Z -> Z -> Z -> option Shape.

Local Abbreviation handler num_days :=
  (Main.generate_presentation analyzer_model
     (MainDay.day_content topic content_instructions website_url pdf_content
        include_quiz program_type target_audience content_model num_days)
     save_and_reopen int_times _add_image_strict).

Lemma length_day_content num_days day_num num_slides template_config :
  3 ≤ num_slides →
  Py.len (MainDay.day_content topic content_instructions website_url pdf_content
            include_quiz program_type target_audience content_model num_days
            day_num num_slides template_config) = num_slides.
Proof.
  intros Hn.
  unfold MainDay.day_content, ContentGenerator.generate_presentation_content.
  cbn [ContentGenerator.topic ContentGenerator.num_slides
       ContentGenerator.template_config].
  assert (Hfb : ∀ t, Py.len (ContentGenerator._generate_fallback_content t
                               num_slides template_config) = num_slides)
    by (intros t; apply length_fallback_content; exact Hn).
  destruct content_model as [answer|]; [|apply Hfb].
  destruct (answer _) as [slides_data|]; [|apply Hfb].
  unfold ContentGenerator.slice_to at 2. holds (0 <=? num_slides).
  rewrite fill_missing_spec
    by (unfold Py.len; rewrite length_read_slides, length_take; simpl; lia).
  rewrite length_slice_to by lia.
  unfold Py.len. rewrite length_app, length_fmap, length_read_slides, length_take.
  unfold Py.range. rewrite length_seqZ. simpl. lia.
Qed.


End EndToEnd.


(** ** The instructions of a day *)

(** X13. The instructions handed to the content generator for a day are
    empty exactly when the request is for a single day and carries no
    content instructions (none, or the empty text). With content
    instructions, these end the text, after the line "Additional
    instructions: "; for a single day nothing but two line feeds
    precedes that line. *)
Theorem day_instructions_empty base_instructions day_num total_days :
  (MainDay._get_day_specific_instructions base_instructions day_num total_days
   = EmptyString ↔
   total_days ≤ 1 ∧
   (base_instructions = None ∨ base_instructions = Some EmptyString)) ∧
  (∀ c base,
     base_instructions = Some (String c base) →
     ∃ day_context,
       MainDay._get_day_specific_instructions base_instructions day_num total_days
       = String.append day_context
           (String.append MainDay.line_feed
              (String.append MainDay.line_feed
                 (String.append "Additional instructions: " (String c base)))) ∧
       (total_days ≤ 1 → day_context = EmptyString)).
Proof.
  unfold MainDay._get_day_specific_instructions. split.
  - destruct (Z.ltb_spec 1 total_days) as [Hmany | Hone].
    + split; [|lia]. intros Hempty. exfalso.
      destruct (day_num =? 1), (day_num =? total_days),
        base_instructions as [[|c base]|]; discriminate.
    + destruct base_instructions as [[|c base]|].
      * split; [intros _; split; [lia | right; reflexivity] | reflexivity].
      * split; [discriminate|]. intros [_ [H | H]]; discriminate.
      * split; [intros _; split; [lia | left; reflexivity] | reflexivity].
  - intros c base ->. eexists. split; [reflexivity|].
    intros Hone. fails (1 <? total_days). reflexivity.
Qed.

Lemma day_instructions_empty_witness :
  Some "Be brief"%string = Some (String "B" "e brief") ∧
  ∃ day_context,
    MainDay._get_day_specific_instructions (Some "Be brief"%string) 1 1
    = String.append day_context
        (String.append MainDay.line_feed
           (String.append MainDay.line_feed
              (String.append "Additional instructions: " (String "B" "e brief")))) ∧
    (1 ≤ 1 → day_context = EmptyString).
Proof.
  assert (H : Some "Be brief"%string = Some (String "B" "e brief")) by reflexivity.
  split; [exact H|].
  exact (proj2 (day_instructions_empty (Some "Be brief"%string) 1 1)
           "B"%char "e brief"%string H).
Defined.

(** ** The checks on the number of slides *)

(** X14. A validator that has not run yet reports no issue exactly when
    the presentation has between 3 and 50 slides, and at most one issue
    otherwise; the three flags of its report are set whatever the
    presentation. The issues are kept by the validator: a second call
    reports each issue of the first call twice. A presentation returned
    by the replicator for 3 to 50 content records is reported without
    issue. *)
Theorem validate_slide_count :
  (∀ presentation,
     let report := fst (PresentationValidator.validate presentation []) in
     (PresentationValidator.issues report = [] ↔
      3 ≤ Py.len (slides presentation) ≤ 50) ∧
     Py.len (PresentationValidator.issues report) ≤ 1 ∧
     PresentationValidator.total_slides report = Py.len (slides presentation) ∧
     PresentationValidator.overlap_checks_passed report = true ∧
     PresentationValidator.logo_validation_passed report = true ∧
     PresentationValidator.text_fit_validation_passed report = true) ∧
  (∀ presentation,
     let '(first, held) := PresentationValidator.validate presentation [] in
     let '(second, _) := PresentationValidator.validate presentation held in
     PresentationValidator.issues second
     = PresentationValidator.issues first ++ PresentationValidator.issues first) ∧
  (∀ save_and_reopen template slides_content config prs,
     3 ≤ Py.len slides_content ≤ 50 →
     valid_plan (slides template) (Py.len slides_content) config →
     SlideRenderer.render_presentation save_and_reopen template slides_content
       config = Ok prs →
     PresentationValidator.issues
       (fst (PresentationValidator.validate prs [])) = []).
Proof.
  assert (Hnone : ∀ presentation,
            PresentationValidator.issues
              (fst (PresentationValidator.validate presentation [])) = [] ↔
            3 ≤ Py.len (slides presentation) ≤ 50).
  { intros presentation.
    unfold PresentationValidator.validate, PresentationValidator._check_slide_count.
    cbn [fst PresentationValidator.issues].
    destruct (Z.ltb_spec (Py.len (slides presentation)) 3),
      (Z.ltb_spec 50 (Py.len (slides presentation)));
      cbn [app]; split; try discriminate; try lia; reflexivity. }
  split; [|split].
  - intros presentation report. split; [apply Hnone|]. subst report.
    unfold PresentationValidator.validate, PresentationValidator._check_slide_count.
    cbn [fst PresentationValidator.issues PresentationValidator.total_slides
         PresentationValidator.overlap_checks_passed
         PresentationValidator.logo_validation_passed
         PresentationValidator.text_fit_validation_passed].
    split; [|repeat split].
    destruct (Z.ltb_spec (Py.len (slides presentation)) 3),
      (Z.ltb_spec 50 (Py.len (slides presentation)));
      cbn [app]; unfold Py.len in *; simpl; lia.
  - intros presentation.
    unfold PresentationValidator.validate, PresentationValidator._check_slide_count.
    cbn [PresentationValidator.issues].
    destruct (Py.len (slides presentation) <? 3),
      (50 <? Py.len (slides presentation)); reflexivity.
  - intros save_and_reopen template slides_content config prs Hcount Hplan Hrender.
    apply Hnone.
    destruct (Z.ltb_spec (Py.len (slides template)) 3) as [Hsmall | Hlen].
    + unfold SlideRenderer.render_presentation, SlideRenderer.assemble in Hrender.
      revert Hrender. holds (Py.len (slides template) <? 3). discriminate.
    + destruct (render_presentation_count save_and_reopen template slides_content
                  config Hlen) as (prs' & Hprs & Hslides & _); [lia | exact Hplan |].
      rewrite Hprs in Hrender. injection Hrender as <-.
      unfold Py.len in *. lia.
Qed.

Lemma validate_slide_count_witness :
  3 ≤ Py.len (Sample.records 9) ≤ 50 ∧
  valid_plan (slides (Sample.template 6)) (Py.len (Sample.records 9)) None ∧
  ∃ prs,
    SlideRenderer.render_presentation Sample.evaluation_stamp (Sample.template 6)
      (Sample.records 9) None = Ok prs ∧
    PresentationValidator.issues
      (fst (PresentationValidator.validate prs [])) = [].
Proof.
  assert (H1 : 3 ≤ Py.len (Sample.records 9) ≤ 50)
    by (vm_compute; split; discriminate).
  assert (H2 : valid_plan (slides (Sample.template 6)) (Py.len (Sample.records 9))
                 None)
    by (apply (bool_decide_unpack _); vm_compute; exact I).
  split; [exact H1|]. split; [exact H2|].
  destruct (SlideRenderer.render_presentation Sample.evaluation_stamp
              (Sample.template 6) (Sample.records 9) None) as [prs|e] eqn:H.
  - exists prs. split; [reflexivity|].
    exact (proj2 (proj2 validate_slide_count) Sample.evaluation_stamp
             (Sample.template 6) (Sample.records 9) None prs H1 H2 H).
  - vm_compute in H. discriminate.
Defined.

(** X15. The parser accepts a template exactly when it has at least 3
    slides and at least 1 slide layout, and lists one error for each of
    the two requirements that is not met, that on the slides first.
    Its check on the slides is that of the replicator: a template is
    refused for its slides by the one exactly when the other raises the
    value error on the number of slides. *)
Theorem validate_template_accepts template num_layouts :
  let '(valid, errors) :=
    TemplateParser.validate_template (Py.len (slides template)) num_layouts in
  (valid = true ↔ 3 ≤ Py.len (slides template) ∧ 1 ≤ num_layouts) ∧
  (valid = true ↔ errors = []) ∧
  Py.len errors
  = (if Py.len (slides template) <? 3 then 1 else 0)
    + (if num_layouts <? 1 then 1 else 0) ∧
  ∀ save_and_reopen slides_content config,
    ("Template must have at least 3 slides (cover, content, closing)"%string
       ∈ errors ↔
     SlideRenderer.render_presentation save_and_reopen template slides_content
       config = Raise (ValueError "Template must have at least 3 slides")).
Proof.
  unfold TemplateParser.validate_template.
  assert (Hrender : ∀ save_and_reopen slides_content config,
            SlideRenderer.render_presentation save_and_reopen template
              slides_content config
            = Raise (ValueError "Template must have at least 3 slides") ↔
            Py.len (slides template) < 3).
  { intros save_and_reopen slides_content config.
    rewrite render_presentation_assemble. split.
    - intros Hraise. destruct (Z.lt_ge_cases (Py.len (slides template)) 3)
        as [Hlt | Hge]; [exact Hlt | exfalso].
      destruct (SlideRenderer.use_config (Py.len (slides template)) config)
        as [unique duplicate] eqn:Hcfg.
      rewrite (assemble_mapM (slides template) (Py.len slides_content) config
                 unique duplicate Hge Hcfg) in Hraise.
      destruct (mapM _ _) as [output|e] eqn:Hm; [discriminate|].
      assert (e = IndexError); [|subst e; discriminate].
      clear -Hm. revert Hm.
      generalize (chosen_sources (Py.len (slides template)) (Py.len slides_content)
                    unique duplicate).
      intros l. induction l as [|k l IH]; [discriminate|].
      cbn [mapM]. destruct (Py.index _ _) as [s|e'] eqn:Hk.
      + cbn [mbind result_bind]. destruct (mapM _ l) as [ys|e'']; [discriminate|].
        cbn [mbind result_bind]. intros H. injection H as <-. apply IH. reflexivity.
      + cbn [mbind result_bind]. intros H. injection H as <-.
        eapply index_raises. exact Hk.
    - intros Hsmall. unfold SlideRenderer.assemble.
      holds (Py.len (slides template) <? 3). reflexivity. }
  destruct (Z.ltb_spec (Py.len (slides template)) 3) as [Hs | Hs],
    (Z.ltb_spec num_layouts 1) as [Hl | Hl]; cbn [app].
  - split; [split; [discriminate | lia]|]. split; [split; discriminate|].
    split; [reflexivity|]. intros ? ? ?. rewrite Hrender.
    split; [intros _; exact Hs | intros _; left].
  - split; [split; [discriminate | lia]|]. split; [split; discriminate|].
    split; [reflexivity|]. intros ? ? ?. rewrite Hrender.
    split; [intros _; exact Hs | intros _; left].
  - split; [split; [discriminate | lia]|]. split; [split; discriminate|].
    split; [reflexivity|]. intros ? ? ?. rewrite Hrender.
    split; [|lia]. intros Hin. apply list_elem_of_singleton in Hin. discriminate.
  - split; [split; [intros _; lia | reflexivity]|].
    split; [split; reflexivity|].
    split; [reflexivity|]. intros ? ? ?. rewrite Hrender.
    split; [|lia]. intros Hin. inversion Hin.
Qed.

(** ** The duplicator of slide_duplicator.py *)

Section DuplicatorProperties.
Context {Angle Ratio Blob Element : Type}.
Variables (new_name : string) (new_grpSpPr : Duplicator.GroupProps Angle Element)
          (no_crop : Ratio) (plain : Element).

Local Abbreviation Node := (Duplicator.Node Angle Ratio Blob Element).
Local Abbreviation Package := (Duplicator.Package Angle Ratio Blob Element).
Local Abbreviation copy_shape :=
  (Duplicator.copy_shape Angle Ratio Blob Element new_name new_grpSpPr no_crop
     plain).
Local Abbreviation copy_shapes :=
  (Duplicator.copy_shapes Angle Ratio Blob Element new_name new_grpSpPr no_crop
     plain).
Local Abbreviation duplicate_slide :=
  (Duplicator.duplicate_slide Angle Ratio Blob Element new_name new_grpSpPr
     no_crop plain).
Local Abbreviation slide_parts := (Duplicator.slide_parts Angle Ratio Blob Element).
Local Abbreviation other_rels := (Duplicator.other_rels Angle Ratio Blob Element).
Local Abbreviation existing_rels :=
  (Duplicator.existing_rels Angle Ratio Blob Element).
Local Abbreviation shapes := (Duplicator.shapes Angle Ratio Blob Element).

(** Induction on a shape, with the property known of the shapes of a
    group *)
Lemma Node_induction (P : Node → Prop) :
  (∀ name grpSpPr extra children,
     Forall P children →
     P (Duplicator.Group Angle Ratio Blob Element name grpSpPr extra children)) →
  (∀ name x y cx cy cl cr ct cb blob formatting,
     P (Duplicator.Picture Angle Ratio Blob Element name x y cx cy cl cr ct cb
          blob formatting)) →
  (∀ element, P (Duplicator.Other Angle Ratio Blob Element element)) →
  ∀ shape, P shape.
Proof.
  intros Hgroup Hpicture Hother.
  refine (fix IH (shape : Node) : P shape :=
            match shape with
            | Duplicator.Group _ _ _ _ name grpSpPr extra children =>
                Hgroup name grpSpPr extra children
                  ((fix all (l : list Node) : Forall P l :=
                      match l with
                      | [] => _
                      | x :: rest => _
                      end) children)
            | Duplicator.Picture _ _ _ _ name x y cx cy cl cr ct cb blob formatting =>
                Hpicture name x y cx cy cl cr ct cb blob formatting
            | Duplicator.Other _ _ _ _ element => Hother element
            end).
  - constructor.
  - constructor; [exact (IH x) | exact (all rest)].
Qed.

Lemma copy_children (f : Node → Node) (source dest : list Node) :
  (fix copy_all (source dest : list Node) : list Node :=
     match source with
     | [] => dest
     | shape :: rest => copy_all rest (dest ++ [f shape])
     end) source dest
  = dest ++ (f <$> source).
Proof.
  revert dest. induction source as [|shape rest IH]; intros dest.
  - rewrite app_nil_r. reflexivity.
  - rewrite IH, <- app_assoc. reflexivity.
Qed.

Lemma copy_shapes_app (source dest : list Node) :
  copy_shapes source dest = dest ++ (copy_shape <$> source).
Proof.
  revert dest. induction source as [|shape rest IH]; intros dest.
  - rewrite app_nil_r. reflexivity.
  - cbn [Duplicator.copy_shapes]. rewrite IH, <- app_assoc. reflexivity.
Qed.

Lemma copy_group name grpSpPr extra (children : list Node) :
  copy_shape (Duplicator.Group Angle Ratio Blob Element name grpSpPr extra children)
  = Duplicator.Group Angle Ratio Blob Element name grpSpPr None
      (copy_shape <$> children).
Proof.
  cbn [Duplicator.copy_shape]. cbv zeta. f_equal.
  apply (copy_children copy_shape children []).
Qed.

Lemma fresh_group name grpSpPr extra (children : list Node) :
  fresh plain (Duplicator.Group Angle Ratio Blob Element name grpSpPr extra children)
  ↔ extra = None ∧ Forall (fresh plain) children.
Proof.
  cbn [fresh]. apply and_iff_compat_l. induction children as [|x rest IH].
  - split; [constructor | trivial].
  - rewrite Forall_cons, IH. reflexivity.
Qed.

Lemma carried_over_group name grpSpPr extra (children : list Node)
    name' grpSpPr' extra' (children' : list Node) :
  carried_over
    (Duplicator.Group Angle Ratio Blob Element name grpSpPr extra children)
    (Duplicator.Group Angle Ratio Blob Element name' grpSpPr' extra' children')
  ↔ name = name' ∧ grpSpPr = grpSpPr' ∧ Forall2 carried_over children children'.
Proof.
  cbn [carried_over]. do 2 apply and_iff_compat_l.
  revert children'. induction children as [|x rest IH]; intros [|x' rest'].
  - split; [constructor | trivial].
  - split; [contradiction | intros H; inversion H].
  - split; [contradiction | intros H; inversion H].
  - rewrite IH. split.
    + intros [Hx Hrest]. constructor; assumption.
    + intros H. inversion H; subst. split; assumption.
Qed.

Lemma copy_shape_fresh shape : fresh plain (copy_shape shape).
Proof.
  induction shape as [name g extra children IH | |] using Node_induction.
  - rewrite copy_group, fresh_group. split; [reflexivity|]. apply Forall_fmap.
    eapply Forall_impl; [exact IH|]. auto.
  - reflexivity.
  - exact I.
Qed.

Lemma copy_shape_carried_over shape : carried_over shape (copy_shape shape).
Proof.
  induction shape as [name g extra children IH | |] using Node_induction.
  - rewrite copy_group, carried_over_group.
    split; [reflexivity|]. split; [reflexivity|].
    induction IH as [|x rest Hx _ IHrest]; [constructor|].
    rewrite fmap_cons. constructor; assumption.
  - cbn [Duplicator.copy_shape carried_over]. repeat split.
  - reflexivity.
Qed.

(** A shape that agrees with [shape] in what is carried over, and holds
    nothing else than a new shape does, is the copy of [shape]. *)
Lemma copy_shape_unique shape c :
  carried_over shape c → fresh plain c → c = copy_shape shape.
Proof.
  revert c. induction shape as [name g extra children IH | |] using Node_induction;
    intros c Hcarried Hfresh.
  - destruct c as [name' g' extra' children' | |]; try contradiction.
    apply carried_over_group in Hcarried as (<- & <- & Hchildren).
    apply fresh_group in Hfresh as [-> Hfresh].
    rewrite copy_group. f_equal.
    revert Hfresh. induction Hchildren as [|x x' rest rest' Hx _ IHrest];
      intros Hfresh; [reflexivity|].
    apply Forall_cons in IH as [IHx IH].
    apply Forall_cons in Hfresh as [Hfx Hfresh].
    rewrite fmap_cons, (IHx x' Hx Hfx), (IHrest IH Hfresh). reflexivity.
  - destruct c as [| name' x' y' cx' cy' cl' cr' ct' cb' blob' formatting' |];
      try contradiction.
    cbn [carried_over] in Hcarried. cbn [fresh] in Hfresh.
    destruct Hcarried as (<- & <- & <- & <- & <- & <- & <- & <- & <- & <-).
    subst formatting'. reflexivity.
  - destruct c as [| | element']; try contradiction.
    cbn [carried_over] in Hcarried. subst element'. reflexivity.
Qed.

Lemma remove_placeholders_all (l : list Node) :
  Duplicator.remove_placeholders Angle Ratio Blob Element l = [].
Proof.
  unfold Duplicator.remove_placeholders.
  generalize (imap (fun (i : nat) (s : Node) => (i, s)) l). intros tree.
  induction tree as [|el rest IH]; [reflexivity|].
  cbn [foldl Duplicator.remove_shape]. rewrite Nat.eqb_refl. exact IH.
Qed.

Lemma getitem_spec {A} (l : list A) (i : Z) :
  let n := Py.len l in
  (- n ≤ i < n →
   ∃ a, Duplicator.getitem l i = Ok a ∧ l !! Z.to_nat (i mod n) = Some a) ∧
  (¬ (- n ≤ i < n) → Duplicator.getitem l i = Raise IndexError).
Proof.
  intros n. subst n. unfold Duplicator.getitem. split.
  - intros Hi. destruct (Z.ltb_spec i 0) as [Hneg | Hpos].
    + holds (0 <=? Py.len l + i). holds (Py.len l + i <? Py.len l).
      cbn [andb].
      replace (i mod Py.len l) with (Py.len l + i)
        by (apply Z.mod_unique with (q := -1); lia).
      destruct (lookup_lt_is_Some_2 l (Z.to_nat (Py.len l + i))) as [a Ha];
        [unfold Py.len in *; lia|].
      rewrite Ha. eauto.
    + holds (0 <=? i). holds (i <? Py.len l). cbn [andb].
      rewrite Z.mod_small by lia.
      destruct (lookup_lt_is_Some_2 l (Z.to_nat i)) as [a Ha];
        [unfold Py.len in *; lia|].
      rewrite Ha. eauto.
  - intros Hout. destruct (Z.ltb_spec i 0) as [Hneg | Hpos].
    + fails (0 <=? Py.len l + i). reflexivity.
    + holds (0 <=? i). fails (i <? Py.len l). reflexivity.
Qed.

Lemma retry_loop_free fuel draws names n partname_str calls name calls' :
  SlideDuplicator.retry_loop fuel draws names n partname_str calls
  = Some (name, calls') →
  SlideDuplicator.name_in name names = false.
Proof.
  revert partname_str calls. induction fuel as [|fuel IH];
    intros partname_str calls; [discriminate|].
  cbn [SlideDuplicator.retry_loop].
  destruct (SlideDuplicator.name_in partname_str names) eqn:Hin.
  - destruct (SlideDuplicator.random_part draws calls) as [part calls''].
    apply IH.
  - intros H. injection H as <- <-. exact Hin.
Qed.

Lemma name_in_false name names :
  SlideDuplicator.name_in name names = false → name ∉ names.
Proof.
  intros Hfree Hin. rewrite (name_in_elem name names Hin) in Hfree. discriminate.
Qed.

(** X16. What [copy_shapes] makes of the shapes of a slide: the copies
    are added after the shapes the destination has, one for each shape
    of the source and in their order. A copy agrees with its source in
    what the code carries over: a group keeps its name and its
    [p:grpSpPr] (position, size, rotation and the frame of its shapes)
    and holds the copies of its shapes, at every depth; a picture
    keeps its name, position, size, crop and image; any other shape is
    copied whole. Whatever else a group or a picture holds is lost: the
    copy of a group has no extra, and the copy of a picture has the
    formatting of a new picture. These two facts determine the
    copy. *)
Theorem copy_shapes_faithful :
  (∀ source dest,
     copy_shapes source dest = dest ++ (copy_shape <$> source)) ∧
  (∀ shape, carried_over shape (copy_shape shape)) ∧
  (∀ shape, fresh plain (copy_shape shape)) ∧
  (∀ name grpSpPr extra children,
     copy_shape (Duplicator.Group Angle Ratio Blob Element name grpSpPr extra
                   children)
     = Duplicator.Group Angle Ratio Blob Element name grpSpPr None
         (copy_shape <$> children)) ∧
  (∀ element,
     copy_shape (Duplicator.Other Angle Ratio Blob Element element)
     = Duplicator.Other Angle Ratio Blob Element element) ∧
  (∀ shape c, carried_over shape c ∧ fresh plain c ↔ c = copy_shape shape).
Proof.
  split; [exact copy_shapes_app|]. split; [exact copy_shape_carried_over|].
  split; [exact copy_shape_fresh|]. split; [exact copy_group|].
  split; [reflexivity|]. intros shape c. split.
  - intros [Hcarried Hfresh]. apply copy_shape_unique; assumption.
  - intros ->. split; [apply copy_shape_carried_over | apply copy_shape_fresh].
Qed.

(** The copy of the sample banner: the description of the group and the
    shadow of its logo are lost. *)
Example copy_banner :
  Duplicator.copy_shape Z Z string string "Group 1" SampleDuplicator.new_grpSpPr 0
    EmptyString SampleDuplicator.banner
  = Duplicator.Group Z Z string string "Banner"%string
      (Duplicator.mkGroupProps Z string 0 0 900 100 0
         "chOff=0,0 chExt=900,100"%string)
      None
      [Duplicator.Picture Z Z string string "Logo"%string 10 20 300 200 0 0 5 5
         "png"%string EmptyString;
       Duplicator.Other Z Z string string "<p:sp>Title</p:sp>"%string].
Proof. reflexivity. Qed.


End DuplicatorProperties.


(** ** The injector: the cover *)

Section Sorting.
Context {A : Type}.
Variable le : A → A → bool.
Hypothesis le_total : ∀ a b, le a b = false → le b a = true.
Hypothesis le_trans : ∀ a b c, le a b = true → le b c = true → le a c = true.

Lemma insert_by_perm x (l : list A) : Py.insert_by le x l ≡ₚ x :: l.
Proof.
  induction l as [|y l IH]; [reflexivity|]. cbn [Py.insert_by].
  destruct (le y x); [|reflexivity].
  rewrite IH. apply Permutation_swap.
Qed.

Lemma fold_insert_perm (l acc : list A) :
  fold_left (fun sorted x => Py.insert_by le x sorted) l acc ≡ₚ acc ++ l.
Proof.
  revert acc. induction l as [|x l IH]; intros acc.
  - rewrite app_nil_r. reflexivity.
  - cbn [fold_left]. rewrite IH, insert_by_perm.
    rewrite (Permutation_middle acc l x). reflexivity.
Qed.

Lemma sort_by_perm (l : list A) : Py.sort_by le l ≡ₚ l.
Proof. unfold Py.sort_by. rewrite fold_insert_perm. reflexivity. Qed.

Lemma insert_by_sorted x (l : list A) :
  StronglySorted (fun a b => le a b = true) l →
  StronglySorted (fun a b => le a b = true) (Py.insert_by le x l).
Proof.
  induction 1 as [|y l Hl IH Hy]; cbn [Py.insert_by].
  - repeat constructor.
  - destruct (le y x) eqn:Hyx.
    + constructor; [exact IH|].
      rewrite insert_by_perm. constructor; assumption.
    + apply le_total in Hyx. constructor; [constructor; assumption|].
      constructor; [exact Hyx|].
      eapply Forall_impl; [exact Hy|]. intros z Hz. simpl in *.
      eapply le_trans; eassumption.
Qed.

Lemma sort_by_sorted (l : list A) :
  StronglySorted (fun a b => le a b = true) (Py.sort_by le l).
Proof.
  unfold Py.sort_by.
  assert (H : ∀ acc, StronglySorted (fun a b => le a b = true) acc →
            StronglySorted (fun a b => le a b = true)
              (fold_left (fun sorted x => Py.insert_by le x sorted) l acc)).
  { induction l as [|x l IH]; intros acc Hacc; [exact Hacc|].
    cbn [fold_left]. apply IH, insert_by_sorted, Hacc. }
  apply H. constructor.
Qed.

End Sorting.

Lemma key_le_total a b :
  SlidePopulator.key_le a b = false → SlidePopulator.key_le b a = true.
Proof.
  unfold SlidePopulator.key_le.
  destruct (Z.ltb_spec (SlidePopulator.ts_top a) (SlidePopulator.ts_top b)),
    (Z.eqb_spec (SlidePopulator.ts_top a) (SlidePopulator.ts_top b)),
    (Z.leb_spec (- SlidePopulator.ts_area a) (- SlidePopulator.ts_area b)),
    (Z.ltb_spec (SlidePopulator.ts_top b) (SlidePopulator.ts_top a)),
    (Z.eqb_spec (SlidePopulator.ts_top b) (SlidePopulator.ts_top a)),
    (Z.leb_spec (- SlidePopulator.ts_area b) (- SlidePopulator.ts_area a));
    cbn; intros; try reflexivity; try discriminate; lia.
Qed.

Lemma key_le_spec a b :
  SlidePopulator.key_le a b = true ↔
  SlidePopulator.ts_top a < SlidePopulator.ts_top b ∨
  (SlidePopulator.ts_top a = SlidePopulator.ts_top b ∧
   SlidePopulator.ts_area b ≤ SlidePopulator.ts_area a).
Proof.
  unfold SlidePopulator.key_le.
  rewrite orb_true_iff, andb_true_iff, Z.ltb_lt, Z.eqb_eq, Z.leb_le. lia.
Qed.

Lemma key_le_refl a : SlidePopulator.key_le a a = true.
Proof. rewrite key_le_spec. lia. Qed.

Lemma key_le_trans a b c :
  SlidePopulator.key_le a b = true → SlidePopulator.key_le b c = true →
  SlidePopulator.key_le a c = true.
Proof. rewrite !key_le_spec. lia. Qed.

Lemma text_shape_positions (tree : list (nat * Shape)) :
  SlidePopulator.ts_shape
    <$> omap (fun '(i, shape) =>
                match shape_text_frame shape with
                | Some _ =>
                    Some (SlidePopulator.mkTextShape i
                            (shape_width shape * shape_height shape)
                            (shape_top shape) (shape_width shape))
                | None => None
                end) tree
  `sublist_of` (fst <$> tree).
Proof.
  induction tree as [|[i shape] tree IH]; [constructor|].
  cbn [omap list_omap fmap list_fmap fst].
  destruct (shape_text_frame shape); cbn [fmap list_fmap];
    [apply sublist_skip | apply sublist_cons]; exact IH.
Qed.

Lemma find_text_shapes_NoDup (l : list Shape) :
  NoDup (SlidePopulator.ts_shape <$> SlidePopulator.find_text_shapes l).
Proof.
  eapply sublist_NoDup; [|apply text_shape_positions].
  fold (Sanitize.shape_tree l). rewrite fst_shape_tree. apply NoDup_seq.
Qed.

Lemma elem_of_find_text_shapes (l : list Shape) u :
  u ∈ SlidePopulator.find_text_shapes l →
  ∃ x y w h tf,
    l !! SlidePopulator.ts_shape u = Some (AutoShape x y w h tf) ∧
    SlidePopulator.ts_top u = y ∧ SlidePopulator.ts_area u = w * h.
Proof.
  unfold SlidePopulator.find_text_shapes. intros Hu.
  apply list_elem_of_omap in Hu as ([i shape] & Hin & Hu).
  apply list_elem_of_lookup in Hin as [j Hj].
  rewrite list_lookup_imap in Hj.
  destruct (l !! j) as [shape'|] eqn:Hl; [|discriminate].
  cbn in Hj. injection Hj as <- <-.
  destruct shape' as [x y w h tf| | |]; try discriminate.
  cbn in Hu. injection Hu as <-. cbn. eauto 10.
Qed.

Lemma update_text_frame_spec i f (l : list Shape) x y w h tf :
  l !! i = Some (AutoShape x y w h tf) →
  SlidePopulator.update_text_frame i f l = <[i := AutoShape x y w h (f tf)]> l.
Proof. intros H. unfold SlidePopulator.update_text_frame. rewrite H. reflexivity. Qed.

Lemma join_split_lines s :
  Py.join (String (ascii_of_nat 10) EmptyString) (Py.split_lines s) = s.
Proof.
  induction s as [|c s IH]; [reflexivity|]. cbn [Py.split_lines].
  destruct (Ascii.eqb_spec c (ascii_of_nat 10)) as [-> | Hne].
  - destruct (Py.split_lines s) as [|first others] eqn:E.
    + simpl in IH. subst s. discriminate E.
    + change (Py.join ?sep (EmptyString :: first :: others))
        with (String.append EmptyString
                (String.append sep (Py.join sep (first :: others)))).
      rewrite IH. reflexivity.
  - destruct (Py.split_lines s) as [|first others] eqn:E.
    + destruct s; simpl in E; [discriminate|].
      destruct (Ascii.eqb _ _); [discriminate|].
      destruct (Py.split_lines s); discriminate.
    + destruct others as [|second others].
      * simpl in *. congruence.
      * change (Py.join ?sep (String c first :: second :: others))
          with (String c (String.append first
                            (String.append sep (Py.join sep (second :: others))))).
        f_equal. exact IH.
Qed.

(** X18. The cover. Injection never changes the notes of the cover.
    When the cover has two text shapes or more, no shape is added: the
    title goes to the text shape that is highest on the slide (the
    largest of them, if several are as high), the subtitle, if there is
    one, to the next in this order, and every other shape is left as it
    is. A shape written keeps its place and its geometry; its frame
    holds an empty first paragraph followed by the text. When the cover
    has fewer than two text shapes, its shapes are kept and a text box
    holding the title is added after them, followed by a text box for
    the subtitle if there is one. *)
Theorem cover_title_placement int_times prs slide content :
  let text_shapes := SlidePopulator.find_text_shapes (shapes slide) in
  let cover :=
    SlidePopulator._add_title_slide_content_smart int_times prs slide content in
  let subtitle := default EmptyString (head (bullet_points content)) in
  notes cover = notes slide ∧
  ((2 ≤ length text_shapes)%nat →
   ∃ t s,
     t ∈ text_shapes ∧ s ∈ text_shapes ∧
     SlidePopulator.ts_shape t ≠ SlidePopulator.ts_shape s ∧
     (∀ u, u ∈ text_shapes → SlidePopulator.key_le t u = true) ∧
     (∀ u, u ∈ text_shapes →
           SlidePopulator.ts_shape u ≠ SlidePopulator.ts_shape t →
           SlidePopulator.key_le s u = true) ∧
     length (shapes cover) = length (shapes slide) ∧
     (∀ i, i ≠ SlidePopulator.ts_shape t → i ≠ SlidePopulator.ts_shape s →
           shapes cover !! i = shapes slide !! i) ∧
     (∃ x y w h tf tf',
        shapes slide !! SlidePopulator.ts_shape t = Some (AutoShape x y w h tf) ∧
        shapes cover !! SlidePopulator.ts_shape t = Some (AutoShape x y w h tf') ∧
        p_text <$> paragraphs tf' = [EmptyString; title content]) ∧
     (subtitle = EmptyString →
      shapes cover !! SlidePopulator.ts_shape s
      = shapes slide !! SlidePopulator.ts_shape s) ∧
     (subtitle ≠ EmptyString →
      ∃ x y w h tf tf',
        shapes slide !! SlidePopulator.ts_shape s = Some (AutoShape x y w h tf) ∧
        shapes cover !! SlidePopulator.ts_shape s = Some (AutoShape x y w h tf') ∧
        p_text <$> paragraphs tf' = [EmptyString; subtitle])) ∧
  ((length text_shapes < 2)%nat →
   ∃ x y w h tf added,
     shapes cover = shapes slide ++ AutoShape x y w h tf :: added ∧
     frame_text tf = title content ∧
     (subtitle = EmptyString → added = []) ∧
     (subtitle ≠ EmptyString →
      ∃ y' h' tf', added = [AutoShape x y' w h' tf'] ∧ frame_text tf' = subtitle)).
Proof.
  intros text_shapes cover subtitle.
  pose proof (sort_by_perm SlidePopulator.key_le text_shapes) as Hperm.
  pose proof (sort_by_sorted SlidePopulator.key_le key_le_total key_le_trans
                text_shapes) as Hsorted.
  pose proof (find_text_shapes_NoDup (shapes slide)) as Hnd.
  fold text_shapes in Hnd.
  assert (Hfirst : ∀ (f : Paragraph → Paragraph) text tf,
            (∀ p, p_text (f p) = p_text p) →
            frame_text (SlidePopulator.update_first_paragraph f
                          (mkTextFrame
                             (paragraphs (SlidePopulator.set_frame_text text
                                            SlidePopulator.new_text_frame))
                             (word_wrap tf) (vertical_anchor tf) (margin_left tf)
                             (margin_right tf) (margin_top tf) (margin_bottom tf)))
            = text).
  { intros f text tf Hf. unfold SlidePopulator.update_first_paragraph, frame_text.
    cbn [paragraphs SlidePopulator.set_frame_text].
    rewrite <- (join_split_lines text) at 2.
    destruct (Py.split_lines text) as [|line lines]; [reflexivity|].
    cbn [fmap list_fmap SlidePopulator.set_paragraphs paragraphs].
    rewrite Hf. cbn [p_text]. f_equal. f_equal.
    rewrite <- list_fmap_compose. rewrite <- (list_fmap_id lines) at 2.
    apply list_fmap_ext. reflexivity. }
  subst cover. unfold SlidePopulator._add_title_slide_content_smart.
  fold text_shapes. fold subtitle.
  destruct (Py.sort_by SlidePopulator.key_le text_shapes) as [|t [|s others]]
    eqn:Hsort.
  - apply Permutation_length in Hperm. cbn [length] in Hperm.
    split; [destruct subtitle; reflexivity|]. split; [lia|]. intros _.
    destruct subtitle eqn:Hsub.
    + eexists _, _, _, _, _, []. cbn [shapes].
      split; [reflexivity|]. split; [|split; [reflexivity | congruence]].
      apply (Hfirst _ (title content)
               (mkTextFrame [] (Some true) (Some MSO_ANCHOR_MIDDLE) None None None
                  None)). reflexivity.
    + eexists _, _, _, _, _, _. cbn [shapes]. rewrite <- app_assoc. cbn [app].
      split; [reflexivity|]. split; [|split; [discriminate|]].
      * apply (Hfirst _ (title content)
                 (mkTextFrame [] (Some true) (Some MSO_ANCHOR_MIDDLE) None None
                    None None)). reflexivity.
      * intros _. eexists _, _, _. split; [reflexivity|].
        apply (Hfirst _ (String a s)
                 (mkTextFrame [] (Some true) None None None None None)).
        reflexivity.
  - apply Permutation_length in Hperm. cbn [length] in Hperm.
    split; [destruct subtitle; reflexivity|]. split; [lia|]. intros _.
    destruct subtitle eqn:Hsub.
    + eexists _, _, _, _, _, []. cbn [shapes].
      split; [reflexivity|]. split; [|split; [reflexivity | congruence]].
      apply (Hfirst _ (title content)
               (mkTextFrame [] (Some true) (Some MSO_ANCHOR_MIDDLE) None None None
                  None)). reflexivity.
    + eexists _, _, _, _, _, _. cbn [shapes]. rewrite <- app_assoc. cbn [app].
      split; [reflexivity|]. split; [|split; [discriminate|]].
      * apply (Hfirst _ (title content)
                 (mkTextFrame [] (Some true) (Some MSO_ANCHOR_MIDDLE) None None
                    None None)). reflexivity.
      * intros _. eexists _, _, _. split; [reflexivity|].
        apply (Hfirst _ (String a s)
                 (mkTextFrame [] (Some true) None None None None None)).
        reflexivity.
  - split; [destruct subtitle; reflexivity|].
    split; [|intros Hfew; apply Permutation_length in Hperm; cbn [length] in Hperm;
             lia].
    intros _. exists t, s.
    assert (Ht : t ∈ text_shapes) by (rewrite <- Hperm; left).
    assert (Hs : s ∈ text_shapes) by (rewrite <- Hperm; right; left).
    assert (Hne : SlidePopulator.ts_shape t ≠ SlidePopulator.ts_shape s).
    { rewrite <- Hperm in Hnd. cbn [fmap list_fmap] in Hnd.
      apply NoDup_cons in Hnd as [Hnot _]. intros Heq. apply Hnot.
      rewrite Heq. left. }
    apply StronglySorted_inv in Hsorted as [Hsorted Hmin].
    apply StronglySorted_inv in Hsorted as [_ Hnext].
    destruct (elem_of_find_text_shapes _ _ Ht) as (x & y & w & h & ft & Hlt & _).
    destruct (elem_of_find_text_shapes _ _ Hs) as (x' & y' & w' & h' & fs & Hls & _).
    rewrite (update_text_frame_spec _ _ _ _ _ _ _ _ Hlt).
    set (shapes1 := <[SlidePopulator.ts_shape t := _]> (shapes slide)).
    assert (Hls1 : shapes1 !! SlidePopulator.ts_shape s
                   = Some (AutoShape x' y' w' h' fs)).
    { subst shapes1. rewrite list_lookup_insert_ne by exact Hne. exact Hls. }
    assert (Hbound : (SlidePopulator.ts_shape t < length (shapes slide))%nat)
      by (eapply lookup_lt_Some; exact Hlt).
    split; [exact Ht|]. split; [exact Hs|]. split; [exact Hne|].
    split.
    { intros u Hu. rewrite <- Hperm in Hu. apply elem_of_cons in Hu as [-> | Hu].
      - apply key_le_refl.
      - rewrite Forall_forall in Hmin. apply Hmin, Hu. }
    split.
    { intros u Hu Hut. rewrite <- Hperm in Hu.
      apply elem_of_cons in Hu as [-> | Hu]; [congruence|].
      apply elem_of_cons in Hu as [-> | Hu].
      - apply key_le_refl.
      - rewrite Forall_forall in Hnext. apply Hnext, Hu. }
    destruct subtitle eqn:Hsub.
    + cbn [shapes]. split; [subst shapes1; apply length_insert|].
      split.
      { intros i Hit His. subst shapes1.
        apply list_lookup_insert_ne. congruence. }
      split.
      { exists x, y, w, h, ft. eexists. split; [exact Hlt|].
        split; [subst shapes1; apply list_lookup_insert_eq; exact Hbound|].
        reflexivity. }
      split; [intros _; rewrite Hls1, Hls; reflexivity | congruence].
    + rewrite (update_text_frame_spec _ _ _ _ _ _ _ _ Hls1). cbn [shapes].
      split; [subst shapes1; rewrite !length_insert; reflexivity|].
      split.
      { intros i Hit His. rewrite list_lookup_insert_ne by congruence.
        subst shapes1. apply list_lookup_insert_ne. congruence. }
      split.
      { exists x, y, w, h, ft. eexists. split; [exact Hlt|].
        split; [rewrite list_lookup_insert_ne by congruence; subst shapes1;
                apply list_lookup_insert_eq; exact Hbound|].
        reflexivity. }
      split; [discriminate|]. intros _.
      exists x', y', w', h', fs. eexists.
      split; [exact Hls|].
      split; [apply list_lookup_insert_eq; apply lookup_lt_Some in Hls1;
              exact Hls1|].
      reflexivity.
Qed.

Lemma cover_title_placement_witness :
  (2 ≤ length (SlidePopulator.find_text_shapes (shapes SampleContent.cover)))%nat ∧
  length (shapes (SlidePopulator._add_title_slide_content_smart Sample.int_times
                    (Sample.template 3) SampleContent.cover (Sample.record 1)))
  = length (shapes SampleContent.cover).
Proof.
  assert (H : (2 ≤ length (SlidePopulator.find_text_shapes
                             (shapes SampleContent.cover)))%nat)
    by (vm_compute; lia).
  split; [exact H|].
  destruct (proj1 (proj2 (cover_title_placement Sample.int_times
                            (Sample.template 3) SampleContent.cover
                            (Sample.record 1))) H)
    as (t & s & _ & _ & _ & _ & _ & Hlen & _).
  exact Hlen.
Defined.

(** ** The injector: a content slide and its picture *)

(** X19. A content slide after injection. Its shapes are kept, and the
    title box and the text box are added after them, at the left
    margin; the title box spans the slide between the margins and
    holds the title; the text box starts below it. Each bullet is set
    in Arial with the bullet character, at 17 points when the slide
    shows at most 4 bullets, 15 at most 6, and 12 otherwise. A record
    without speaker notes leaves the notes of the slide as they are.
    With speaker notes the slide has a notes slide afterwards, made if
    need be; its text frame holds the speaker notes when the notes can
    take a text, and when they cannot (the notes slide, or the notes
    master for a new one, has no notes placeholder) the failure is
    swallowed and the notes slide stays without a text frame. Without
    an image prompt, or with the image source "none", the image
    service is not asked, and the text box takes the width between the
    margins; otherwise the text box takes the left column and the
    picture, if the service gives one, is the only other shape added,
    its box ending at or before the right margin. *)
Theorem content_slide_layout
    (int_times : Z -> Z -> Z)
    (_add_image_strict :
       Presentation -> Slide -> string -> string -> Z -> Z -> Z -> Z -> option Shape)
    (prs : Presentation) (slide : Slide) (content : SlideContent)
    (image_source : string) :
  let filled :=
    SlidePopulator._add_content_slide int_times _add_image_strict prs slide
      content image_source in
  let margin := SlidePopulator.Inches_0_7 in
  let usable_width := slide_width prs - 2 * margin in
  let content_top :=
    SlidePopulator.Inches_0_9 + SlidePopulator.Inches_0_7
    + SlidePopulator.Inches_0_2 in
  let available_height :=
    slide_height prs - content_top - SlidePopulator.Inches_0_5 in
  let shown := length (SlidePopulator.limit_bullets (bullet_points content)) in
  (speaker_notes content = EmptyString → notes filled = notes slide) ∧
  (speaker_notes content ≠ EmptyString →
   notes filled
   = NotesSlide (if takes_notes (notes slide)
                 then Some (speaker_notes content) else None)) ∧
  ∃ title_frame text_width text_frame picture,
    let title_box :=
      AutoShape margin SlidePopulator.Inches_0_9 usable_width
        SlidePopulator.Inches_0_7 title_frame in
    let text_box :=
      AutoShape margin content_top text_width available_height text_frame in
    shapes filled = shapes slide ++ [title_box; text_box] ++ option_list picture ∧
    frame_text title_frame = title content ∧
    (bullet_points content ≠ [] →
     Forall (fun p => font_size p = Some (bullet_font_size shown) ∧
                      font_name p = Some "Arial"%string ∧
                      p_bullet p = Some ("Arial", "•")%string)
       (paragraphs text_frame)) ∧
    (wants_image content image_source = false →
     picture = None ∧ text_width = usable_width) ∧
    (wants_image content image_source = true →
     ∃ image_left image_width,
       picture
       = _add_image_strict prs
           (mkSlide (shapes slide ++ [title_box; text_box]) (notes slide))
           (default EmptyString (image_concept content)) image_source
           image_left content_top image_width available_height ∧
       text_width = int_times usable_width 50 ∧
       image_left = margin + text_width + int_times usable_width 5 ∧
       image_left + image_width ≤ slide_width prs - margin).
Proof.
  intros filled margin usable_width content_top available_height shown.
  subst filled shown. unfold SlidePopulator._add_content_slide.
  fold (wants_image content image_source).
  set (shown := length (SlidePopulator.limit_bullets (bullet_points content))).
  assert (Htitle : ∀ word_wrap margin_bottom (f : Paragraph → Paragraph),
            (∀ p, p_text (f p) = p_text p) →
            frame_text
              (SlidePopulator.update_first_paragraph f
                 (mkTextFrame
                    (paragraphs (SlidePopulator.set_frame_text (title content)
                                   SlidePopulator.new_text_frame))
                    word_wrap None None None None margin_bottom))
            = title content).
  { intros ww mb f Hf. unfold SlidePopulator.update_first_paragraph, frame_text.
    cbn [paragraphs SlidePopulator.set_frame_text].
    rewrite <- (join_split_lines (title content)) at 2.
    destruct (Py.split_lines (title content)) as [|line lines]; [reflexivity|].
    cbn [fmap list_fmap SlidePopulator.set_paragraphs paragraphs].
    rewrite Hf. cbn [p_text]. f_equal. f_equal.
    rewrite <- list_fmap_compose. rewrite <- (list_fmap_id lines) at 2.
    apply list_fmap_ext. reflexivity. }
  assert (Htier :
    (if (shown <=? 4)%nat then (17, 9, 10)
     else if (shown <=? 6)%nat then (15, 7, 8) else (12, 4, 6))
    = (bullet_font_size shown,
       if (shown <=? 4)%nat then 9 else if (shown <=? 6)%nat then 7 else 4,
       if (shown <=? 4)%nat then 10 else if (shown <=? 6)%nat then 8 else 6)).
  { unfold bullet_font_size. destruct (shown <=? 4)%nat; [reflexivity|].
    destruct (shown <=? 6)%nat; reflexivity. }
  rewrite Htier. clear Htier.
  set (before := if (shown <=? 4)%nat then 9 else _).
  set (after := if (shown <=? 4)%nat then 10 else _).
  match goal with
  | |- context [SlidePopulator.set_paragraphs (SlidePopulator.add_bullets ?a ?b ?c ?l ?ps) ?f] =>
      set (tf := SlidePopulator.set_paragraphs (SlidePopulator.add_bullets a b c l ps) f)
  end.
  assert (Hfont : bullet_points content ≠ [] →
            Forall (fun p => font_size p = Some (bullet_font_size shown) ∧
                             font_name p = Some "Arial"%string ∧
                             p_bullet p = Some ("Arial", "•")%string)
              (paragraphs tf)).
  { intros Hne. subst tf.
    cbn [paragraphs SlidePopulator.set_paragraphs SlidePopulator.new_text_frame].
    rewrite add_bullets_new_frame.
    destruct (SlidePopulator.limit_bullets (bullet_points content)) as [|b bs] eqn:E.
    - exfalso. unfold SlidePopulator.limit_bullets in E.
      destruct (bullet_points content) as [|b0 bs0]; [congruence|].
      destruct (7 <? length (b0 :: bs0))%nat; discriminate.
    - apply Forall_fmap, Forall_forall. intros bullet _. simpl.
      repeat split. }
  clearbody tf.
  assert (Hnotes : ∀ l l' : list Shape,
            let written :=
              match speaker_notes content with
              | EmptyString => mkSlide l (notes slide)
              | speaker_notes =>
                  mkSlide l' (SlidePopulator.write_notes speaker_notes (notes slide))
              end in
            (speaker_notes content = EmptyString → notes written = notes slide) ∧
            (speaker_notes content ≠ EmptyString →
             notes written
             = NotesSlide (if takes_notes (notes slide)
                           then Some (speaker_notes content) else None))).
  { intros l l' written. subst written.
    destruct (speaker_notes content) as [|c text];
      (split; [intros H | intros H]); try reflexivity; try congruence.
    cbn [notes]. unfold SlidePopulator.write_notes, takes_notes.
    destruct (notes slide) as [[|]|[tf0|]]; reflexivity. }
  destruct (wants_image content image_source) eqn:Hwants.
  - set (text_width := int_times usable_width 50).
    set (image_left := margin + text_width + int_times usable_width 5).
    set (image_width :=
           if slide_width prs - margin <? image_left + int_times usable_width 45
           then slide_width prs - margin - image_left
           else int_times usable_width 45).
    assert (Hright : image_left + image_width ≤ slide_width prs - margin).
    { subst image_width.
      destruct (Z.ltb_spec (slide_width prs - margin)
                  (image_left + int_times usable_width 45)); lia. }
    match goal with
    | |- context [_add_image_strict ?a ?b ?c ?d ?e ?f ?g ?h] =>
        destruct (_add_image_strict a b c d e f g h) as [picture|] eqn:Himage
    end.
    + split; [apply (Hnotes _ _)|]. split; [apply (Hnotes _ _)|].
      eexists _, text_width, tf, (Some picture). cbv zeta.
      split; [destruct (speaker_notes content); cbn [shapes option_list];
              rewrite <- ?app_assoc; reflexivity|].
      split; [apply Htitle; reflexivity|]. split; [exact Hfont|].
      split; [discriminate|]. intros _. exists image_left, image_width.
      split; [symmetry; exact Himage|].
      split; [reflexivity|]. split; [reflexivity | exact Hright].
    + split; [apply (Hnotes _ _)|]. split; [apply (Hnotes _ _)|].
      eexists _, text_width, tf, None. cbv zeta.
      split; [destruct (speaker_notes content); cbn [shapes option_list];
              rewrite ?app_nil_r; reflexivity|].
      split; [apply Htitle; reflexivity|]. split; [exact Hfont|].
      split; [discriminate|]. intros _. exists image_left, image_width.
      split; [symmetry; exact Himage|].
      split; [reflexivity|]. split; [reflexivity | exact Hright].
  - split; [apply (Hnotes _ _)|]. split; [apply (Hnotes _ _)|].
    eexists _, usable_width, tf, None. cbv zeta.
    split.
    { destruct (speaker_notes content); cbn [shapes option_list];
        rewrite ?app_nil_r; reflexivity. }
    split; [apply Htitle; reflexivity|]. split; [exact Hfont|].
    split; [intros _; split; reflexivity | discriminate].
Qed.

Lemma content_slide_layout_witness :
  wants_image SampleContent.illustrated "pexels" = true ∧
  (length (shapes (SlidePopulator._add_content_slide Sample.int_times
                     SampleImages._add_image_strict (Sample.template 3)
                     (Sample.slide 2) SampleContent.illustrated "pexels"))
   ≤ length (shapes (Sample.slide 2)) + 3)%nat.
Proof.
  assert (H : wants_image SampleContent.illustrated "pexels" = true)
    by (vm_compute; reflexivity).
  split; [exact H|].
  destruct (proj2 (proj2 (content_slide_layout Sample.int_times
                            SampleImages._add_image_strict (Sample.template 3)
                            (Sample.slide 2) SampleContent.illustrated "pexels")))
    as (title_frame & text_width & text_frame & picture & Hshapes & _ & _ & _ & Himage).
  destruct (Himage H) as (image_left & image_width & _).
  cbv zeta in Hshapes. rewrite Hshapes, !length_app.
  destruct picture; simpl; lia.
Defined.

(** A notes slide without a notes placeholder keeps the speaker notes
    out: the assignment fails and the failure is swallowed. *)
Example notes_without_placeholder :
  notes (SlidePopulator._add_content_slide Sample.int_times Sample.no_image
           (Sample.template 3) (mkSlide [] (NotesSlide None)) (Sample.record 2)
           "none")
  = NotesSlide None ∧
  notes (SlidePopulator._add_content_slide Sample.int_times Sample.no_image
           (Sample.template 3) (mkSlide [] (NoNotesSlide true)) (Sample.record 2)
           "none")
  = NotesSlide (Some "Notes"%string).
Proof. split; reflexivity. Qed.

(** ** The image service *)

Section Images.
Variable pexels_search : string -> Z -> option (list string).
Variable image_create : string -> option string.
Variable draws : nat -> nat.
Variable download_image : string -> bool.
Variable fitted_size : string -> Presentation -> Z -> Z -> Z -> Z -> option (Z * Z).

Local Abbreviation _add_image_strict :=
  (ImageService._add_image_strict pexels_search image_create draws
     download_image fitted_size).

Lemma get_stock_image_pexels create self prompt :
  ImageService.get_stock_image pexels_search create draws self prompt "pexels"
  = ImageService._get_pexels_image pexels_search draws self prompt.
Proof. reflexivity. Qed.

Lemma add_image_strict_source self prs slide prompt source source'
    left top max_width max_height :
  _add_image_strict self prs slide prompt source left top max_width max_height
  = _add_image_strict self prs slide prompt source' left top max_width max_height.
Proof. reflexivity. Qed.

(** X20. The picture of a content slide. A picture that
    [_add_image_strict] adds is placed at the corner asked for and lies
    within the slide, whatever size the fitting computes; its image was
    found by the photo search and downloaded. Without a key for the
    photo search no picture is ever added. The image source asked for
    is not passed on to the image service, which is asked for a stock
    photo: the picture is the same whatever the source, the key of the
    image generator and what the generator would make. *)
Theorem picture_within_slide self prs slide prompt source left top max_width
    max_height :
  (∀ picture,
     _add_image_strict self prs slide prompt source left top max_width max_height
     = Some picture →
     ∃ width height image_url,
       picture = Picture left top width height image_url ∧
       0 ≤ left ∧ 0 ≤ top ∧
       left + width ≤ slide_width prs ∧ top + height ≤ slide_height prs ∧
       ImageService._get_pexels_image pexels_search draws self prompt
       = Some image_url ∧
       image_url ≠ EmptyString ∧
       download_image image_url = true ∧
       fitted_size image_url prs left top max_width max_height
       = Some (width, height)) ∧
  (ImageService.pexels_api_key self = None ∨
   ImageService.pexels_api_key self = Some EmptyString →
   _add_image_strict self prs slide prompt source left top max_width max_height
   = None) ∧
  (∀ source' create' key',
     ImageService._add_image_strict pexels_search create' draws download_image
       fitted_size
       (ImageService.mkService (ImageService.pexels_api_key self) key')
       prs slide prompt source' left top max_width max_height
     = _add_image_strict self prs slide prompt source left top max_width
         max_height).
Proof.
  split; [|split].
  - intros picture. unfold ImageService._add_image_strict.
    rewrite get_stock_image_pexels.
    destruct (ImageService._get_pexels_image pexels_search draws self prompt)
      as [[|c url]|]; try discriminate.
    destruct (download_image (String c url)) eqn:Hdown; [|discriminate].
    destruct (fitted_size (String c url) prs left top max_width max_height)
      as [[width height]|] eqn:Hsize; [|discriminate].
    destruct (Z.ltb_spec left 0); [discriminate|].
    destruct (Z.ltb_spec top 0); [discriminate|].
    destruct (Z.ltb_spec (slide_width prs) (left + width)); [discriminate|].
    destruct (Z.ltb_spec (slide_height prs) (top + height)); [discriminate|].
    cbn [orb]. intros Hsome. injection Hsome as <-.
    exists width, height, (String c url). repeat split; try assumption.
    discriminate.
  - intros Hkey. unfold ImageService._add_image_strict.
    rewrite get_stock_image_pexels. unfold ImageService._get_pexels_image.
    destruct Hkey as [-> | ->]; reflexivity.
  - intros source' create' key'. unfold ImageService._add_image_strict.
    rewrite !get_stock_image_pexels. unfold ImageService._get_pexels_image.
    reflexivity.
Qed.

End Images.

Lemma picture_within_slide_witness :
  SampleImages._add_image_strict (Sample.template 3) (Sample.slide 2) "a rooster"
    "none" 10 10 100 100
  = Some (Picture 10 10 100 100 "https://images.example/large.jpg") ∧
  ∃ width height image_url,
    Picture 10 10 100 100 "https://images.example/large.jpg"
    = Picture 10 10 width height image_url ∧
    0 ≤ 10 ∧ 0 ≤ 10 ∧
    10 + width ≤ slide_width (Sample.template 3) ∧
    10 + height ≤ slide_height (Sample.template 3) ∧
    ImageService._get_pexels_image SampleImages.pexels_search SampleImages.draws
      SampleImages.service "a rooster"
    = Some image_url ∧
    image_url ≠ EmptyString ∧
    SampleImages.download_image image_url = true ∧
    SampleImages.fitted_size image_url (Sample.template 3) 10 10 100 100
    = Some (width, height).
Proof.
  assert (H : SampleImages._add_image_strict (Sample.template 3) (Sample.slide 2)
                "a rooster" "none" 10 10 100 100
              = Some (Picture 10 10 100 100 "https://images.example/large.jpg"))
    by (vm_compute; reflexivity).
  split; [exact H|].
  exact (proj1 (picture_within_slide SampleImages.pexels_search
                  SampleImages.image_create SampleImages.draws
                  SampleImages.download_image SampleImages.fitted_size
                  SampleImages.service (Sample.template 3) (Sample.slide 2)
                  "a rooster" "none" 10 10 100 100)
           (Picture 10 10 100 100 "https://images.example/large.jpg") H).
Defined.

(** ** The image source of the request *)

Lemma mapM_result_ext {A B} (f g : A → result B) (l : list A) :
  (∀ x, f x = g x) → mapM f l = mapM g l.
Proof.
  intros H. induction l as [|x l IH]; [reflexivity|].
  cbn [mapM]. rewrite H, IH. reflexivity.
Qed.

Section ImageSource.
Variable int_times : Z -> Z -> Z.
Variable _add_image_strict :
  Presentation -> Slide -> string -> string -> Z -> Z -> Z -> Z -> option Shape.
Hypothesis source_not_read :
  ∀ prs slide prompt source source' left top max_width max_height,
    _add_image_strict prs slide prompt source left top max_width max_height
    = _add_image_strict prs slide prompt source' left top max_width max_height.

Lemma add_content_slide_source prs slide content source source' :
  String.eqb source "none" = String.eqb source' "none" →
  SlidePopulator._add_content_slide int_times _add_image_strict prs slide content
    source
  = SlidePopulator._add_content_slide int_times _add_image_strict prs slide content
      source'.
Proof.
  intros Hnone. unfold SlidePopulator._add_content_slide. cbv zeta.
  rewrite Hnone.
  destruct (match image_concept content with
            | Some (String _ _) => negb (String.eqb source' "none")
            | _ => false
            end); [|reflexivity].
  cbv beta iota zeta.
  destruct (if (length (SlidePopulator.limit_bullets (bullet_points content)) <=? 4)%nat
            then (17, 9, 10)
            else if (length (SlidePopulator.limit_bullets (bullet_points content))
                     <=? 6)%nat
                 then (15, 7, 8) else (12, 4, 6)) as [[size before] after].
  match goal with
  | |- context [_add_image_strict ?a ?b ?c source ?e ?f ?g ?h] =>
      rewrite (source_not_read a b c source source' e f g h)
  end.
  reflexivity.
Qed.

Lemma populate_slides_source prs count source source' slides_content idx
    (l : list Slide) :
  String.eqb source "none" = String.eqb source' "none" →
  SlidePopulator.populate_slides int_times _add_image_strict prs count source
    slides_content idx l
  = SlidePopulator.populate_slides int_times _add_image_strict prs count source'
      slides_content idx l.
Proof.
  intros Hnone. revert idx l.
  induction slides_content as [|content rest IH]; intros idx l; [reflexivity|].
  cbn [SlidePopulator.populate_slides].
  destruct (Py.len l <=? Z.of_nat idx); [reflexivity|].
  destruct (l !! idx) as [slide|]; [|reflexivity].
  destruct (idx =? 0)%nat; [apply IH|].
  destruct (Z.of_nat idx =? count - 1); [apply IH|].
  rewrite (add_content_slide_source prs slide content source source' Hnone).
  apply IH.
Qed.

End ImageSource.

(** X21. The option [use_ai_images] of a request has no effect on the
    presentations. The handler turns it into the image source
    "ai_generated" or "pexels"; the injector only compares the source
    with "none", and the image service is asked for a stock photo
    whatever the source. So, with the image service of the code, the
    handler returns the same result with and without the option. *)
Theorem use_ai_images_no_effect
    (pexels_search : string -> Z -> option (list string))
    (image_create : string -> option string) (draws : nat -> nat)
    (download_image : string -> bool)
    (fitted_size : string -> Presentation -> Z -> Z -> Z -> Z -> option (Z * Z))
    (self : ImageService.Service)
    (model : option TemplateAnalyzer.GenerativeModel)
    (generate_presentation_content :
       Z -> Z -> option TemplateConfig -> list SlideContent)
    (save_and_reopen : Slide -> Slide) (int_times : Z -> Z -> Z)
    (template : Presentation) (template_instructions : option string)
    (num_slides num_days : Z) :
  let handler :=
    Main.generate_presentation model generate_presentation_content
      save_and_reopen int_times
      (ImageService._add_image_strict pexels_search image_create draws
         download_image fitted_size self)
      template template_instructions num_slides num_days in
  handler true = handler false ∧
  ∀ presentation slides_content,
    SlidePopulator.populate_presentation int_times
      (ImageService._add_image_strict pexels_search image_create draws
         download_image fitted_size self)
      presentation slides_content "ai_generated"
    = SlidePopulator.populate_presentation int_times
        (ImageService._add_image_strict pexels_search image_create draws
           download_image fitted_size self)
        presentation slides_content "pexels".
Proof.
  intros handler.
  assert (Hpopulate : ∀ presentation slides_content,
    SlidePopulator.populate_presentation int_times
      (ImageService._add_image_strict pexels_search image_create draws
         download_image fitted_size self)
      presentation slides_content "ai_generated"
    = SlidePopulator.populate_presentation int_times
        (ImageService._add_image_strict pexels_search image_create draws
           download_image fitted_size self)
        presentation slides_content "pexels").
  { intros presentation slides_content.
    unfold SlidePopulator.populate_presentation. f_equal.
    apply populate_slides_source; [|reflexivity].
    intros. apply add_image_strict_source. }
  split; [|exact Hpopulate].
  subst handler. unfold Main.generate_presentation. f_equal.
  destruct (num_slides <? 3); [reflexivity|].
  destruct (num_days <? 1); [reflexivity|].
  apply mapM_result_ext. intros day_num. unfold Main.generate_day.
  destruct (SlideRenderer.render_presentation _ _ _ _) as [prs|e]; [|reflexivity].
  cbn [mbind result_bind]. f_equal. apply Hpopulate.
Qed.

(** ** The errors of the handler *)

Lemma mapM_result_raises {A B} (f : A → result B) (l : list A) e :
  mapM f l = Raise e → ∃ x, x ∈ l ∧ f x = Raise e.
Proof.
  induction l as [|a l IH]; [discriminate|]. cbn [mapM].
  destruct (f a) as [b|e'] eqn:Ha.
  - cbn [mbind result_bind]. destruct (mapM f l) as [ys|e'']; [discriminate|].
    cbn [mbind result_bind]. intros H. injection H as <-.
    destruct (IH eq_refl) as (x & Hx & Hfx). exists x. split; [right|]; assumption.
  - cbn [mbind result_bind]. intros H. injection H as <-.
    exists a. split; [left | exact Ha].
Qed.

Lemma render_presentation_raises save_and_reopen template slides_content config e :
  SlideRenderer.render_presentation save_and_reopen template slides_content config
  = Raise e →
  e = ValueError "Template must have at least 3 slides" ∨ e = IndexError.
Proof.
  rewrite render_presentation_assemble.
  destruct (Z.lt_ge_cases (Py.len (slides template)) 3) as [Hsmall | Hlen].
  - unfold SlideRenderer.assemble. holds (Py.len (slides template) <? 3).
    cbn [mbind result_bind]. intros H. injection H as <-. left. reflexivity.
  - destruct (SlideRenderer.use_config (Py.len (slides template)) config)
      as [unique duplicate] eqn:Hcfg.
    rewrite (assemble_mapM (slides template) (Py.len slides_content) config
               unique duplicate Hlen Hcfg).
    destruct (mapM _ _) as [output|e'] eqn:Hm; [discriminate|].
    cbn [mbind result_bind]. intros H. injection H as <-. right.
    apply mapM_result_raises in Hm as (k & _ & Hk).
    eapply index_raises. exact Hk.
Qed.



(** ** The injector: which slide takes which record *)

(** X23. The injector pairs the slides and the records by position. The
    first slide takes the first record as a cover, even when it is the
    only slide; a slide for which there is no record is left as it is;
    the size of the presentation and the number of its slides are
    kept. *)
Theorem populate_by_position
    (int_times : Z -> Z -> Z)
    (_add_image_strict :
       Presentation -> Slide -> string -> string -> Z -> Z -> Z -> Z -> option Shape)
    (presentation : Presentation) (slides_content : list SlideContent)
    (image_source : string) :
  let populated :=
    SlidePopulator.populate_presentation int_times _add_image_strict presentation
      slides_content image_source in
  slide_width populated = slide_width presentation ∧
  slide_height populated = slide_height presentation ∧
  length (slides populated) = length (slides presentation) ∧
  (∀ cover content,
     slides presentation !! 0%nat = Some cover →
     slides_content !! 0%nat = Some content →
     slides populated !! 0%nat
     = Some (SlidePopulator._add_title_slide_content_smart int_times presentation
               cover content)) ∧
  (∀ j, (length slides_content ≤ j)%nat →
        slides populated !! j = slides presentation !! j) ∧
  (∀ j slide content,
     slides presentation !! j = Some slide →
     slides_content !! j = Some content →
     slides populated !! j
     = Some (injected int_times _add_image_strict presentation
               (Py.len (slides presentation)) image_source j slide content)).
Proof.
  intros populated. subst populated.
  unfold SlidePopulator.populate_presentation.
  cbn [slides slide_width slide_height].
  assert (Hat : ∀ j slide content,
            slides presentation !! j = Some slide →
            slides_content !! j = Some content →
            SlidePopulator.populate_slides int_times _add_image_strict presentation
              (Py.len (slides presentation)) image_source slides_content 0
              (slides presentation) !! j
            = Some (injected int_times _add_image_strict presentation
                      (Py.len (slides presentation)) image_source j slide content)).
  { intros j slide content Hslide Hcontent. rewrite populate_slides_lookup.
    rewrite decide_True by (apply lookup_lt_Some in Hcontent; lia).
    rewrite Hslide, Nat.sub_0_r, Hcontent. reflexivity. }
  split; [reflexivity|]. split; [reflexivity|].
  split; [apply length_populate_slides|]. split; [|split; [|exact Hat]].
  - intros cover content Hcover Hcontent.
    rewrite (Hat 0%nat cover content Hcover Hcontent). reflexivity.
  - intros j Hj. rewrite populate_slides_lookup.
    rewrite decide_False by lia. reflexivity.
Qed.

Lemma populate_by_position_witness :
  slides (Sample.template 3) !! 0%nat = Some (Sample.slide 1) ∧
  Sample.records 1 !! 0%nat = Some (Sample.record 1) ∧
  slides (SlidePopulator.populate_presentation Sample.int_times Sample.no_image
            (Sample.template 3) (Sample.records 1) "pexels") !! 0%nat
  = Some (SlidePopulator._add_title_slide_content_smart Sample.int_times
            (Sample.template 3) (Sample.slide 1) (Sample.record 1)).
Proof.
  assert (H1 : slides (Sample.template 3) !! 0%nat = Some (Sample.slide 1))
    by (vm_compute; reflexivity).
  assert (H2 : Sample.records 1 !! 0%nat = Some (Sample.record 1))
    by (vm_compute; reflexivity).
  split; [exact H1|]. split; [exact H2|].
  exact (proj1 (proj2 (proj2 (proj2 (populate_by_position Sample.int_times
                                       Sample.no_image (Sample.template 3)
                                       (Sample.records 1) "pexels"))))
           (Sample.slide 1) (Sample.record 1) H1 H2).
Defined.

(** ** The text of the supporting PDF *)

Lemma length_lstrip s :
  (String.length (PDFExtractor.lstrip s) ≤ String.length s)%nat.
Proof.
  induction s as [|c s IH]; [reflexivity|]. cbn [PDFExtractor.lstrip].
  destruct (PDFExtractor.is_space c); simpl; lia.
Qed.

Lemma length_rev s acc :
  String.length (PDFExtractor.rev s acc)
  = (String.length s + String.length acc)%nat.
Proof.
  revert acc. induction s as [|c s IH]; intros acc; [reflexivity|].
  cbn [PDFExtractor.rev]. rewrite IH. simpl. lia.
Qed.

Lemma length_strip s :
  (String.length (PDFExtractor.strip s) ≤ String.length s)%nat.
Proof.
  unfold PDFExtractor.strip. rewrite length_rev.
  pose proof (length_lstrip (PDFExtractor.rev (PDFExtractor.lstrip s) EmptyString)).
  rewrite length_rev in H. pose proof (length_lstrip s). simpl in *. lia.
Qed.

Lemma lstrip_head s c rest :
  PDFExtractor.lstrip s = String c rest → PDFExtractor.is_space c = false.
Proof.
  induction s as [|a s IH]; [discriminate|]. cbn [PDFExtractor.lstrip].
  destruct (PDFExtractor.is_space a) eqn:Ha; [exact IH|].
  intros H. injection H as <- <-. exact Ha.
Qed.

Lemma rev_acc s acc :
  PDFExtractor.rev s acc = String.append (PDFExtractor.rev s EmptyString) acc.
Proof.
  revert acc. induction s as [|c s IH]; intros acc; [reflexivity|].
  cbn [PDFExtractor.rev]. rewrite IH, (IH (String c EmptyString)), append_assoc.
  reflexivity.
Qed.

Lemma rev_append x y acc :
  PDFExtractor.rev (String.append x y) acc
  = PDFExtractor.rev y (PDFExtractor.rev x acc).
Proof.
  revert acc. induction x as [|c x IH]; intros acc; [reflexivity|].
  cbn [String.append PDFExtractor.rev]. apply IH.
Qed.

Lemma rev_involutive s :
  PDFExtractor.rev (PDFExtractor.rev s EmptyString) EmptyString = s.
Proof.
  induction s as [|c s IH]; [reflexivity|]. cbn [PDFExtractor.rev].
  rewrite (rev_acc s), rev_append, IH. reflexivity.
Qed.

Lemma lstrip_suffix s : ∃ pre, s = String.append pre (PDFExtractor.lstrip s).
Proof.
  induction s as [|c s [pre IH]]; [exists EmptyString; reflexivity|].
  cbn [PDFExtractor.lstrip]. destruct (PDFExtractor.is_space c).
  - exists (String c pre). simpl. rewrite <- IH. reflexivity.
  - exists EmptyString. reflexivity.
Qed.

Lemma strip_ends s :
  (∀ c rest, PDFExtractor.strip s = String c rest →
             PDFExtractor.is_space c = false) ∧
  (∀ c rest, PDFExtractor.rev (PDFExtractor.strip s) EmptyString = String c rest →
             PDFExtractor.is_space c = false).
Proof.
  unfold PDFExtractor.strip.
  set (a := PDFExtractor.lstrip s).
  set (b := PDFExtractor.lstrip (PDFExtractor.rev a EmptyString)).
  split.
  - intros c rest Htext.
    destruct (lstrip_suffix (PDFExtractor.rev a EmptyString)) as [pre Hpre].
    fold b in Hpre.
    assert (Ha : a = String.append (PDFExtractor.rev b EmptyString)
                       (PDFExtractor.rev pre EmptyString)).
    { rewrite <- (rev_involutive a), Hpre, rev_append. apply rev_acc. }
    rewrite Htext in Ha. simpl in Ha. eapply lstrip_head. exact Ha.
  - intros c rest Hlast. rewrite rev_involutive in Hlast.
    eapply lstrip_head. exact Hlast.
Qed.

Lemma filter_filter_same {A} (P : A → Prop) `{∀ x, Decision (P x)} (l : list A) :
  filter P (filter P l) = filter P l.
Proof.
  induction l as [|x l IH]; [reflexivity|]. rewrite filter_cons.
  destruct (decide (P x)) as [Hx | Hx]; [|exact IH].
  rewrite filter_cons, decide_True by exact Hx. rewrite IH. reflexivity.
Qed.

(** X24. The text taken from the supporting PDF. When the file cannot
    be read there is no text; otherwise the text has at most 10000
    characters, whatever the size of the file, it neither starts nor
    ends with white space, and the pages without text leave no trace in
    it: the text is that of the file without them. *)
Theorem extract_text_bounded :
  PDFExtractor.extract_text None = None ∧
  (∀ pages,
     ∃ text,
       PDFExtractor.extract_text (Some pages) = Some text ∧
       Z.of_nat (String.length text) ≤ 10000) ∧
  (∀ pages,
     PDFExtractor.extract_text
       (Some (filter (fun text => String.eqb text EmptyString = false) pages))
     = PDFExtractor.extract_text (Some pages)) ∧
  (∀ pages,
     Forall (fun text => text = EmptyString) pages →
     PDFExtractor.extract_text (Some pages) = Some EmptyString) ∧
  (∀ pages text,
     PDFExtractor.extract_text (Some pages) = Some text →
     (∀ c rest, text = String c rest → PDFExtractor.is_space c = false) ∧
     (∀ c rest, PDFExtractor.rev text EmptyString = String c rest →
                PDFExtractor.is_space c = false)).
Proof.
  split; [reflexivity|]. split; [|split; [|split]].
  - intros pages. eexists. split; [reflexivity|].
    set (full_text := Py.join _ _).
    pose proof (length_strip
                  (if 10000 <? Z.of_nat (String.length full_text)
                   then Py.str_take (Z.to_nat 10000) full_text else full_text))
      as Hstrip.
    destruct (Z.ltb_spec 10000 (Z.of_nat (String.length full_text))) as [Hlong | Hshort].
    + rewrite length_str_take in Hstrip. lia.
    + lia.
  - intros pages. unfold PDFExtractor.extract_text.
    rewrite filter_filter_same. reflexivity.
  - intros pages Hall. unfold PDFExtractor.extract_text.
    replace (filter (fun text => String.eqb text EmptyString = false) pages)
      with (@nil string); [reflexivity|].
    induction Hall as [|text pages -> _ IH]; [reflexivity|].
    rewrite filter_cons, decide_False by discriminate. exact IH.
  - intros pages text H. unfold PDFExtractor.extract_text in H.
    injection H as <-. apply strip_ends.
Qed.

Lemma extract_text_bounded_witness :
  PDFExtractor.extract_text (Some ["  Proofs "; ""; "and programs  "]%string)
  = Some ("Proofs "
          ++ String (ascii_of_nat 10) (String (ascii_of_nat 10) "and programs"))%string
  ∧ ∀ c rest,
      ("Proofs "
       ++ String (ascii_of_nat 10) (String (ascii_of_nat 10) "and programs"))%string
      = String c rest →
      PDFExtractor.is_space c = false.
Proof.
  assert (H : PDFExtractor.extract_text
                (Some ["  Proofs "; ""; "and programs  "]%string)
              = Some ("Proofs "
                      ++ String (ascii_of_nat 10)
                           (String (ascii_of_nat 10) "and programs"))%string)
    by (vm_compute; reflexivity).
  split; [exact H|].
  exact (proj1 (proj2 (proj2 (proj2 (proj2 extract_text_bounded))) _ _ H)).
Defined.

(** ** The table of contents of the fallback content *)

Lemma cycle_title_not_first (j : nat) :
  (j < 8)%nat →
  ContentGenerator.cycle ContentGenerator.title_variations (Z.of_nat j + 1)
  ≠ "Introduction and Overview"%string.
Proof.
  intros Hj. do 8 (destruct j as [|j]; [vm_compute; discriminate|]). lia.
Qed.

(** X25. The table of contents that the fallback content gives to
    slide 2 when the plan lists it as unique. It has one entry for each
    of the slides 3, 4, ... before the last, at most 8. Its entries are
    numbered from 2: the entry numbered k carries the title of the k-th
    content record, so the first content record, "Introduction and
    Overview", is never listed; and where the k-th content record does
    not exist, the record in its place is the closing one, "Thank You":
    with 4 to 11 slides this is the case of the last entry. *)
Theorem table_of_contents_shifted topic num_slides template_config :
  3 ≤ num_slides →
  2 ∈ fst (SlideRenderer.use_config num_slides template_config) →
  let slides :=
    ContentGenerator._generate_fallback_content topic num_slides template_config in
  let entries := ContentGenerator.toc_items num_slides in
  (∃ toc, slides !! 1%nat = Some toc ∧ bullet_points toc = entries) ∧
  Py.len entries = Z.min 8 (num_slides - 3) ∧
  (∀ first, 4 ≤ num_slides → slides !! 2%nat = Some first →
            title first = "Introduction and Overview"%string) ∧
  (∀ (j : nat) entry,
     entries !! j = Some entry →
     let k := Z.of_nat j + 2 in
     let named :=
       ContentGenerator.cycle ContentGenerator.title_variations (k - 1) in
     entry = String.append (Py.str_int k) (String.append ". " named) ∧
     named ≠ "Introduction and Overview"%string ∧
     ∃ record,
       slides !! (j + 3)%nat = Some record ∧
       (k < num_slides - 2 → title record = named) ∧
       (k = num_slides - 2 → title record = "Thank You"%string)) ∧
  (4 ≤ num_slides ≤ 11 →
   ∃ entry closing,
     last entries = Some entry ∧ last slides = Some closing ∧
     slides !! Z.to_nat (num_slides - 1) = Some closing ∧
     entry = String.append (Py.str_int (num_slides - 2))
               (String.append ". "
                  (ContentGenerator.cycle ContentGenerator.title_variations
                     (num_slides - 3))) ∧
     title closing = "Thank You"%string).
Proof.
  intros Hn Htoc slides entries.
  assert (Hunique :
    match template_config with
    | Some c => if config_truthy template_config then get (unique_slides c) [] else []
    | None => []
    end = fst (SlideRenderer.use_config num_slides template_config)).
  { unfold SlideRenderer.use_config. destruct template_config as [c|]; [|reflexivity].
    destruct (config_truthy (Some c)); reflexivity. }
  set (closing := mkSlideContent num_slides "Thank You"
                    ["Questions?"; "Discussion"; "Contact Information"]%string
                    "Thank you for your attention. Open for questions and discussion."
                    None).
  set (toc := mkSlideContent 2 "Table of Contents" entries
                "Overview of presentation structure and main topics" None).
  set (cover := mkSlideContent 1 topic ["Professional Presentation"%string]
                  (String.append "Introduction to " topic) None).
  assert (Hslides : slides
                    = cover :: toc
                        :: (ContentGenerator.content_slide topic 3
                              <$> Py.range 3 num_slides) ++ [closing]).
  { subst slides. unfold ContentGenerator._generate_fallback_content.
    rewrite Hunique, (bool_decide_eq_true_2 _ Htoc).
    rewrite <- !app_assoc. reflexivity. }
  assert (Hlen_content : length (ContentGenerator.content_slide topic 3
                                   <$> Py.range 3 num_slides)
                         = Z.to_nat (num_slides - 3)).
  { rewrite length_fmap. unfold Py.range. rewrite length_seqZ. reflexivity. }
  assert (Hcontent : ∀ i : nat,
            Z.of_nat i < num_slides - 3 →
            slides !! (i + 2)%nat
            = Some (ContentGenerator.content_slide topic 3 (3 + Z.of_nat i))).
  { intros i Hi. rewrite Hslides.
    replace (i + 2)%nat with (S (S i)) by lia. rewrite !lookup_later.
    rewrite lookup_app_l by lia. rewrite list_lookup_fmap.
    unfold Py.range. rewrite lookup_seqZ_lt by lia. reflexivity. }
  assert (Hclosing : slides !! Z.to_nat (num_slides - 1) = Some closing).
  { rewrite Hslides.
    replace (Z.to_nat (num_slides - 1)) with (S (S (Z.to_nat (num_slides - 3))))
      by lia.
    rewrite !lookup_later. apply list_lookup_middle. symmetry. exact Hlen_content. }
  assert (Hlen : Py.len entries = Z.min 8 (num_slides - 3)).
  { subst entries. unfold ContentGenerator.toc_items, Py.len.
    rewrite length_take, length_fmap. unfold Py.range. rewrite length_seqZ. lia. }
  assert (Hentry : ∀ (j : nat) entry,
            entries !! j = Some entry →
            (j < 8)%nat ∧ Z.of_nat j < num_slides - 3 ∧
            entry = String.append (Py.str_int (Z.of_nat j + 2))
                      (String.append ". "
                         (ContentGenerator.cycle ContentGenerator.title_variations
                            (Z.of_nat j + 2 - 1)))).
  { intros j entry Hj. subst entries. unfold ContentGenerator.toc_items in Hj.
    apply lookup_take_Some in Hj as [Hj Hj8].
    rewrite list_lookup_fmap in Hj. unfold Py.range in Hj.
    destruct (seqZ 3 (Z.min num_slides 12 - 3) !! j) as [i|] eqn:Hi; [|discriminate].
    apply lookup_seqZ in Hi as [-> Hi]. cbn in Hj. injection Hj as <-.
    split; [exact Hj8|]. split; [lia|].
    replace (3 + Z.of_nat j - 1) with (Z.of_nat j + 2) by lia.
    replace (3 + Z.of_nat j - 2) with (Z.of_nat j + 2 - 1) by lia. reflexivity. }
  split; [exists toc; rewrite Hslides; split; reflexivity|].
  split; [exact Hlen|]. split; [|split].
  - intros first H4 Hfirst.
    pose proof (Hcontent 0%nat) as H0. change (0 + 2)%nat with 2%nat in H0.
    rewrite H0 in Hfirst by lia. injection Hfirst as <-. reflexivity.
  - intros j entry Hj k named. subst k named.
    destruct (Hentry j entry Hj) as (Hj8 & Hjn & ->).
    split; [reflexivity|]. split.
    { replace (Z.of_nat j + 2 - 1) with (Z.of_nat j + 1) by lia.
      apply cycle_title_not_first, Hj8. }
    destruct (Z.lt_ge_cases (Z.of_nat j + 2) (num_slides - 2)) as [Hin | Hlast].
    + eexists. replace (j + 3)%nat with (S j + 2)%nat by lia.
      rewrite (Hcontent (S j)) by lia. split; [reflexivity|]. split; [|lia].
      intros _. unfold ContentGenerator.content_slide. cbn [title].
      f_equal. lia.
    + exists closing. split; [|split; [lia | reflexivity]].
      replace (j + 3)%nat with (Z.to_nat (num_slides - 1)) by lia. exact Hclosing.
  - intros Hrange.
    destruct (lookup_lt_is_Some_2 entries (Z.to_nat (num_slides - 4)))
      as [entry Hlast]; [unfold Py.len in Hlen; lia|].
    exists entry, closing.
    split; [rewrite last_lookup, <- Hlast; f_equal; unfold Py.len in Hlen; lia|].
    split; [rewrite Hslides, !app_comm_cons; apply last_snoc|].
    split; [exact Hclosing|]. split; [|reflexivity].
    destruct (Hentry _ _ Hlast) as (_ & _ & ->).
    replace (Z.of_nat (Z.to_nat (num_slides - 4)) + 2) with (num_slides - 2) by lia.
    replace (num_slides - 2 - 1) with (num_slides - 3) by lia. reflexivity.
Qed.

Lemma table_of_contents_shifted_witness :
  3 ≤ 5 ∧
  2 ∈ fst (SlideRenderer.use_config 5
             (Some (TemplateAnalyzer._get_default_strategy 6 5))) ∧
  Py.len (ContentGenerator.toc_items 5) = Z.min 8 (5 - 3).
Proof.
  assert (H1 : 3 ≤ 5) by lia.
  assert (H2 : 2 ∈ fst (SlideRenderer.use_config 5
                          (Some (TemplateAnalyzer._get_default_strategy 6 5))))
    by (vm_compute; left).
  split; [exact H1|]. split; [exact H2|].
  exact (proj1 (proj2 (table_of_contents_shifted "Rocq" 5
                         (Some (TemplateAnalyzer._get_default_strategy 6 5))
                         H1 H2))).
Defined.



(** ** The reference materials of the prompt *)

(** X26. The reference materials that the content generator adds to its
    prompt. They are empty exactly when the request has neither a
    website address nor a text from a PDF (none, or an empty one). Of a
    PDF text of more than 3000 characters only the first 3000 and the
    length are used: two such texts of the same length that agree on
    their first 3000 characters give the same materials. *)
Theorem reference_context_truncated :
  (∀ website_url pdf_content,
     ContentGenerator._build_reference_context website_url pdf_content
     = EmptyString ↔
     (website_url = None ∨ website_url = Some EmptyString) ∧
     (pdf_content = None ∨ pdf_content = Some EmptyString)) ∧
  (∀ website_url pdf pdf',
     (3000 < String.length pdf)%nat →
     String.length pdf' = String.length pdf →
     Py.str_take 3000 pdf' = Py.str_take 3000 pdf →
     ContentGenerator._build_reference_context website_url (Some pdf')
     = ContentGenerator._build_reference_context website_url (Some pdf)).
Proof.
  split.
  - intros website_url pdf_content.
    unfold ContentGenerator._build_reference_context.
    destruct website_url as [[|c url]|], pdf_content as [[|d pdf]|];
      try (split; [intros _; split; [first [left; reflexivity | right; reflexivity]
                                    | first [left; reflexivity | right; reflexivity]]
                  | reflexivity]);
      try destruct (3000 <? String.length (String d pdf))%nat;
      (split; [intros H; cbn in H; discriminate H
              | intros [[H | H] [H' | H']]; discriminate]).
  - intros website_url pdf pdf' Hlong Hlen Htake.
    unfold ContentGenerator._build_reference_context.
    destruct pdf as [|d pdf]; [simpl in Hlong; lia|].
    destruct pdf' as [|d' pdf']; [simpl in Hlen; discriminate|].
    rewrite Hlen.
    replace (3000 <? String.length (String d pdf))%nat with true
      by (symmetry; apply Nat.ltb_lt; exact Hlong).
    rewrite Htake. reflexivity.
Qed.

Lemma reference_context_truncated_witness :
  ContentGenerator._build_reference_context None (Some EmptyString) = EmptyString.
Proof.
  exact (proj2 (proj1 reference_context_truncated None (Some EmptyString))
           (conj (or_introl eq_refl) (or_intror eq_refl))).
Defined.

(** ** The part name of a new slide *)

Section PartNameFound.
Import SlideDuplicator.
Variable draws : Random.
Variable existing_rels : list string.
Variable sldIdLst_len : Z.

Local Abbreviation name := (candidate draws sldIdLst_len).
Local Abbreviation taken := (fun j => name_in (name j) existing_rels).

(** What the loop returns, entered with the [j]-th candidate, is the
    first free candidate from [j] on. *)
Lemma retry_loop_found fuel j found calls :
  retry_loop fuel draws existing_rels sldIdLst_len (name j) (2 * j)
  = Some (found, calls) →
  ∃ k, (j ≤ k)%nat ∧ (k - j < fuel)%nat ∧ found = name k ∧ calls = (2 * k)%nat ∧
       taken k = false ∧ ∀ i, (j ≤ i < k)%nat → taken i = true.
Proof.
  revert j. induction fuel as [|fuel IH]; intros j; [discriminate|].
  cbn [retry_loop]. destruct (taken j) eqn:Hj.
  - destruct (random_part draws (2 * j)) as [part calls'] eqn:Hpart.
    assert (Hcalls : calls' = (2 * S j)%nat).
    { pose proof (random_part_calls draws (2 * j)) as H. rewrite Hpart in H.
      simpl in H. lia. }
    assert (Hname : partname part (sldIdLst_len + 1) = name (S j)).
    { unfold candidate. rewrite Hpart. reflexivity. }
    rewrite Hname, Hcalls. intros H.
    destruct (IH (S j) H) as (k & Hle & Hfuel & -> & -> & Hfree & Htaken).
    exists k. split; [lia|]. split; [lia|]. split; [reflexivity|].
    split; [reflexivity|]. split; [exact Hfree|].
    intros i Hi. destruct (decide (i = j)) as [-> | Hne]; [exact Hj|].
    apply Htaken. lia.
  - intros H. injection H as <- <-. exists j.
    split; [lia|]. split; [lia|]. split; [reflexivity|].
    split; [reflexivity|]. split; [exact Hj|]. intros i Hi. lia.
Qed.

End PartNameFound.

(** X27. Whatever [generate_slide_partname] returns is the first
    candidate name that is the target of no relationship of the
    presentation: the predictable name "/ppt/slides/slide(n+1).xml"
    when it is free, otherwise the first free name made with two
    letters drawn from the ASCII letters, every candidate before it
    being taken. The answer does not depend on how long the loop is
    allowed to run beyond the tests it needs. *)
Theorem generate_slide_partname_first_free fuel draws existing_rels sldIdLst_len
    found calls :
  SlideDuplicator.generate_slide_partname fuel draws existing_rels sldIdLst_len
  = Some (found, calls) →
  ∃ k,
    (k < fuel)%nat ∧ found = candidate draws sldIdLst_len k ∧
    calls = (2 * k)%nat ∧
    SlideDuplicator.name_in found existing_rels = false ∧
    (∀ i, (i < k)%nat →
          SlideDuplicator.name_in (candidate draws sldIdLst_len i) existing_rels
          = true) ∧
    (k = 0%nat →
     found = SlideDuplicator.partname EmptyString (sldIdLst_len + 1)) ∧
    ((0 < k)%nat →
     ∃ c1 c2,
       c1 ∈ SlideDuplicator.ascii_letters ∧ c2 ∈ SlideDuplicator.ascii_letters ∧
       found = SlideDuplicator.partname (String c1 (String c2 EmptyString))
                 (sldIdLst_len + 1)) ∧
    (∀ fuel', (fuel ≤ fuel')%nat →
       SlideDuplicator.generate_slide_partname fuel' draws existing_rels
         sldIdLst_len
       = Some (found, calls)).
Proof.
  unfold SlideDuplicator.generate_slide_partname. intros H.
  destruct (retry_loop_found draws existing_rels sldIdLst_len fuel 0 found calls H)
    as (k & _ & Hfuel & -> & -> & Hfree & Htaken).
  exists k. split; [lia|]. split; [reflexivity|]. split; [reflexivity|].
  split; [exact Hfree|]. split; [intros i Hi; apply Htaken; lia|].
  split; [intros ->; reflexivity|]. split.
  - intros Hpos. destruct k as [|k]; [lia|].
    unfold candidate, SlideDuplicator.random_part.
    destruct (SlideDuplicator.choice draws (2 * k)) as [c1 calls1] eqn:E1.
    destruct (SlideDuplicator.choice draws calls1) as [c2 calls2] eqn:E2.
    exists c1, c2. cbn [fst].
    split; [pose proof (choice_letter draws (2 * k)) as Hc; rewrite E1 in Hc;
            exact Hc|].
    split; [pose proof (choice_letter draws calls1) as Hc; rewrite E2 in Hc;
            exact Hc|].
    reflexivity.
  - intros fuel' Hmore.
    apply (retry_loop_first_free draws existing_rels sldIdLst_len fuel' 0 k);
      try assumption; lia.
Qed.

Lemma generate_slide_partname_first_free_witness :
  SlideDuplicator.generate_slide_partname 3 (Sample.stubborn 1) Sample.two_names 3
  = Some ("/ppt/slides/slideBB4.xml"%string, 4%nat) ∧
  SlideDuplicator.name_in "/ppt/slides/slideBB4.xml" Sample.two_names = false.
Proof.
  assert (H : SlideDuplicator.generate_slide_partname 3 (Sample.stubborn 1)
                Sample.two_names 3
              = Some ("/ppt/slides/slideBB4.xml"%string, 4%nat))
    by (vm_compute; reflexivity).
  split; [exact H|].
  destruct (generate_slide_partname_first_free 3 (Sample.stubborn 1)
              Sample.two_names 3 "/ppt/slides/slideBB4.xml" 4 H)
    as (k & _ & _ & _ & Hfree & _).
  exact Hfree.
Defined.

(** ** The patterns of the planner and the case of the letters *)

Ltac opt := cbn [mbind option_bind fmap option_fmap option_map].

Ltac each_char c :=
  destruct c as [[] [] [] [] [] [] [] []]; vm_compute; try reflexivity.

Lemma lower_char_idem c : Py.lower_char (Py.lower_char c) = Py.lower_char c.
Proof. each_char c. Qed.

Lemma is_digit_lower c : Re.is_digit (Py.lower_char c) = Re.is_digit c.
Proof. each_char c. Qed.

Lemma is_space_lower c : Re.is_space (Py.lower_char c) = Re.is_space c.
Proof. each_char c. Qed.

Lemma is_word_lower c : Re.is_word (Py.lower_char c) = Re.is_word c.
Proof. each_char c. Qed.

Lemma is_sentence_end_lower c :
  Re.is_sentence_end (Py.lower_char c) = Re.is_sentence_end c.
Proof. each_char c. Qed.

Lemma lower_digit c : Re.is_digit c = true → Py.lower_char c = c.
Proof. each_char c; discriminate. Qed.

Lemma length_lower s : String.length (Py.lower s) = String.length s.
Proof. induction s as [|c s IH]; simpl; congruence. Qed.

Lemma literal_lower lit s :
  Re.literal lit (Py.lower s) = Py.lower <$> Re.literal lit s.
Proof.
  revert s. induction lit as [|a lit IH]; intros s; [reflexivity|].
  destruct s as [|c s]; [reflexivity|].
  cbn [Py.lower Re.literal]. rewrite lower_char_idem.
  destruct (Ascii.eqb a (Py.lower_char c)); [apply IH | reflexivity].
Qed.

Lemma span_lower f s :
  (∀ c, f (Py.lower_char c) = f c) →
  Re.span f (Py.lower s)
  = (Py.lower (fst (Re.span f s)), Py.lower (snd (Re.span f s))).
Proof.
  intros Hf. induction s as [|c s IH]; [reflexivity|].
  cbn [Py.lower Re.span]. rewrite Hf. destruct (f c); [|reflexivity].
  rewrite IH. destruct (Re.span f s) as [taken after]. reflexivity.
Qed.

Lemma span_digits_lower s :
  Py.lower (fst (Re.span Re.is_digit s)) = fst (Re.span Re.is_digit s).
Proof.
  induction s as [|c s IH]; [reflexivity|]. cbn [Re.span].
  destruct (Re.is_digit c) eqn:Hc; [|reflexivity].
  destruct (Re.span Re.is_digit s) as [taken after]. cbn [fst Py.lower] in *.
  rewrite IH, (lower_digit c Hc). reflexivity.
Qed.

Lemma spaces1_lower s : Re.spaces1 (Py.lower s) = Py.lower <$> Re.spaces1 s.
Proof.
  unfold Re.spaces1. rewrite (span_lower _ _ is_space_lower).
  destruct (Re.span Re.is_space s) as [[|c taken] after]; reflexivity.
Qed.

Lemma digits1_lower s :
  Re.digits1 (Py.lower s)
  = (fun '(group, rest) => (group, Py.lower rest)) <$> Re.digits1 s.
Proof.
  unfold Re.digits1. rewrite (span_lower _ _ is_digit_lower), span_digits_lower.
  destruct (Re.span Re.is_digit s) as [[|c taken] after]; reflexivity.
Qed.

Lemma at_boundary_lower prev s :
  Re.at_boundary (Py.lower_char <$> prev) (Py.lower s) = Re.at_boundary prev s.
Proof.
  unfold Re.at_boundary.
  destruct prev as [p|], s as [|c s]; cbn [fmap option_fmap option_map Py.lower];
    rewrite ?is_word_lower; reflexivity.
Qed.

Lemma pattern1_blind : case_blind Re.pattern1.
Proof.
  intros prev s. unfold Re.pattern1. rewrite literal_lower.
  destruct (Re.literal "slide" s) as [s1|]; [|reflexivity]. opt.
  rewrite spaces1_lower. destruct (Re.spaces1 s1) as [s2|]; [|reflexivity]. opt.
  apply digits1_lower.
Qed.

Lemma pattern2_blind : case_blind Re.pattern2.
Proof.
  intros prev s. unfold Re.pattern2. rewrite digits1_lower.
  destruct (Re.digits1 s) as [[group s1]|]; [|reflexivity]. opt.
  rewrite !literal_lower.
  assert (Hrest : ∀ r : string,
            (s2 ← Re.spaces1 (Py.lower r); s3 ← Re.literal "slide" s2;
             Some (group, s3))
            = (fun '(g, rest) => (g, Py.lower rest))
                <$> (s2 ← Re.spaces1 r; s3 ← Re.literal "slide" s2;
                     Some (group, s3))).
  { intros r. rewrite spaces1_lower. destruct (Re.spaces1 r) as [s2|]; [|reflexivity].
    opt. rewrite literal_lower. destruct (Re.literal "slide" s2); reflexivity. }
  destruct (Re.literal "st" s1) as [r|]; [opt; apply Hrest|].
  destruct (Re.literal "nd" s1) as [r|]; [opt; apply Hrest|].
  destruct (Re.literal "rd" s1) as [r|]; [opt; apply Hrest|].
  destruct (Re.literal "th" s1) as [r|]; [opt; apply Hrest | reflexivity].
Qed.

Lemma pattern3_blind word : case_blind (Re.pattern3 word).
Proof.
  intros prev s. unfold Re.pattern3. rewrite at_boundary_lower.
  destruct (Re.at_boundary prev s); [|reflexivity].
  rewrite literal_lower. destruct (Re.literal word s) as [s1|]; [|reflexivity]. opt.
  rewrite spaces1_lower. destruct (Re.spaces1 s1) as [s2|]; [|reflexivity]. opt.
  rewrite literal_lower. destruct (Re.literal "slide" s2) as [s3|]; [|reflexivity].
  opt. rewrite <- (at_boundary_lower (Some "e"%char) s3).
  change (Py.lower_char <$> Some "e"%char) with (Some "e"%char).
  destruct (Re.at_boundary (Some "e"%char) (Py.lower s3)); reflexivity.
Qed.

Lemma number_blind : case_blind Re.number.
Proof.
  intros prev s. unfold Re.number. rewrite at_boundary_lower.
  destruct (Re.at_boundary prev s); [|reflexivity].
  rewrite digits1_lower. destruct (Re.digits1 s) as [[group rest]|]; [|reflexivity].
  opt. rewrite <- (at_boundary_lower (Some "0"%char) rest).
  change (Py.lower_char <$> Some "0"%char) with (Some "0"%char).
  destruct (Re.at_boundary (Some "0"%char) (Py.lower rest)); reflexivity.
Qed.

Lemma unique_keywords_blind : case_blind Re.unique_keywords.
Proof.
  intros prev s. unfold Re.unique_keywords.
  assert (Hrepeat : ∀ lit,
            (s1 ← Re.literal lit (Py.lower s); s2 ← Re.spaces1 s1;
             Re.literal "repeat" s2)
            = Py.lower <$> (s1 ← Re.literal lit s; s2 ← Re.spaces1 s1;
                            Re.literal "repeat" s2)).
  { intros lit. rewrite literal_lower.
    destruct (Re.literal lit s) as [s1|]; [|reflexivity]. opt.
    rewrite spaces1_lower. destruct (Re.spaces1 s1) as [s2|]; [|reflexivity]. opt.
    apply literal_lower. }
  rewrite !Hrepeat, !literal_lower.
  destruct (s1 ← Re.literal "not" s; s2 ← Re.spaces1 s1; Re.literal "repeat" s2);
    [reflexivity|].
  destruct (Re.literal "unique" s); [reflexivity|].
  destruct (Re.literal "once" s); [reflexivity|].
  destruct (s1 ← Re.literal "don't" s; s2 ← Re.spaces1 s1; Re.literal "repeat" s2);
    [reflexivity|].
  destruct (Re.literal "do not repeat" s); [reflexivity|].
  destruct (Re.literal "single" s); [reflexivity|].
  destruct (Re.literal "special" s); reflexivity.
Qed.

Lemma findall_lower m prev s skip :
  case_blind m →
  Re.findall m (Py.lower_char <$> prev) (Py.lower s) skip = Re.findall m prev s skip.
Proof.
  intros Hm. revert prev skip. induction s as [|c s IH]; intros prev skip;
    [reflexivity|].
  cbn [Py.lower Re.findall]. destruct skip as [|k].
  - change (String (Py.lower_char c) (Py.lower s)) with (Py.lower (String c s)).
    rewrite Hm. destruct (m prev (String c s)) as [[group after]|]; opt.
    + rewrite !length_lower. f_equal. apply (IH (Some c)).
    + apply (IH (Some c)).
  - apply (IH (Some c)).
Qed.

Lemma search_unfold m prev s :
  Re.search m prev s
  = match m prev s with
    | Some _ => true
    | None =>
        match s with
        | EmptyString => false
        | String c rest => Re.search m (Some c) rest
        end
    end.
Proof. destruct s; reflexivity. Qed.

Lemma search_lower m prev s :
  case_blind m →
  Re.search m (Py.lower_char <$> prev) (Py.lower s) = Re.search m prev s.
Proof.
  intros Hm. revert prev. induction s as [|c s IH]; intros prev.
  - rewrite !search_unfold, Hm.
    destruct (m prev EmptyString) as [[g r]|]; reflexivity.
  - rewrite (search_unfold m prev), search_unfold, Hm.
    destruct (m prev (String c s)) as [[g r]|]; [reflexivity|].
    opt. cbn [Py.lower]. apply (IH (Some c)).
Qed.

Lemma split_sentences_lower s :
  Re.split_sentences (Py.lower s) = Py.lower <$> Re.split_sentences s.
Proof.
  induction s as [|c s IH]; [reflexivity|].
  cbn [Py.lower Re.split_sentences]. rewrite is_sentence_end_lower, IH.
  destruct (Re.is_sentence_end c); [reflexivity|].
  destruct (Re.split_sentences s) as [|first others]; reflexivity.
Qed.

Lemma omap_ext_lower {A B} (f g : A → option B) (l : list A) :
  (∀ x, f x = g x) → omap f l = omap g l.
Proof.
  intros H. induction l as [|x l IH]; [reflexivity|].
  cbn [omap list_omap]. rewrite H, IH. reflexivity.
Qed.

(** X28. On plain instructions (ASCII, of at most 4300 characters) the
    extraction of slide numbers does not depend on the case of the
    letters: the text in lower case gives the same numbers, the
    patterns "slide N" and "Nth slide" find the same groups in it and
    the pattern of a number word matches it or not as it does the
    text; so the plan made by extraction is the same. *)
Theorem extract_slide_numbers_case_blind text :
  plain_instructions text →
  TemplateAnalyzer._extract_slide_numbers (Py.lower text)
  = TemplateAnalyzer._extract_slide_numbers text ∧
  Re.findall Re.pattern1 None (Py.lower text) 0 = Re.findall Re.pattern1 None text 0 ∧
  Re.findall Re.pattern2 None (Py.lower text) 0 = Re.findall Re.pattern2 None text 0 ∧
  (∀ word, Re.search (Re.pattern3 word) None (Py.lower text)
           = Re.search (Re.pattern3 word) None text) ∧
  (∀ model n required,
     TemplateAnalyzer._extract_slide_numbers text ≠ [] →
     TemplateAnalyzer.analyze_template_instructions (Some model) n
       (Some (Py.lower text)) required
     = TemplateAnalyzer.analyze_template_instructions (Some model) n (Some text)
         required).
Proof.
  intros _.
  assert (Hfind : ∀ m s, case_blind m →
            Re.findall m None (Py.lower s) 0 = Re.findall m None s 0).
  { intros m s Hm. apply (findall_lower m None s 0 Hm). }
  assert (Hsearch : ∀ m s, case_blind m →
            Re.search m None (Py.lower s) = Re.search m None s).
  { intros m s Hm. apply (search_lower m None s Hm). }
  assert (Hextract : ∀ s, TemplateAnalyzer._extract_slide_numbers (Py.lower s)
                          = TemplateAnalyzer._extract_slide_numbers s).
  { intros s. unfold TemplateAnalyzer._extract_slide_numbers.
    rewrite (Hfind _ _ pattern1_blind), (Hfind _ _ pattern2_blind).
    f_equal. f_equal; [f_equal|].
    + apply omap_ext_lower. intros [word num].
      rewrite (Hsearch _ _ (pattern3_blind word)). reflexivity.
    + rewrite split_sentences_lower, <- list_fmap_compose. f_equal.
      apply list_fmap_ext. intros _ sentence _. cbv [compose].
      rewrite (Hsearch _ _ unique_keywords_blind), (Hfind _ _ number_blind).
      reflexivity. }
  split; [apply Hextract|].
  split; [apply Hfind, pattern1_blind|]. split; [apply Hfind, pattern2_blind|].
  split; [intros word; apply Hsearch, pattern3_blind|].
  intros model n required Hfound.
  destruct text as [|c text]; [exfalso; apply Hfound; reflexivity|].
  pose proof (Hextract (String c text)) as Hsame. cbn [Py.lower] in Hsame.
  unfold TemplateAnalyzer.analyze_template_instructions. cbn [Py.lower].
  rewrite !Hsame.
  destruct (TemplateAnalyzer._extract_slide_numbers (String c text));
    [congruence | reflexivity].
Qed.

Lemma extract_slide_numbers_case_blind_witness :
  plain_instructions "SLIDE 5 and the Second Slide" ∧
  TemplateAnalyzer._extract_slide_numbers "SLIDE 5 and the Second Slide" ≠ [] ∧
  TemplateAnalyzer.analyze_template_instructions (Some Sample.no_model) 6
    (Some (Py.lower "SLIDE 5 and the Second Slide")) 9
  = TemplateAnalyzer.analyze_template_instructions (Some Sample.no_model) 6
      (Some "SLIDE 5 and the Second Slide"%string) 9.
Proof.
  assert (H0 : plain_instructions "SLIDE 5 and the Second Slide")
    by (apply (bool_decide_unpack _); vm_compute; exact I).
  assert (H : TemplateAnalyzer._extract_slide_numbers
                "SLIDE 5 and the Second Slide" ≠ [])
    by (vm_compute; discriminate).
  split; [exact H0|]. split; [exact H|].
  exact (proj2 (proj2 (proj2 (proj2
           (extract_slide_numbers_case_blind
              "SLIDE 5 and the Second Slide" H0)))) Sample.no_model 6 9 H).
Defined.

(** ** The code fences of the answer of the model *)

Lemma strip_unchanged c s d rest :
  PDFExtractor.is_space c = false →
  PDFExtractor.rev (String c s) EmptyString = String d rest →
  PDFExtractor.is_space d = false →
  PDFExtractor.strip (String c s) = String c s.
Proof.
  intros Hc Hrev Hd. unfold PDFExtractor.strip.
  cbn [PDFExtractor.lstrip]. rewrite Hc, Hrev.
  cbn [PDFExtractor.lstrip]. rewrite Hd, <- Hrev. apply rev_involutive.
Qed.

Lemma drop_append a b : ResponseText.drop (String.length a) (String.append a b) = b.
Proof. induction a as [|c a IH]; [destruct b; reflexivity | exact IH]. Qed.

Lemma str_take_append a b : Py.str_take (String.length a) (String.append a b) = a.
Proof.
  unfold Py.str_take. induction a as [|c a IH]; [destruct b; reflexivity|].
  simpl. rewrite IH. reflexivity.
Qed.

Lemma endswith_fence body :
  ResponseText.endswith "```" (String.append body "```") = true ∧
  ResponseText.drop_last 3 (String.append body "```") = body.
Proof.
  unfold ResponseText.endswith, ResponseText.drop_last.
  rewrite length_append.
  replace (String.length body + String.length "```" - String.length "```")%nat
    with (String.length body) by (simpl; lia).
  replace (String.length body + String.length "```" - 3)%nat
    with (String.length body) by (simpl; lia).
  rewrite drop_append, str_take_append. split; [|reflexivity].
  apply andb_true_intro. split; [apply Nat.leb_le; simpl; lia | reflexivity].
Qed.

Lemma strip_fenced opening body :
  (∃ rest, opening = String "`" rest) →
  PDFExtractor.strip (String.append opening (String.append body "```"))
  = String.append opening (String.append body "```").
Proof.
  intros [rest ->]. cbn [String.append].
  eapply (strip_unchanged _ _ "`"%char); [reflexivity | | reflexivity].
  change (String "`" (String.append rest (String.append body "```")))
    with (String.append (String "`" rest) (String.append body "```")).
  rewrite !rev_append. reflexivity.
Qed.

(** X29. The removal of the code fences from the answer of the language
    model. An answer read from [response.text] and fenced with
    "```json" and "```" is returned without the fences and stripped.
    The test for "```json" is written there as a test for "```", so the
    branch for a fence without a language is never taken: such an
    answer loses the fence and the next four characters. On the
    dictionary path, where the first test is for "```json", both kinds
    of fence are removed exactly. When neither path finds a text the
    value error "Could not extract text from response" is raised. *)
Theorem fenced_answer_cleaned :
  (∀ body parts,
     ResponseText._extract_and_clean_text
       (ResponseText.mkResponse
          (Some (String.append "```json" (String.append body "```"))) parts)
     = Ok (PDFExtractor.strip body)) ∧
  (∀ c1 c2 c3 c4 rest parts,
     ResponseText._extract_and_clean_text
       (ResponseText.mkResponse
          (Some (String.append "```"
                   (String.append (String c1 (String c2 (String c3 (String c4 rest))))
                      "```"))) parts)
     = Ok (PDFExtractor.strip rest)) ∧
  (∀ body text,
     text = None ∨ text = Some EmptyString →
     ResponseText._extract_and_clean_text
       (ResponseText.mkResponse text
          (Some (String.append "```json" (String.append body "```"))))
     = Ok (PDFExtractor.strip body)) ∧
  (∀ body text,
     text = None ∨ text = Some EmptyString →
     String.prefix "json" (String.append body "```") = false →
     ResponseText._extract_and_clean_text
       (ResponseText.mkResponse text
          (Some (String.append "```" (String.append body "```"))))
     = Ok (PDFExtractor.strip body)) ∧
  (∀ text,
     text = None ∨ text = Some EmptyString →
     ResponseText._extract_and_clean_text (ResponseText.mkResponse text None)
     = Raise (ValueError "Could not extract text from response")).
Proof.
  assert (Hstart : ∀ tail, ResponseText.startswith "```"
                             (String "`" (String "`" (String "`" tail))) = true).
  { intros tail. unfold ResponseText.startswith. apply prefix_spec.
    exists tail. reflexivity. }
  assert (Hjson : ∀ tail, ResponseText.startswith "```json"
                            (String.append "```json" tail) = true).
  { intros tail. unfold ResponseText.startswith. apply prefix_spec.
    exists tail. reflexivity. }
  split; [|split; [|split; [|split]]].
  - intros body parts. cbn [ResponseText._extract_and_clean_text
      ResponseText.response_text String.append].
    f_equal. unfold ResponseText.clean_text.
    change (String "`" (String "`" (String "`" (String "j" (String "s" (String "o"
              (String "n" (String.append body "```"))))))))
      with (String.append "```json" (String.append body "```")).
    rewrite strip_fenced by (eexists; reflexivity).
    cbn [String.append]. rewrite Hstart. cbn [ResponseText.drop].
    destruct (endswith_fence body) as [-> ->]. reflexivity.
  - intros c1 c2 c3 c4 rest parts. cbn [ResponseText._extract_and_clean_text
      ResponseText.response_text String.append].
    f_equal. unfold ResponseText.clean_text.
    change (String "`" (String "`" (String "`" (String c1 (String c2 (String c3
              (String c4 (String.append rest "```"))))))))
      with (String.append (String "`" (String "`" (String "`" (String c1
              (String c2 (String c3 (String c4 EmptyString)))))))
              (String.append rest "```")).
    rewrite strip_fenced by (eexists; reflexivity).
    cbn [String.append]. rewrite Hstart. cbn [ResponseText.drop].
    destruct (endswith_fence rest) as [-> ->]. reflexivity.
  - intros body text Htext.
    assert (Hparts : ResponseText._extract_and_clean_text
                       (ResponseText.mkResponse text
                          (Some (String.append "```json"
                                   (String.append body "```"))))
                     = Ok (ResponseText.clean_parts_text
                             (String.append "```json" (String.append body "```"))))
      by (destruct Htext as [-> | ->]; reflexivity).
    rewrite Hparts. f_equal. unfold ResponseText.clean_parts_text.
    rewrite strip_fenced by (eexists; reflexivity).
    rewrite Hjson. cbn [String.append ResponseText.drop].
    destruct (endswith_fence body) as [-> ->]. reflexivity.
  - intros body text Htext Hplain.
    assert (Hparts : ResponseText._extract_and_clean_text
                       (ResponseText.mkResponse text
                          (Some (String.append "```" (String.append body "```"))))
                     = Ok (ResponseText.clean_parts_text
                             (String.append "```" (String.append body "```"))))
      by (destruct Htext as [-> | ->]; reflexivity).
    rewrite Hparts. f_equal. unfold ResponseText.clean_parts_text.
    rewrite strip_fenced by (eexists; reflexivity).
    assert (Hnot : ResponseText.startswith "```json"
                     (String.append "```" (String.append body "```")) = false).
    { unfold ResponseText.startswith.
      destruct (String.prefix "```json"
                  (String.append "```" (String.append body "```"))) eqn:E;
        [|reflexivity].
      apply prefix_spec in E as [post E]. cbn [String.append] in E.
      injection E as E.
      assert (String.prefix "json" (String.append body "```") = true)
        by (apply prefix_spec; exists post; exact E).
      congruence. }
    rewrite Hnot. cbn [String.append]. rewrite Hstart. cbn [ResponseText.drop].
    destruct (endswith_fence body) as [-> ->]. reflexivity.
  - intros text [-> | ->]; reflexivity.
Qed.

Lemma fenced_answer_cleaned_witness :
  (@None string = None ∨ @None string = Some EmptyString) ∧
  String.prefix "json" (String.append "[1, 2]" "```") = false ∧
  ResponseText._extract_and_clean_text
    (ResponseText.mkResponse None
       (Some (String.append "```" (String.append "[1, 2]" "```"))))
  = Ok (PDFExtractor.strip "[1, 2]").
Proof.
  assert (H1 : @None string = None ∨ @None string = Some EmptyString)
    by (left; reflexivity).
  assert (H2 : String.prefix "json" (String.append "[1, 2]" "```") = false)
    by (vm_compute; reflexivity).
  split; [exact H1|]. split; [exact H2|].
  exact (proj1 (proj2 (proj2 (proj2 fenced_answer_cleaned))) "[1, 2]"%string None
           H1 H2).
Defined.
